(** * Orchestration scripts for nuclear-data libraries: a shallow embedding

    The development embeds the six command-line scripts of the repository

      - [generate_endf.py]                       (module [Endf])
      - [generate_jendl.py]                      (module [Jendl])
      - [depletion/generate_endf81_chain.py]     (module [Endf81Chain])
      - [depletion/generate_jendl_chain.py]      (module [JendlChain])
      - [depletion/generate_jeff33_chain.py]     (module [Jeff33Chain])
      - [depletion/generate_jeff40_chain.py]     (module [Jeff40Chain])

    as programs of a small state-and-exception monad over a file system,
    which also records the calls the scripts make to code that lives outside
    of them (the [utils] helpers, the process pool, the [openmc] library).

    Layout: the Python and library operations the scripts rely on come first
    (module [Py]), then the file system and the monad, then one module per
    script, then the theorems. *)

From Stdlib Require Import ZArith Ascii String.
From Stdlib Require OrderedTypeEx.
From stdpp Require Import base option list strings gmap sorting.

Local Open Scope Z_scope.

(* ===================================================================== *)
(** * Python values and library operations used by the scripts *)
(* ===================================================================== *)

Module Py.

(** ** [str] methods *)

(** [s.startswith(pre)] *)
Definition startswith (s pre : string) : bool := String.prefix pre s.

(** [s.endswith(suf)] *)
Definition endswith (s suf : string) : bool :=
  let n := String.length s in
  let k := String.length suf in
  (k <=? n)%nat && String.eqb (String.substring (n - k) k s) suf.

Fixpoint chars (s : string) : list ascii :=
  match s with
  | EmptyString => []
  | String c s' => c :: chars s'
  end.

Fixpoint of_chars (l : list ascii) : string :=
  match l with
  | [] => EmptyString
  | c :: l' => String c (of_chars l')
  end.

(** [s.split(sep)] for a one-character separator: the pieces between the
    separators, empty pieces included. *)
Fixpoint split_chars (sep : ascii) (cur : list ascii) (l : list ascii)
  : list string :=
  match l with
  | [] => [of_chars (rev cur)]
  | c :: l' =>
      if Ascii.eqb c sep
      then of_chars (rev cur) :: split_chars sep [] l'
      else split_chars sep (c :: cur) l'
  end.

Definition split (sep : ascii) (s : string) : list string :=
  split_chars sep [] (chars s).

(** [s.rfind('.')]: the index of the last dot, if there is one. *)
Fixpoint rfind_dot_from (i : nat) (l : list ascii) (found : option nat)
  : option nat :=
  match l with
  | [] => found
  | c :: l' =>
      rfind_dot_from (S i) l' (if Ascii.eqb c "."%char then Some i else found)
  end.

Definition rfind_dot (s : string) : option nat :=
  rfind_dot_from 0 (chars s) None.

(** ** [pathlib] *)

(** A path is the list of its components.  [pathlib] collapses empty
    components, single dots and a trailing slash when it parses a string;
    double dots are kept.  All paths of the scripts are taken relative to
    one root (the working directory), as the scripts build them. *)
Definition path := list string.

Definition keep_component (c : string) : bool :=
  negb (String.eqb c "") && negb (String.eqb c ".").

(** [Path(s)] *)
Definition Path (s : string) : path :=
  List.filter keep_component (split "/"%char s).

(** [p.name]: the final component, the empty string when there is none. *)
Definition name (p : path) : string := List.last p "".

(** [p / q] and [p.joinpath(q)] *)
Definition joinpath (p q : path) : path := p ++ q.

(** [p / s] for a string [s]. *)
Definition div (p : path) (s : string) : path := p ++ Path s.

(** [p.parent] *)
Definition parent (p : path) : path := List.removelast p.

(** [p.stem]: the final component without its last suffix.  A dot in
    first or in last position does not start a suffix. *)
Definition stem (p : path) : string :=
  let n := name p in
  match rfind_dot n with
  | Some i =>
      if ((0 <? i)%nat && (i <? String.length n - 1)%nat)%bool
      then String.substring 0 i n
      else n
  | None => n
  end.

(** [p.suffix] *)
Definition suffix (p : path) : string :=
  let n := name p in
  match rfind_dot n with
  | Some i =>
      if ((0 <? i)%nat && (i <? String.length n - 1)%nat)%bool
      then String.substring i (String.length n - i) n
      else ""
  | None => ""
  end.

(** ** [fnmatch]-style wildcards, as [Path.glob] applies them to one
    component: [*] stands for any run of characters, [?] for one
    character, anything else for itself (the patterns of the scripts
    contain no bracket expressions). *)
Fixpoint wild (pat : list ascii) (s : list ascii) {struct pat} : bool :=
  match pat with
  | [] => match s with [] => true | _ => false end
  | c :: pat' =>
      if Ascii.eqb c "*"%char then
        (fix star (s : list ascii) : bool :=
           wild pat' s
           || match s with [] => false | _ :: s' => star s' end) s
      else if Ascii.eqb c "?"%char then
        match s with [] => false | _ :: s' => wild pat' s' end
      else
        match s with
        | [] => false
        | d :: s' => Ascii.eqb c d && wild pat' s'
        end
  end.

Definition fnmatch (n pat : string) : bool := wild (chars pat) (chars n).

(** A pattern with several components matches a relative path with as
    many components, one by one. *)
Fixpoint match_components (pats : list string) (rel : path) : bool :=
  match pats, rel with
  | [], [] => true
  | pat :: pats', c :: rel' => fnmatch c pat && match_components pats' rel'
  | _, _ => false
  end.

(** [rglob] puts [**/] in front of the pattern: the last components of
    the relative path are matched, whatever directories come before. *)
Definition match_suffix (pats : list string) (rel : path) : bool :=
  (length pats <=? length rel)%nat
  && match_components pats (drop (length rel - length pats)%nat rel).

(** [rel] when [p] lies under [base] as [base / rel]. *)
Fixpoint relative_to (base p : path) : option path :=
  match base, p with
  | [], _ => Some p
  | b :: base', c :: p' =>
      if String.eqb b c then relative_to base' p' else None
  | _ :: _, [] => None
  end.

(** ** The two kinds of file collections the scripts handle: a list of
    paths, and the generator object that [base.glob(pattern)] returns,
    which scans the directory only when it is iterated.  Under
    [not flist] a list is false when empty and a generator object is
    always true. *)
Inductive files :=
| PyList (l : list path)
| PyGlob (base : path) (pattern : string).

Definition truthy (f : files) : bool :=
  match f with
  | PyList [] => false
  | PyList (_ :: _) => true
  | PyGlob _ _ => true
  end.

(** [str(p)] *)
Definition path_str (p : path) : string :=
  match p with
  | [] => "."
  | c :: p' => fold_left (fun acc d => acc +:+ "/" +:+ d) p' c
  end.

(** ** Ordering of the values that occur as sort keys *)

(** [str] comparison. *)
Definition str_ltb (a b : string) : bool :=
  match String.compare a b with Lt => true | _ => false end.

(** [Path] comparison: lexicographic on the components. *)
Fixpoint path_ltb (p q : path) : bool :=
  match p, q with
  | [], [] => false
  | [], _ :: _ => true
  | _ :: _, [] => false
  | a :: p', b :: q' =>
      if String.eqb a b then path_ltb p' q' else str_ltb a b
  end.

Definition path_eqb (p q : path) : bool := bool_decide (p = q).

(** Members of a key tuple. *)
Inductive atom :=
| AInt (n : Z)
| APath (p : path).

(** Sort keys: an [int] or a flat [tuple]. *)
Inductive value :=
| VInt (n : Z)
| VTuple (l : list atom).

(** [==] never raises; values of different types are unequal. *)
Definition atom_eqb (a b : atom) : bool :=
  match a, b with
  | AInt m, AInt n => Z.eqb m n
  | APath p, APath q => path_eqb p q
  | _, _ => false
  end.

(** [<]: [None] stands for the [TypeError] that Python raises when the
    operand types do not support the comparison. *)
Definition atom_lt (a b : atom) : option bool :=
  match a, b with
  | AInt m, AInt n => Some (Z.ltb m n)
  | APath p, APath q => Some (path_ltb p q)
  | _, _ => None
  end.

(** Tuples compare at the first position where they differ; when one is a
    prefix of the other the shorter one is smaller. *)
Fixpoint tuple_lt (a b : list atom) : option bool :=
  match a, b with
  | [], [] => Some false
  | [], _ :: _ => Some true
  | _ :: _, [] => Some false
  | x :: a', y :: b' =>
      if atom_eqb x y then tuple_lt a' b' else atom_lt x y
  end.

Definition value_lt (a b : value) : option bool :=
  match a, b with
  | VInt m, VInt n => Some (Z.ltb m n)
  | VTuple l, VTuple k => tuple_lt l k
  | _, _ => None
  end.

End Py.


Import Py.

(* ===================================================================== *)
(** * The file system *)
(* ===================================================================== *)

(** Members of a tar archive carry a type; only regular members
    ([isreg()]) hold data. *)
Inductive tar_type := REGTYPE | DIRTYPE | SYMTYPE.

Record tar_member := TarInfo {
  tar_name : string;
  tar_type_of : tar_type;
  tar_data : string
}.

Definition isreg (m : tar_member) : bool :=
  match tar_type_of m with REGTYPE => true | _ => false end.

(** What a regular file holds: plain bytes, or an archive given by its
    members in archive order.  A zip member is a name and its bytes;
    the name of a directory entry ends with a slash and its bytes are empty. *)
Inductive content :=
| Data (bytes : string)
| ZipArchive (members : list (string * string))
| TarArchive (members : list tar_member).

(** The regular files, by path.  Directories are not stored: a directory is
    there when a file lies below it. *)
Abbreviation FS := (gmap path content).

Inductive exn :=
| FileNotFoundError (msg : string)
| KeyError (key : string)
| IndexError
| ValueError (msg : string)
| TypeError
| BadZipFile
| ReadError
| IsADirectoryError
| OSError
| ExternalError (what : string).

(** Result of a computation that may raise. *)
Inductive outcome (A : Type) :=
| Ok (a : A)
| Raise (e : exn).
Arguments Ok {A} a.
Arguments Raise {A} e.

Module Fs.

Definition under (base p : path) : bool :=
  match relative_to base p with Some _ => true | None => false end.

(** The files of [fs], in the order the file system lists them. *)
Definition listing (fs : FS) : list path := (map_to_list fs).*1.

(** [base.glob(pattern)], regular files only. *)
Definition glob (fs : FS) (base : path) (pattern : string) : list path :=
  List.filter
    (fun p => match relative_to base p with
              | Some rel => match_components (split "/"%char pattern) rel
              | None => false
              end)
    (listing fs).

(** [base.rglob(pattern)], regular files only. *)
Definition rglob (fs : FS) (base : path) (pattern : string) : list path :=
  List.filter
    (fun p => match relative_to base p with
              | Some rel => match_suffix (split "/"%char pattern) rel
              | None => false
              end)
    (listing fs).

(** [p.is_dir()] *)
Definition is_dir (fs : FS) (p : path) : bool :=
  existsb (fun q => under p q && negb (path_eqb p q)) (listing fs).

(** [open(p, "wb")] followed by writing [c]: creates or truncates [p].
    The names [".."] and [""] denote directories and cannot be opened
    for writing. *)
Definition write (p : path) (c : content) (fs : FS) : outcome FS :=
  if String.eqb (name p) ".." || String.eqb (name p) ""
  then Raise IsADirectoryError
  else Ok (<[p := c]> fs).

(** [shutil.copy(src, dst)] for a destination that is a file name. *)
Definition copy (src dst : path) (fs : FS) : outcome FS :=
  match fs !! src with
  | Some c => write dst c fs
  | None => Raise (FileNotFoundError "copy")
  end.

(** All files below directory [src] moved below [dst]. *)
Definition move_tree (src dst : path) (fs : FS) : FS :=
  list_to_map
    (List.map
       (fun '(p, c) =>
          match relative_to src p with
          | Some rel => (dst ++ rel, c)
          | None => (p, c)
          end)
       (map_to_list fs)).

(** [src.rename(dst)] (POSIX [rename]): a file replaces an existing
    file silently, and renaming a file to itself does nothing; a
    directory can only replace an empty or absent directory. *)
Definition rename (src dst : path) (fs : FS) : outcome FS :=
  match fs !! src with
  | Some c =>
      if path_eqb src dst then Ok fs
      else if is_dir fs dst then Raise IsADirectoryError
      else Ok (<[dst := c]> (delete src fs))
  | None =>
      if is_dir fs src then
        if path_eqb src dst then Ok fs
        else if is_dir fs dst || bool_decide (is_Some (fs !! dst))
             then Raise OSError
             else Ok (move_tree src dst fs)
      else Raise (FileNotFoundError "rename")
  end.

(** [shutil.rmtree(base)] *)
Definition rmtree (base : path) (fs : FS) : FS :=
  filter (fun kv => under base kv.1 = false) fs.

End Fs.

(* ===================================================================== *)
(** * Calls that leave the scripts *)
(* ===================================================================== *)

(** What a script hands to [Chain.from_endf]: a collection of file paths, or
    the evaluations that [get_evaluations] read from one file. *)
Inductive chain_arg :=
| Files (f : files)
| Evaluations (read_from : path).

(** The two functions given to [pool.apply_async], with their arguments. *)
Inductive task :=
| process_neutron (filename output_dir : path) (libver : string)
    (temperatures : list string)
| process_thermal (path_neutron path_thermal output_dir : path)
    (libver : string).

Inductive event :=
| Download (url : string) (output_path : option path)
    (checksum : option string) (unverified_context : bool)
| Extract (archive : path) (extraction_dir : option path)
| Submit (t : task)
| Wait (t : task)
| UpdateZsymam (file : path) (zsymam : string)
| PhotonFromEndf (photo atom : path)
| ExportToHdf5 (h5_file : path) (libver : string)
| RegisterFile (p : path)
| ExportToXml (p : path)
| FixMissingTpid (file : path)
| FixMissingTpidExit (file : path)
| GetEvaluations (file : path)
| ChainFromEndf (decay nfy neutron : chain_arg)
| ChainExportToXml (p : path).

(** The behaviour of the code outside the scripts.  Each function reads
    and changes the file system, and may raise.  A pool task cannot make
    the parent raise: [r.wait()] returns whether the task failed or not. *)
Record externals := {
  (* utils *)
  x_download : string -> option path -> option string -> FS -> outcome (path * FS);
  x_extract : path -> option path -> FS -> outcome FS;
  x_task : task -> FS -> FS;
  x_update_zsymam : path -> string -> FS -> outcome FS;
  x_fix_missing_tpid : path -> FS -> outcome (path * FS);
  x_fix_missing_tpid_exit : path -> FS -> FS;
  (* openmc *)
  x_photon_from_endf : path -> path -> FS -> outcome string;
  x_export_to_hdf5 : path -> string -> FS -> outcome FS;
  x_register_file : path -> FS -> outcome unit;
  x_export_to_xml : path -> FS -> outcome FS;
  x_get_evaluations : path -> FS -> outcome unit;
  x_chain_from_endf : chain_arg -> chain_arg -> chain_arg -> FS -> outcome unit;
  x_chain_export_to_xml : path -> FS -> outcome FS
}.

(* ===================================================================== *)
(** * The monad of the scripts *)
(* ===================================================================== *)

(** A run starts from a file system and gives a result or an exception, the
    file system it leaves, and the calls it made, oldest first. *)
Record run (A : Type) := Run {
  result : outcome A;
  final : FS;
  trace : list event
}.
Arguments Run {A} result final trace.
Arguments result {A} r.
Arguments final {A} r.
Arguments trace {A} r.

Definition M (A : Type) : Type := FS -> run A.

Definition ret {A} (a : A) : M A := fun fs => Run (Ok a) fs [].

Definition bind {A B} (m : M A) (f : A -> M B) : M B := fun fs =>
  let r := m fs in
  match result r with
  | Raise e => Run (Raise e) (final r) (trace r)
  | Ok a =>
      let r' := f a (final r) in
      Run (result r') (final r') (trace r ++ trace r')
  end.

Definition raise {A} (e : exn) : M A := fun fs => Run (Raise e) fs [].

(** A pure computation that may raise. *)
Definition lift {A} (o : outcome A) : M A := fun fs => Run o fs [].

(** A read of the file system. *)
Definition gets {A} (f : FS -> A) : M A := fun fs => Run (Ok (f fs)) fs [].

(** A file operation of the script itself. *)
Definition fsop (f : FS -> outcome FS) : M unit := fun fs =>
  match f fs with
  | Ok fs' => Run (Ok tt) fs' []
  | Raise e => Run (Raise e) fs []
  end.

(** A call to outside code: the call is recorded, then its effect applies. *)
Definition call {A} (ev : event) (h : FS -> outcome (A * FS)) : M A := fun fs =>
  match h fs with
  | Ok (a, fs') => Run (Ok a) fs' [ev]
  | Raise e => Run (Raise e) fs [ev]
  end.

Definition effect (h : FS -> outcome FS) (fs : FS) : outcome (unit * FS) :=
  match h fs with Ok fs' => Ok (tt, fs') | Raise e => Raise e end.

Definition query {A} (h : FS -> outcome A) (fs : FS) : outcome (A * FS) :=
  match h fs with Ok a => Ok (a, fs) | Raise e => Raise e end.

Definition total (h : FS -> FS) (fs : FS) : outcome (unit * FS) :=
  Ok (tt, h fs).

(** The scripts are written with stdpp's monad notations:
    [x ← m; k] and [m;; k]. *)
#[global] Instance M_ret : MRet M := @ret.
#[global] Instance M_bind : MBind M := fun A B f m => bind m f.

(** [for x in l: body(x)] *)
Fixpoint for_ {A} (l : list A) (body : A -> M unit) : M unit :=
  match l with
  | [] => ret tt
  | x :: l' => body x;; for_ l' body
  end.

(** [if c: body] *)
Definition when (c : bool) (body : M unit) : M unit :=
  if c then body else ret tt.

(** [with cm as x: body(x)]: the exit runs whether the body raises or not. *)
Definition with_ {A B} (enter : M A) (leave : M unit) (body : A -> M B)
  : M B := fun fs =>
  let r := enter fs in
  match result r with
  | Raise e => Run (Raise e) (final r) (trace r)
  | Ok a =>
      let r1 := body a (final r) in
      let r2 := leave (final r1) in
      Run (match result r2 with
           | Raise e => Raise e
           | Ok _ => result r1
           end)
          (final r2) (trace r ++ trace r1 ++ trace r2)
  end.

#[global] Instance outcome_ret : MRet outcome := @Ok.
#[global] Instance outcome_bind : MBind outcome := fun A B f o =>
  match o with Ok a => f a | Raise e => Raise e end.

(** [d[key]] on a dictionary entry that may be missing. *)
Definition item {A} (key : string) (o : option A) : outcome A :=
  match o with Some a => Ok a | None => Raise (KeyError key) end.

(** [l[i]] *)
Definition index {A} (l : list A) (i : nat) : outcome A :=
  match l !! i with Some a => Ok a | None => Raise IndexError end.

(** [enumerate(l)] *)
Definition enumerate {A} (l : list A) : list (nat * A) :=
  zip (seq 0 (length l)) l.

(** A loop that appends to a list of results: the body gives the results
    it appends, none where the source says [continue]. *)
Fixpoint collect {A R} (l : list A) (body : A -> M (list R)) : M (list R) :=
  match l with
  | [] => mret []
  | x :: l' =>
      r ← body x;
      rs ← collect l' body;
      mret (r ++ rs)
  end.

(* ===================================================================== *)
(** * [sorted] *)
(* ===================================================================== *)

(** [sorted(l, key=key)] is stable and compares keys with [<] only.  It is
    written here as a stable insertion sort; a comparison that raises makes
    the whole sort raise. *)
Section Sorted.
Context {K A : Type} (lt : K -> K -> option bool).

Fixpoint insert_keyed (x : K * A) (l : list (K * A))
  : option (list (K * A)) :=
  match l with
  | [] => Some [x]
  | y :: l' =>
      match lt y.1 x.1 with
      | None => None
      | Some true => cons y <$> insert_keyed x l'
      | Some false => Some (x :: y :: l')
      end
  end.

Fixpoint sort_keyed (l : list (K * A)) : option (list (K * A)) :=
  match l with
  | [] => Some []
  | x :: l' => sort_keyed l' ≫= insert_keyed x
  end.
End Sorted.

Fixpoint keys_of {A K} (key : A -> outcome K) (l : list A)
  : outcome (list (K * A)) :=
  match l with
  | [] => Ok []
  | x :: l' =>
      k ← key x;
      ks ← keys_of key l';
      Ok ((k, x) :: ks)
  end.

(** [sorted(l, key=key)] with keys that are Python values. *)
Definition sorted_by (key : path -> outcome value) (l : list path)
  : outcome (list path) :=
  ks ← keys_of key l;
  match sort_keyed value_lt ks with
  | Some r => Ok r.*2
  | None => Raise TypeError
  end.

(** [sorted(l)] for a list of paths. *)
Definition sorted (l : list path) : list path :=
  match sort_keyed (fun p q => Some (path_ltb p q)) (List.map (fun p => (p, p)) l) with
  | Some r => r.*2
  | None => l
  end.

(* ===================================================================== *)
(** * [openmc.data.zam] *)
(* ===================================================================== *)

(** The function belongs to the external library.  It is given here by its
    documented behaviour.  The name is matched at its start against the GNDS
    pattern: a capital letter or the letter n, then lower-case letters (the
    symbol); then one or more digits (the mass number); then, optionally, an
    underscore, the letter e or m, and one or more digits (the state).  The
    result is the 3-tuple (atomic number, mass number, metastable state); a
    name that does not match, or whose symbol is no element, raises
    [ValueError]. *)
Module Openmc.

Definition ATOMIC_SYMBOL : list string :=
  ["n"; "H"; "He"; "Li"; "Be"; "B"; "C"; "N"; "O"; "F"; "Ne"; "Na"; "Mg";
   "Al"; "Si"; "P"; "S"; "Cl"; "Ar"; "K"; "Ca"; "Sc"; "Ti"; "V"; "Cr";
   "Mn"; "Fe"; "Co"; "Ni"; "Cu"; "Zn"; "Ga"; "Ge"; "As"; "Se"; "Br"; "Kr";
   "Rb"; "Sr"; "Y"; "Zr"; "Nb"; "Mo"; "Tc"; "Ru"; "Rh"; "Pd"; "Ag"; "Cd";
   "In"; "Sn"; "Sb"; "Te"; "I"; "Xe"; "Cs"; "Ba"; "La"; "Ce"; "Pr"; "Nd";
   "Pm"; "Sm"; "Eu"; "Gd"; "Tb"; "Dy"; "Ho"; "Er"; "Tm"; "Yb"; "Lu"; "Hf";
   "Ta"; "W"; "Re"; "Os"; "Ir"; "Pt"; "Au"; "Hg"; "Tl"; "Pb"; "Bi"; "Po";
   "At"; "Rn"; "Fr"; "Ra"; "Ac"; "Th"; "Pa"; "U"; "Np"; "Pu"; "Am"; "Cm";
   "Bk"; "Cf"; "Es"; "Fm"; "Md"; "No"; "Lr"; "Rf"; "Db"; "Sg"; "Bh"; "Hs";
   "Mt"; "Ds"; "Rg"; "Cn"; "Nh"; "Fl"; "Mc"; "Lv"; "Ts"; "Og"].

(** [ATOMIC_NUMBER[symbol]], the position of the symbol in the table. *)
Fixpoint position (s : string) (l : list string) (i : Z) : option Z :=
  match l with
  | [] => None
  | x :: l' => if String.eqb x s then Some i else position s l' (i + 1)
  end.

Definition ATOMIC_NUMBER (symbol : string) : option Z :=
  position symbol ATOMIC_SYMBOL 0.

Definition is_upper (c : ascii) : bool :=
  let n := nat_of_ascii c in (65 <=? n)%nat && (n <=? 90)%nat.
Definition is_lower (c : ascii) : bool :=
  let n := nat_of_ascii c in (97 <=? n)%nat && (n <=? 122)%nat.
Definition is_digit (c : ascii) : bool :=
  let n := nat_of_ascii c in (48 <=? n)%nat && (n <=? 57)%nat.

Fixpoint span (f : ascii -> bool) (l : list ascii)
  : list ascii * list ascii :=
  match l with
  | c :: l' =>
      if f c then let '(a, b) := span f l' in (c :: a, b) else ([], l)
  | [] => ([], [])
  end.

(** [int(s)] for a run of digits. *)
Definition int_of_digits (l : list ascii) : Z :=
  fold_left (fun acc c => 10 * acc + (Z.of_nat (nat_of_ascii c) - 48)) l 0.

(** The groups [(symbol, A, state)] of the match, if the name matches. *)
Definition gnds_match (s : string)
  : option (string * list ascii * list ascii) :=
  match chars s with
  | c :: rest =>
      if is_upper c || Ascii.eqb c "n"%char then
        let '(lower, rest1) := span is_lower rest in
        let '(mass, rest2) := span is_digit rest1 in
        match mass with
        | [] => None
        | _ :: _ =>
            let state :=
              match rest2 with
              | u :: k :: rest3 =>
                  if Ascii.eqb u "_"%char
                     && (Ascii.eqb k "e"%char || Ascii.eqb k "m"%char)
                  then
                    match span is_digit rest3 with
                    | ([], _) => []
                    | (ds, _) => u :: k :: ds
                    end
                  else []
              | _ => []
              end in
            Some (of_chars (c :: lower), mass, state)
        end
      else None
  | [] => None
  end.

Definition zam (n : string) : outcome value :=
  match gnds_match n with
  | None => Raise (ValueError "not a nuclide name in GNDS format")
  | Some (symbol, mass, state) =>
      match ATOMIC_NUMBER symbol with
      | None => Raise (ValueError "not a recognized element symbol")
      | Some z =>
          let metastable :=
            match state with
            | [] => 0
            | _ => int_of_digits (drop 2 state)
            end in
          Ok (VTuple [AInt z; AInt (int_of_digits mass); AInt metastable])
      end
  end.

End Openmc.

(* ===================================================================== *)
(** * Calls shared by the scripts *)
(* ===================================================================== *)

Section Calls.
Variable X : externals.

(** [utils.download(url, output_path=..., checksum=..., context=...)] *)
Definition download (url : string) (output_path : option path)
    (checksum : option string) (unverified_context : bool) : M path :=
  call (Download url output_path checksum unverified_context)
       (x_download X url output_path checksum).

(** [utils.extract(archive, extraction_dir=...)] *)
Definition extract (archive : path) (extraction_dir : option path) : M unit :=
  call (Extract archive extraction_dir)
       (effect (x_extract X archive extraction_dir)).

(** [pool.apply_async(f, func_args)]: the task is handed to the pool. *)
Definition apply_async (t : task) : M task :=
  call (Submit t) (fun fs => Ok (t, fs)).

(** [r.wait()]: returns once the task has run. *)
Definition wait (t : task) : M unit :=
  call (Wait t) (total (x_task X t)).

(** [library.register_file(p)] *)
Definition register_file (p : path) : M unit :=
  call (RegisterFile p) (query (x_register_file X p)).

(** [library.export_to_xml(p)] *)
Definition export_to_xml (p : path) : M unit :=
  call (ExportToXml p) (effect (x_export_to_xml X p)).

(** [openmc.data.IncidentPhoton.from_endf(photo, atom)], giving the
    [name] of the data. *)
Definition photon_from_endf (photo atom : path) : M string :=
  call (PhotonFromEndf photo atom) (query (x_photon_from_endf X photo atom)).

(** [data.export_to_hdf5(h5_file, 'w', libver=libver)] *)
Definition export_to_hdf5 (h5_file : path) (libver : string) : M unit :=
  call (ExportToHdf5 h5_file libver) (effect (x_export_to_hdf5 X h5_file libver)).

(** [utils.update_zsymam(file, zsymam)] *)
Definition update_zsymam (file : path) (zsymam : string) : M unit :=
  call (UpdateZsymam file zsymam) (effect (x_update_zsymam X file zsymam)).

(** [with fix_missing_tpid(file) as fixed: body(fixed)] *)
Definition with_fix_missing_tpid {B} (file : path) (body : path -> M B) : M B :=
  with_ (call (FixMissingTpid file) (x_fix_missing_tpid X file))
        (call (FixMissingTpidExit file) (total (x_fix_missing_tpid_exit X file)))
        body.

(** [openmc.data.endf.get_evaluations(file)] *)
Definition get_evaluations (file : path) : M chain_arg :=
  call (GetEvaluations file) (query (x_get_evaluations X file));;
  mret (Evaluations file).

(** [Chain.from_endf(decay, nfy, neutron)] *)
Definition chain_from_endf (decay nfy neutron : chain_arg) : M unit :=
  call (ChainFromEndf decay nfy neutron)
       (query (x_chain_from_endf X decay nfy neutron)).

(** [chain.export_to_xml(p)] *)
Definition chain_export_to_xml (p : path) : M unit :=
  call (ChainExportToXml p) (effect (x_chain_export_to_xml X p)).

End Calls.

(* ===================================================================== *)
(** * [generate_endf.py] *)
(* ===================================================================== *)

Module Endf.

(** The choices of [--release] and [--particles]. *)
Inductive release := vii_1 | viii_0 | viii_1.
Inductive particle := neutron | thermal | photon | wmp.

#[global] Instance particle_eq_dec : EqDecision particle.
Proof. solve_decision. Defined.
#[global] Instance release_eq_dec : EqDecision release.
Proof. solve_decision. Defined.

Definition release_str (r : release) : string :=
  match r with vii_1 => "vii.1" | viii_0 => "viii.0" | viii_1 => "viii.1" end.

Definition particle_str (p : particle) : string :=
  match p with
  | neutron => "neutron" | thermal => "thermal"
  | photon => "photon" | wmp => "wmp"
  end.

(** The parsed command line.  A destination given by the user is a
    resolved path. *)
Record args := Args {
  destination : option path;
  download_flag : bool;
  extract_flag : bool;
  libver : string;
  release_of : release;
  particles : list particle;
  cleanup : bool;
  temperatures : list string
}.

(** The values of ['file_type']. *)
Inductive ftype := ENDF | WMP.

(** One entry of [release_details]; a key that the entry does not have is
    [None].  The [rglob] generators of the table are kept as the
    directory and the pattern they will scan when they are iterated. *)
Record details := Details {
  base_url : option string;
  compressed_files : option (list string);
  checksums : option (list string);
  file_type : option ftype;
  endf_files : option (path * string);
  sab_files : option (list (string * string));
  photo_files : option (path * string);
  atom_files : option (path * string)
}.

Section Tables.
Variables neutron_dir endf_files_dir : path.

Definition details_vii_1_neutron : details :=
  {| base_url := Some "http://www.nndc.bnl.gov/endf-b7.1/zips/";
     compressed_files := Some ["ENDF-B-VII.1-neutrons.zip"];
     checksums := Some ["e5d7f441fc4c92893322c24d1725e29c"];
     file_type := Some ENDF;
     endf_files := Some (neutron_dir, "n-*.endf");
     sab_files := None;
     photo_files := None;
     atom_files := None |}.

Definition details_vii_1_thermal : details :=
  {| base_url := Some "http://www.nndc.bnl.gov/endf-b7.1/zips/";
     compressed_files := Some ["ENDF-B-VII.1-thermal_scatt.zip"];
     checksums := Some ["fe590109dde63b2ec5dc228c7b8cab02"];
     file_type := Some ENDF;
     endf_files := None;
     sab_files := Some [("n-001_H_001.endf", "tsl-HinH2O.endf");
                  ("n-001_H_001.endf", "tsl-HinCH2.endf");
                  ("n-001_H_001.endf", "tsl-HinZrH.endf");
                  ("n-001_H_001.endf", "tsl-ortho-H.endf");
                  ("n-001_H_001.endf", "tsl-para-H.endf");
                  ("n-001_H_001.endf", "tsl-benzine.endf");
                  ("n-001_H_001.endf", "tsl-l-CH4.endf");
                  ("n-001_H_001.endf", "tsl-s-CH4.endf");
                  ("n-001_H_002.endf", "tsl-DinD2O.endf");
                  ("n-001_H_002.endf", "tsl-ortho-D.endf");
                  ("n-001_H_002.endf", "tsl-para-D.endf");
                  ("n-004_Be_009.endf", "tsl-BeinBeO.endf");
                  ("n-004_Be_009.endf", "tsl-Be-metal.endf");
                  ("n-006_C_000.endf", "tsl-graphite.endf");
                  ("n-008_O_016.endf", "tsl-OinBeO.endf");
                  ("n-008_O_016.endf", "tsl-OinUO2.endf");
                  ("n-013_Al_027.endf", "tsl-013_Al_027.endf");
                  ("n-026_Fe_056.endf", "tsl-026_Fe_056.endf");
                  ("n-014_Si_028.endf", "tsl-SiO2.endf");
                  ("n-040_Zr_090.endf", "tsl-ZrinZrH.endf");
                  ("n-092_U_238.endf", "tsl-UinUO2.endf")];
     photo_files := None;
     atom_files := None |}.

Definition details_vii_1_photon : details :=
  {| base_url := Some "http://www.nndc.bnl.gov/endf-b7.1/zips/";
     compressed_files := Some ["ENDF-B-VII.1-photoat.zip";
                         "ENDF-B-VII.1-atomic_relax.zip"];
     checksums := Some ["5192f94e61f0b385cf536f448ffab4a4";
                  "fddb6035e7f2b6931e51a58fc754bd10"];
     file_type := Some ENDF;
     endf_files := None;
     sab_files := None;
     photo_files := Some (joinpath endf_files_dir (Path "photon"), "photoat*.endf");
     atom_files := Some (joinpath endf_files_dir (Path "photon"), "atom*.endf") |}.

Definition details_vii_1_wmp : details :=
  {| base_url := Some "https://github.com/mit-crpg/WMP_Library/releases/download/v1.1/";
     compressed_files := Some ["WMP_Library_v1.1.tar.gz"];
     checksums := None;
     file_type := Some WMP;
     endf_files := None;
     sab_files := None;
     photo_files := None;
     atom_files := None |}.

Definition details_viii_0_neutron : details :=
  {| base_url := Some "https://www.nndc.bnl.gov/endf-b8.0/";
     compressed_files := Some ["zips/ENDF-B-VIII.0_neutrons.zip";
                         "erratafiles/n-005_B_010.endf"];
     checksums := Some ["90c1b1a6653a148f17cbf3c5d1171859";
                  "eaf71eb22258f759abc205a129d8715a"];
     file_type := Some ENDF;
     endf_files := Some (neutron_dir, "n-*.endf");
     sab_files := None;
     photo_files := None;
     atom_files := None |}.

Definition details_viii_0_thermal : details :=
  {| base_url := Some "https://www.nndc.bnl.gov/endf-b8.0/zips/";
     compressed_files := Some ["ENDF-B-VIII.0_thermal_scatt.zip"];
     checksums := Some ["ecd503d3f8214f703e95e17cc947062c"];
     file_type := Some ENDF;
     endf_files := None;
     sab_files := Some [("n-001_H_001.endf", "tsl-HinC5O2H8.endf");
                  ("n-001_H_001.endf", "tsl-HinH2O.endf");
                  ("n-001_H_001.endf", "tsl-HinCH2.endf");
                  ("n-001_H_001.endf", "tsl-HinZrH.endf");
                  ("n-001_H_001.endf", "tsl-HinIceIh.endf");
                  ("n-001_H_001.endf", "tsl-HinYH2.endf");
                  ("n-001_H_001.endf", "tsl-ortho-H.endf");
                  ("n-001_H_001.endf", "tsl-para-H.endf");
                  ("n-001_H_001.endf", "tsl-benzene.endf");
                  ("n-001_H_001.endf", "tsl-l-CH4.endf");
                  ("n-001_H_001.endf", "tsl-s-CH4.endf");
                  ("n-001_H_002.endf", "tsl-DinD2O.endf");
                  ("n-001_H_002.endf", "tsl-ortho-D.endf");
                  ("n-001_H_002.endf", "tsl-para-D.endf");
                  ("n-004_Be_009.endf", "tsl-BeinBeO.endf");
                  ("n-004_Be_009.endf", "tsl-Be-metal.endf");
                  ("n-006_C_012.endf", "tsl-CinSiC.endf");
                  ("n-006_C_012.endf", "tsl-crystalline-graphite.endf");
                  ("n-006_C_012.endf", "tsl-reactor-graphite-10P.endf");
                  ("n-006_C_012.endf", "tsl-reactor-graphite-30P.endf");
                  ("n-007_N_014.endf", "tsl-NinUN.endf");
                  ("n-008_O_016.endf", "tsl-OinBeO.endf");
                  ("n-008_O_016.endf", "tsl-OinD2O.endf");
                  ("n-008_O_016.endf", "tsl-OinIceIh.endf");
                  ("n-008_O_016.endf", "tsl-OinUO2.endf");
                  ("n-013_Al_027.endf", "tsl-013_Al_027.endf");
                  ("n-026_Fe_056.endf", "tsl-026_Fe_056.endf");
                  ("n-014_Si_028.endf", "tsl-SiinSiC.endf");
                  ("n-014_Si_028.endf", "tsl-SiO2-alpha.endf");
                  ("n-014_Si_028.endf", "tsl-SiO2-beta.endf");
                  ("n-039_Y_089.endf", "tsl-YinYH2.endf");
                  ("n-040_Zr_090.endf", "tsl-ZrinZrH.endf");
                  ("n-092_U_238.endf", "tsl-UinUN.endf");
                  ("n-092_U_238.endf", "tsl-UinUO2.endf")];
     photo_files := None;
     atom_files := None |}.

Definition details_viii_0_photon : details :=
  {| base_url := Some "https://www.nndc.bnl.gov/endf-b8.0/";
     compressed_files := Some ["zips/ENDF-B-VIII.0_photoat.zip";
                         "erratafiles/atomic_relax.tar.gz"];
     checksums := Some ["d49f5b54be278862e1ce742ccd94f5c0";
                  "805f877c59ad22dcf57a0446d266ceea"];
     file_type := Some ENDF;
     endf_files := None;
     sab_files := None;
     photo_files := Some (joinpath endf_files_dir (Path "photon"), "photoat*.endf");
     atom_files := Some (joinpath endf_files_dir (Path "photon"), "atom*.endf") |}.

Definition details_viii_1_neutron : details :=
  {| base_url := Some "https://www.nndc.bnl.gov/endf-releases/releases/B-VIII.1/neutrons/";
     compressed_files := Some ["neutrons-version.VIII.1.tar.gz"];
     checksums := Some ["dc622c0f1c3c4477433e698266e0fc80"];
     file_type := Some ENDF;
     endf_files := Some (neutron_dir, "n-*.endf");
     sab_files := None;
     photo_files := None;
     atom_files := None |}.

Definition details_viii_1_thermal : details :=
  {| base_url := Some "https://www.nndc.bnl.gov/endf-releases/releases/B-VIII.1/thermal_scatt/";
     compressed_files := Some ["thermal_scatt-version.VIII.1.tar.gz"];
     checksums := Some ["f7bcae02b2da577e28a3a083e07a3a3a"];
     file_type := Some ENDF;
     endf_files := None;
     sab_files := Some [("n-001_H_001.endf", "tsl-H1inCaH2.endf");
                  ("n-001_H_001.endf", "tsl-H2inCaH2.endf");
                  ("n-001_H_001.endf", "tsl-Hin7LiH-mixed.endf");
                  ("n-001_H_001.endf", "tsl-HinC5O2H8.endf");
                  ("n-001_H_001.endf", "tsl-HinC8H8.endf");
                  ("n-001_H_001.endf", "tsl-HinCH2.endf");
                  ("n-001_H_001.endf", "tsl-HinH2O.endf");
                  ("n-001_H_001.endf", "tsl-HinHF.endf");
                  ("n-001_H_001.endf", "tsl-HinIceIh.endf");
                  ("n-001_H_001.endf", "tsl-HinParaffinicOil.endf");
                  ("n-001_H_001.endf", "tsl-HinUH3.endf");
                  ("n-001_H_001.endf", "tsl-HinYH2.endf");
                  ("n-001_H_001.endf", "tsl-HinZrH2.endf");
                  ("n-001_H_001.endf", "tsl-HinZrH.endf");
                  ("n-001_H_001.endf", "tsl-HinZrHx.endf");
                  ("n-001_H_001.endf", "tsl-ortho-H.endf");
                  ("n-001_H_001.endf", "tsl-para-H.endf");
                  ("n-001_H_001.endf", "tsl-benzene.endf");
                  ("n-001_H_001.endf", "tsl-l-CH4.endf");
                  ("n-001_H_001.endf", "tsl-s-CH4.endf");
                  ("n-001_H_002.endf", "tsl-Din7LiD-mixed.endf");
                  ("n-001_H_002.endf", "tsl-DinD2O.endf");
                  ("n-001_H_002.endf", "tsl-ortho-D.endf");
                  ("n-001_H_002.endf", "tsl-para-D.endf");
                  ("n-003_Li_007.endf", "tsl-7Liin7LiD-mixed.endf");
                  ("n-003_Li_007.endf", "tsl-7Liin7LiH-mixed.endf");
                  ("n-003_Li_007.endf", "tsl-LiinFLiBe.endf");
                  ("n-004_Be_009.endf", "tsl-BeinBe2C.endf");
                  ("n-004_Be_009.endf", "tsl-BeinBeF2.endf");
                  ("n-004_Be_009.endf", "tsl-BeinBeO.endf");
                  ("n-004_Be_009.endf", "tsl-BeinFLiBe.endf");
                  ("n-004_Be_009.endf", "tsl-Be-metal.endf");
                  ("n-004_Be_009.endf", "tsl-Be-metal+Sd.endf");
                  ("n-006_C_012.endf", "tsl-CinBe2C.endf");
                  ("n-006_C_012.endf", "tsl-CinC5O2H8.endf");
                  ("n-006_C_012.endf", "tsl-CinC8H8.endf");
                  ("n-006_C_012.endf", "tsl-CinCF2.endf");
                  ("n-006_C_012.endf", "tsl-CinSiC.endf");
                  ("n-006_C_012.endf", "tsl-CinUC-100P.endf");
                  ("n-006_C_012.endf", "tsl-CinUC-10P.endf");
                  ("n-006_C_012.endf", "tsl-CinUC-5P.endf");
                  ("n-006_C_012.endf", "tsl-CinUC.endf");
                  ("n-006_C_012.endf", "tsl-CinUC-HALEU.endf");
                  ("n-006_C_012.endf", "tsl-CinUC-HEU.endf");
                  ("n-006_C_012.endf", "tsl-CinZrC.endf");
                  ("n-006_C_012.endf", "tsl-crystalline-graphite.endf");
                  ("n-006_C_012.endf", "tsl-graphiteSd.endf");
                  ("n-006_C_012.endf", "tsl-reactor-graphite-10P.endf");
                  ("n-006_C_012.endf", "tsl-reactor-graphite-20P.endf");
                  ("n-006_C_012.endf", "tsl-reactor-graphite-30P.endf");
                  ("n-007_N_014.endf", "tsl-NinUN-100P.endf");
                  ("n-007_N_014.endf", "tsl-NinUN-10P.endf");
                  ("n-007_N_014.endf", "tsl-NinUN-5P.endf");
                  ("n-007_N_014.endf", "tsl-NinUN.endf");
                  ("n-007_N_014.endf", "tsl-NinUN-HALEU.endf");
                  ("n-007_N_014.endf", "tsl-NinUN-HEU.endf");
                  ("n-008_O_016.endf", "tsl-OinAl2O3.endf");
                  ("n-008_O_016.endf", "tsl-OinBeO.endf");
                  ("n-008_O_016.endf", "tsl-OinC5O2H8.endf");
                  ("n-008_O_016.endf", "tsl-OinD2O.endf");
                  ("n-008_O_016.endf", "tsl-OinIceIh.endf");
                  ("n-008_O_016.endf", "tsl-OinMgO.endf");
                  ("n-008_O_016.endf", "tsl-OinPuO2.endf");
                  ("n-008_O_016.endf", "tsl-OinSiO2-alpha.endf");
                  ("n-008_O_016.endf", "tsl-OinUO2-100P.endf");
                  ("n-008_O_016.endf", "tsl-OinUO2-10P.endf");
                  ("n-008_O_016.endf", "tsl-OinUO2-5P.endf");
                  ("n-008_O_016.endf", "tsl-OinUO2.endf");
                  ("n-008_O_016.endf", "tsl-OinUO2-HALEU.endf");
                  ("n-008_O_016.endf", "tsl-OinUO2-HEU.endf");
                  ("n-009_F_019.endf", "tsl-FinBeF2.endf");
                  ("n-009_F_019.endf", "tsl-FinCF2.endf");
                  ("n-009_F_019.endf", "tsl-FinFLiBe.endf");
                  ("n-009_F_019.endf", "tsl-FinHF.endf");
                  ("n-009_F_019.endf", "tsl-FinMgF2.endf");
                  ("n-012_Mg_024.endf", "tsl-MginMgF2.endf");
                  ("n-012_Mg_024.endf", "tsl-MginMgO.endf");
                  ("n-013_Al_027.endf", "tsl-013_Al_027.endf");
                  ("n-013_Al_027.endf", "tsl-AlinAl2O3.endf");
                  ("n-026_Fe_056.endf", "tsl-026_Fe_056.endf");
                  ("n-014_Si_028.endf", "tsl-SiinSiC.endf");
                  ("n-014_Si_028.endf", "tsl-SiinSiO2-alpha.endf");
                  ("n-014_Si_028.endf", "tsl-SiO2-beta.endf");
                  ("n-020_Ca_040.endf", "tsl-CainCaH2.endf");
                  ("n-039_Y_089.endf", "tsl-YinYH2.endf");
                  ("n-040_Zr_090.endf", "tsl-ZrinZrC.endf");
                  ("n-040_Zr_090.endf", "tsl-ZrinZrH2.endf");
                  ("n-040_Zr_090.endf", "tsl-ZrinZrH.endf");
                  ("n-040_Zr_090.endf", "tsl-ZrinZrHx.endf");
                  ("n-092_U_238.endf", "tsl-UinUC-100P.endf");
                  ("n-092_U_238.endf", "tsl-UinUC-10P.endf");
                  ("n-092_U_238.endf", "tsl-UinUC-5P.endf");
                  ("n-092_U_238.endf", "tsl-UinUC.endf");
                  ("n-092_U_238.endf", "tsl-UinUC-HALEU.endf");
                  ("n-092_U_238.endf", "tsl-UinUC-HEU.endf");
                  ("n-092_U_238.endf", "tsl-UinUN-100P.endf");
                  ("n-092_U_238.endf", "tsl-UinUN-10P.endf");
                  ("n-092_U_238.endf", "tsl-UinUN-5P.endf");
                  ("n-092_U_238.endf", "tsl-UinUN.endf");
                  ("n-092_U_238.endf", "tsl-UinUN-HALEU.endf");
                  ("n-092_U_238.endf", "tsl-UinUN-HEU.endf");
                  ("n-092_U_238.endf", "tsl-UinUO2-100P.endf");
                  ("n-092_U_238.endf", "tsl-UinUO2-10P.endf");
                  ("n-092_U_238.endf", "tsl-UinUO2-5P.endf");
                  ("n-092_U_238.endf", "tsl-UinUO2.endf");
                  ("n-092_U_238.endf", "tsl-UinUO2-HALEU.endf");
                  ("n-092_U_238.endf", "tsl-UinUO2-HEU.endf");
                  ("n-092_U_238.endf", "tsl-U-metal-100P.endf");
                  ("n-092_U_238.endf", "tsl-U-metal-10P.endf");
                  ("n-092_U_238.endf", "tsl-U-metal-5P.endf");
                  ("n-092_U_238.endf", "tsl-U-metal.endf");
                  ("n-092_U_238.endf", "tsl-U-metal-HALEU.endf");
                  ("n-092_U_238.endf", "tsl-U-metal-HEU.endf");
                  ("n-094_Pu_239.endf", "tsl-PuinPuO2.endf")];
     photo_files := None;
     atom_files := None |}.

Definition details_viii_1_photon : details :=
  {| base_url := Some "https://www.nndc.bnl.gov/endf-releases/releases/B-VIII.1/";
     compressed_files := Some ["photoat/photoat-version.VIII.1.tar.gz";
                         "atomic_relax/atomic_relax-version.VIII.1.tar.gz"];
     checksums := Some ["6d5f4830f6290d6c618803a8391ba0cf";
                  "70e9ca0c481236499b7a3e0a490f4ef2"];
     file_type := Some ENDF;
     endf_files := None;
     sab_files := None;
     photo_files := Some (joinpath endf_files_dir (Path "photon"), "photoat*.endf");
     atom_files := Some (joinpath endf_files_dir (Path "photon"), "atom*.endf") |}.

Definition release_details (r : release) (p : particle) : option details :=
  match r, p with
  | vii_1, neutron => Some details_vii_1_neutron
  | vii_1, thermal => Some details_vii_1_thermal
  | vii_1, photon => Some details_vii_1_photon
  | vii_1, wmp => Some details_vii_1_wmp
  | viii_0, neutron => Some details_viii_0_neutron
  | viii_0, thermal => Some details_viii_0_thermal
  | viii_0, photon => Some details_viii_0_photon
  | viii_0, wmp => None
  | viii_1, neutron => Some details_viii_1_neutron
  | viii_1, thermal => Some details_viii_1_thermal
  | viii_1, photon => Some details_viii_1_photon
  | viii_1, wmp => None
  end.
End Tables.

(** [sort_key] *)
Definition sort_key (p : path) : outcome value :=
  if startswith (name p) "c_"
  then Ok (VTuple [AInt 1000; APath p])
  else Openmc.zam (stem p).

(** The members of a zip archive: [ZipFile(p)], [namelist()], [open(member)]. *)
Definition ZipFile (p : path) (fs : FS) : outcome (list (string * string)) :=
  match fs !! p with
  | Some (ZipArchive members) => Ok members
  | Some _ => Raise BadZipFile
  | None => Raise (FileNotFoundError "ZipFile")
  end.

Definition namelist (members : list (string * string)) : list string :=
  members.*1.

(** A name that occurs twice in an archive opens its last entry. *)
Definition zip_open (members : list (string * string)) (member : string)
  : outcome string :=
  match List.find (fun e => String.eqb e.1 member) (rev members) with
  | Some e => Ok e.2
  | None => Raise (KeyError member)
  end.

(** [tarfile.open(p, 'r')] and [getmembers()]. *)
Definition tarfile_open (p : path) (fs : FS) : outcome (list tar_member) :=
  match fs !! p with
  | Some (TarArchive members) => Ok members
  | Some _ => Raise ReadError
  | None => Raise (FileNotFoundError "tarfile.open")
  end.

(** [tgz.extract(member, path=dir)] for a regular member whose name has
    been replaced by [n]: its data is written to [dir / n]; without a
    name there is no file to write. *)
Definition tar_extract (dir : path) (n : string) (m : tar_member) (fs : FS)
  : outcome FS :=
  if String.eqb n "" then Raise IsADirectoryError
  else Fs.write (div dir n) (Data (tar_data m)) fs.

Section Script.
Variable X : externals.
Variable cwd : path.
Variable a : args.

Definition library_name : string := "endfb".

Definition endf_files_dir : path :=
  div cwd (library_name +:+ "-" +:+ release_str (release_of a) +:+ "-endf").
Definition neutron_dir : path := div endf_files_dir "neutron".
Definition thermal_dir : path := div endf_files_dir "thermal".
Definition download_path : path :=
  div cwd (library_name +:+ "-" +:+ release_str (release_of a) +:+ "-download").

Definition destination_dir : path :=
  match destination a with
  | Some d => d
  | None =>
      div cwd (library_name +:+ "-" +:+ release_str (release_of a) +:+ "-hdf5")
  end.

(** [release_details[args.release][particle]] *)
Definition lookup (p : particle) : M details :=
  lift (item (particle_str p)
          (release_details neutron_dir endf_files_dir (release_of a) p)).

(** Download files from the NNDC site. *)
Definition download_stage : M unit :=
  when (download_flag a)
    (for_ (particles a) (fun particle =>
       details ← lookup particle;
       files ← lift (item "compressed_files" (compressed_files details));
       for_ (enumerate files) (fun '(i, f) =>
         base ← lift (item "base_url" (base_url details));
         let url := base +:+ f in
         match checksums details with
         | Some sums =>
             checksum ← lift (index sums i);
             download X url
               (Some (div download_path (particle_str particle)))
               (Some checksum) false;;
             mret tt
         | None =>
             download X url
               (Some (div download_path (particle_str particle)))
               None false;;
             mret tt
         end))).

(** Extraction of one zip archive, without its folder structure. *)
Definition extract_zip (archive extraction_dir : path) : M unit :=
  zipf ← (fun fs => lift (ZipFile archive fs) fs);
  for_ (namelist zipf) (fun member =>
    let filename := name (Path member) in
    (* skip directories *)
    if String.eqb filename "" then mret tt
    else
      source ← lift (zip_open zipf member);
      fsop (Fs.write (div extraction_dir filename) (Data source))).

(** Extraction of one tar archive, ignoring its folder structure. *)
Definition extract_tar (archive extraction_dir : path) : M unit :=
  tgz ← (fun fs => lift (tarfile_open archive fs) fs);
  for_ tgz (fun member =>
    if isreg member then
      let n := name (Path (tar_name member)) in
      fsop (tar_extract extraction_dir n member)
    else mret tt).

Definition extract_particle (particle : particle) : M unit :=
  details ← lookup particle;
  ft ← lift (item "file_type" (file_type details));
  let extraction_dir :=
    match ft with
    | WMP => div destination_dir (particle_str particle)
    | ENDF => div endf_files_dir (particle_str particle)
    end in
  files ← lift (item "compressed_files" (compressed_files details));
  for_ files (fun f =>
    let fname := name (Path f) in
    let downloaded := div (div download_path (particle_str particle)) fname in
    if endswith fname ".zip" then extract_zip downloaded extraction_dir
    else if endswith fname ".tar.gz" then extract_tar downloaded extraction_dir
    else
      (* File is not compressed.  Used for erratafiles. *)
      fsop (Fs.copy downloaded (div extraction_dir fname))).

(** Extract files from the archives. *)
Definition extract_stage : M unit :=
  when (extract_flag a)
    (for_ (particles a) extract_particle;;
     when (cleanup a)
       (fsop (fun fs =>
          if bool_decide (is_Some (fs !! download_path)) then Raise OSError
          else Ok (Fs.rmtree download_path fs)))).

(** [for p in sorted(dir.glob('*.h5'), key=sort_key): library.register_file(p)] *)
Definition register_sorted (dir : path) : M unit :=
  found ← gets (fun fs => Fs.glob fs dir "*.h5");
  ordered ← lift (sorted_by sort_key found);
  for_ ordered (register_file X).

(** The loop that hands the neutron evaluations to the pool. *)
Definition submit_neutron (filenames : list path) : M (list task) :=
  collect filenames (fun filename =>
    (* Skip neutron evaluation that fails the processing stage *)
    if String.eqb (name filename) "n-000_n_001.endf" then mret []
    else
      r ← apply_async
            (process_neutron filename
               (div destination_dir (particle_str neutron))
               (libver a) (temperatures a));
      mret [r]).

(** Process incident neutron data. *)
Definition neutron_stage : M unit :=
  when (bool_decide (neutron ∈ particles a))
    (let particle := neutron in
     details ← lookup particle;
     gen ← lift (item "endf_files" (endf_files details));
     filenames ← gets (fun fs => Fs.rglob fs gen.1 gen.2);
     results ← submit_neutron filenames;
     for_ results (wait X);;
     register_sorted (div destination_dir (particle_str particle))).

(** Process thermal scattering data. *)
Definition thermal_stage : M unit :=
  when (bool_decide (thermal ∈ particles a))
    (let particle := thermal in
     details ← lookup particle;
     sab ← lift (item "sab_files" (sab_files details));
     results ← collect sab (fun '(path_neutron, path_thermal) =>
       r ← apply_async
             (process_thermal (div neutron_dir path_neutron)
                (div thermal_dir path_thermal)
                (div destination_dir (particle_str particle))
                (libver a));
       mret [r]);
     for_ results (wait X);;
     register_sorted (div destination_dir (particle_str particle))).

(** Incident photon data. *)
Definition photon_stage : M unit :=
  when (bool_decide (photon ∈ particles a))
    (let particle := photon in
     details ← lookup particle;
     pgen ← lift (item "photo_files" (photo_files details));
     agen ← lift (item "atom_files" (atom_files details));
     photos ← gets (fun fs => Fs.rglob fs pgen.1 pgen.2);
     atoms ← gets (fun fs => Fs.rglob fs agen.1 agen.2);
     for_ (zip (sorted photos) (sorted atoms)) (fun '(photo_path, atom_path) =>
       data_name ← photon_from_endf X photo_path atom_path;
       let h5_file :=
         div (div destination_dir (particle_str particle))
             (data_name +:+ ".h5") in
       export_to_hdf5 X h5_file (libver a);;
       register_file X h5_file)).

(** Incident WMP neutron data. *)
Definition wmp_stage : M unit :=
  when (bool_decide (wmp ∈ particles a))
    (found ← gets (fun fs => Fs.rglob fs (div destination_dir "wmp") "*.h5");
     for_ (sorted found) (register_file X)).

(** The output directories are created between extraction and
    processing; directories are not stored, so nothing changes. *)
Definition main : M unit :=
  download_stage;;
  extract_stage;;
  neutron_stage;;
  thermal_stage;;
  photon_stage;;
  wmp_stage;;
  (* Write cross_sections.xml *)
  export_to_xml X (div destination_dir "cross_sections.xml").

End Script.
End Endf.

(* ===================================================================== *)
(** * [generate_jendl.py] *)
(* ===================================================================== *)

(** [for p in files: p.rename(dest / p.name)], the loop by which the JENDL
    scripts move errata files into the directory of the evaluations.
    [files] is what [rglob] found when the loop started. *)
Definition rename_into (dest : path) (files : list path) : M unit :=
  for_ files (fun p => fsop (Fs.rename p (div dest (name p)))).

(** [for p in base.rglob(pattern): p.rename(dest / p.name)] *)
Definition move_matching (base dest : path) (pattern : string) : M unit :=
  files ← gets (fun fs => Fs.rglob fs base pattern);
  rename_into dest files.

(** [urljoin(base, f)] for a base that ends with a slash and a relative file
    name, as in the tables of the scripts. *)
Definition urljoin (base f : string) : string := base +:+ f.

Module Jendl.

Inductive release := r5.
Inductive particle := neutron | thermal | photon.

#[global] Instance particle_eq_dec : EqDecision particle.
Proof. solve_decision. Defined.

Definition release_str (r : release) : string := match r with r5 => "5" end.

Definition particle_str (p : particle) : string :=
  match p with
  | neutron => "neutron" | thermal => "thermal" | photon => "photon"
  end.

Record args := Args {
  destination : option path;
  download_flag : bool;
  extract_flag : bool;
  libver : string;
  release_of : release;
  particles : list particle;
  cleanup : bool;
  temperatures : list string
}.

Record details := Details {
  base_url : option string;
  compressed_files : option (list string);
  endf_dir : option string;
  patterns : option (list string);
  pattern : option string;
  pattern_errata : option (list string);
  sab_files : option (list (string * string));
  pattern_photoatomic : option string;
  pattern_atomic_relax : option string
}.

Definition details_5_neutron : details :=
  {| base_url := Some "https://wwwndc.jaea.go.jp/ftpnd/ftp/JENDL/";
     compressed_files := Some ["jendl5-n.tar.gz";
                         "jendl5-n_upd1.tar.gz";
                         "jendl5-n_upd6.tar.gz";
                         "jendl5-n_upd7.tar.gz";
                         "jendl5-n_upd10.tar.gz";
                         "jendl5-n_upd11.tar.gz";
                         "jendl5-n_upd12.tar.gz";
                         "jendl5-n_upd14.tar.gz"];
     endf_dir := Some "jendl5-n";
     patterns := Some ["n_???-*-???.dat";
                 "n_???-*-???m?.dat"];
     pattern := None;
     pattern_errata := Some ["jendl5-n_upd1/*.dat";
                        "jendl-n_upd6/*.dat";
                        "*.dat"];
     sab_files := None;
     pattern_photoatomic := None;
     pattern_atomic_relax := None |}.

Definition details_5_thermal : details :=
  {| base_url := Some "https://wwwndc.jaea.go.jp/ftpnd/ftp/JENDL/";
     compressed_files := Some ["jendl5-tsl.tar.gz";
                         "jendl5-tsl_upd16.tar.gz"];
     endf_dir := Some "jendl5-tsl";
     patterns := None;
     pattern := Some "*.dat";
     pattern_errata := Some ["*.dat"];
     sab_files := Some [("n_001-H-001.dat", "tsl_HinC5O2H8.dat");
                  ("n_001-H-001.dat", "tsl_HinCH2.dat");
                  ("n_001-H-001.dat", "tsl_HinH2O.dat");
                  ("n_001-H-001.dat", "tsl_HinIceIh.dat");
                  ("n_001-H-001.dat", "tsl_HinLiquidBenzene.dat");
                  ("n_001-H-001.dat", "tsl_HinLiquidEthanol.dat");
                  ("n_001-H-001.dat", "tsl_HinLiquidMesitylene.dat");
                  ("n_001-H-001.dat", "tsl_HinLiquidMethane.dat");
                  ("n_001-H-001.dat", "tsl_HinLiquidM-Xylene.dat");
                  ("n_001-H-001.dat", "tsl_HinLiquidToluene.dat");
                  ("n_001-H-001.dat", "tsl_HinLiquidTriphenylmethane.dat");
                  ("n_001-H-001.dat", "tsl_HinOrthoH.dat");
                  ("n_001-H-001.dat", "tsl_HinParaH.dat");
                  ("n_001-H-001.dat", "tsl_HinSolidBenzene.dat");
                  ("n_001-H-001.dat", "tsl_HinSolidEthanol.dat");
                  ("n_001-H-001.dat", "tsl_HinSolidMesitylene.dat");
                  ("n_001-H-001.dat", "tsl_HinSolidMethane.dat");
                  ("n_001-H-001.dat", "tsl_HinSolidM-Xylene.dat");
                  ("n_001-H-001.dat", "tsl_HinSolidToluene.dat");
                  ("n_001-H-001.dat", "tsl_HinSolidTriphenylmethane.dat");
                  ("n_001-H-001.dat", "tsl_HinYH2.dat");
                  ("n_001-H-001.dat", "tsl_HinZrH.dat");
                  ("n_001-H-002.dat", "tsl_DinD2O.dat");
                  ("n_001-H-002.dat", "tsl_DinOrthoD.dat");
                  ("n_001-H-002.dat", "tsl_DinParaD.dat");
                  ("n_004-Be-009.dat", "tsl_Be-metal.dat");
                  ("n_004-Be-009.dat", "tsl_BeinBeO.dat");
                  ("n_006-C-012.dat", "tsl_CinLiquidBenzene.dat");
                  ("n_006-C-012.dat", "tsl_CinLiquidEthanol.dat");
                  ("n_006-C-012.dat", "tsl_CinLiquidMesitylene.dat");
                  ("n_006-C-012.dat", "tsl_CinLiquidMethane.dat");
                  ("n_006-C-012.dat", "tsl_CinLiquidM-Xylene.dat");
                  ("n_006-C-012.dat", "tsl_CinLiquidToluene.dat");
                  ("n_006-C-012.dat", "tsl_CinLiquidTriphenylmethane.dat");
                  ("n_006-C-012.dat", "tsl_CinSiC.dat");
                  ("n_006-C-012.dat", "tsl_CinSolidBenzene.dat");
                  ("n_006-C-012.dat", "tsl_CinSolidEthanol.dat");
                  ("n_006-C-012.dat", "tsl_CinSolidMesitylene.dat");
                  ("n_006-C-012.dat", "tsl_CinSolidMethane.dat");
                  ("n_006-C-012.dat", "tsl_CinSolidM-Xylene.dat");
                  ("n_006-C-012.dat", "tsl_CinSolidToluene.dat");
                  ("n_006-C-012.dat", "tsl_CinSolidTriphenylmethane.dat");
                  ("n_006-C-012.dat", "tsl_crystalline-graphite.dat");
                  ("n_006-C-012.dat", "tsl_reactor-graphite-10P.dat");
                  ("n_006-C-012.dat", "tsl_reactor-graphite-30P.dat");
                  ("n_007-N-014.dat", "tsl_NinUN.dat");
                  ("n_008-O-016.dat", "tsl_OinBeO.dat");
                  ("n_008-O-016.dat", "tsl_OinD2O.dat");
                  ("n_008-O-016.dat", "tsl_OinH2O.dat");
                  ("n_008-O-016.dat", "tsl_OinIceIh.dat");
                  ("n_008-O-016.dat", "tsl_OinLiquidEthanol.dat");
                  ("n_008-O-016.dat", "tsl_OinSolidEthanol.dat");
                  ("n_008-O-016.dat", "tsl_OinUO2.dat");
                  ("n_013-Al-027.dat", "tsl_013_Al_027.dat");
                  ("n_014-Si-028.dat", "tsl_SiinSiC.dat");
                  ("n_014-Si-028.dat", "tsl_SiO2-alpha.dat");
                  ("n_014-Si-028.dat", "tsl_SiO2-beta.dat");
                  ("n_026-Fe-056.dat", "tsl_026_Fe_056.dat");
                  ("n_039-Y-089.dat", "tsl_YinYH2.dat");
                  ("n_040-Zr-090.dat", "tsl_ZrinZrH.dat");
                  ("n_092-U-238.dat", "tsl_UinUN.dat");
                  ("n_092-U-238.dat", "tsl_UinUO2.dat")];
     pattern_photoatomic := None;
     pattern_atomic_relax := None |}.

Definition details_5_photon : details :=
  {| base_url := Some "https://wwwndc.jaea.go.jp/ftpnd/ftp/JENDL/";
     compressed_files := Some ["jendl5-pa.tar.gz";
                         "jendl5-ar.tar.gz"];
     endf_dir := None;
     patterns := None;
     pattern := None;
     pattern_errata := None;
     sab_files := None;
     pattern_photoatomic := Some "jendl5-pa/*.dat";
     pattern_atomic_relax := Some "jendl5-ar/*.dat" |}.

Definition update_thermal_list : list (string * string) :=
  [("tsl_CinLiquidBenzene.dat", "c(c6h6)l");
   ("tsl_CinLiquidEthanol.dat", "c(c2h6o)l");
   ("tsl_CinLiquidM-Xylene.dat", "c(m-c8h10)l");
   ("tsl_CinLiquidMesitylene.dat", "c(c9h12)l");
   ("tsl_CinLiquidMethane.dat", "c(ch4)l");
   ("tsl_CinLiquidToluene.dat", "c(c7h8)l");
   ("tsl_CinLiquidTriphenylmethane.dat", "c(c19h16)l");
   ("tsl_CinSolidBenzene.dat", "c(c6h6)s");
   ("tsl_CinSolidEthanol.dat", "c(c2h6o)s");
   ("tsl_CinSolidM-Xylene.dat", "c(m-c8h10)s");
   ("tsl_CinSolidMesitylene.dat", "c(c9h12)s");
   ("tsl_CinSolidMethane.dat", "c(ch4)s");
   ("tsl_CinSolidToluene.dat", "c(c7h8)s");
   ("tsl_CinSolidTriphenylmethane.dat", "c(c19h16)s");
   ("tsl_HinLiquidBenzene.dat", "h(c6h6)l");
   ("tsl_HinLiquidEthanol.dat", "h(c2h6o)l");
   ("tsl_HinLiquidM-Xylene.dat", "h(m-c8h10)l");
   ("tsl_HinLiquidMesitylene.dat", "h(c9h12)l");
   ("tsl_HinLiquidMethane.dat", "h(ch4)l");
   ("tsl_HinLiquidToluene.dat", "h(c7h8)l");
   ("tsl_HinLiquidTriphenylmethane.dat", "h(c19h16)l");
   ("tsl_HinSolidBenzene.dat", "h(c6h6)s");
   ("tsl_HinSolidEthanol.dat", "h(c2h6o)s");
   ("tsl_HinSolidM-Xylene.dat", "h(m-c8h10)s");
   ("tsl_HinSolidMesitylene.dat", "h(c9h12)s");
   ("tsl_HinSolidMethane.dat", "h(ch4)s");
   ("tsl_HinSolidToluene.dat", "h(c7h8)s");
   ("tsl_HinSolidTriphenylmethane.dat", "h(c19h16)s");
   ("tsl_OinLiquidEthanol.dat", "o(c2h6o)l");
   ("tsl_OinSolidEthanol.dat", "o(c2h6o)s")].

Definition release_details (r : release) (p : particle) : option details :=
  match r, p with
  | r5, neutron => Some details_5_neutron
  | r5, thermal => Some details_5_thermal
  | r5, photon => Some details_5_photon
  end.

(** [sort_key] *)
Definition sort_key (p : path) : outcome value :=
  if startswith (name p) "c_"
  then Ok (VTuple [AInt 1000; APath p])
  else Openmc.zam (stem p).

Section Script.
Variable X : externals.
Variable cwd : path.
Variable a : args.

Definition library_name : string := "jendl".

Definition endf_files_dir : path :=
  div cwd (library_name +:+ "-" +:+ release_str (release_of a) +:+ "-endf").
Definition download_path : path :=
  div cwd (library_name +:+ "-" +:+ release_str (release_of a) +:+ "-download").

Definition destination_dir : path :=
  match destination a with
  | Some d => d
  | None =>
      div cwd (library_name +:+ "-" +:+ release_str (release_of a) +:+ "-hdf5")
  end.

Definition lookup (p : particle) : M details :=
  lift (item (particle_str p) (release_details (release_of a) p)).

(** Download files from the website. *)
Definition download_stage : M unit :=
  when (download_flag a)
    (for_ (particles a) (fun particle =>
       details ← lookup particle;
       files ← lift (item "compressed_files" (compressed_files details));
       for_ files (fun f =>
         base ← lift (item "base_url" (base_url details));
         download X (urljoin base f)
           (Some (div download_path (particle_str particle))) None true;;
         mret tt))).

(** Extract files from the archives. *)
Definition extract_stage : M unit :=
  when (extract_flag a)
    (for_ (particles a) (fun particle =>
       details ← lookup particle;
       let extraction_dir := div endf_files_dir (particle_str particle) in
       files ← lift (item "compressed_files" (compressed_files details));
       for_ files (fun f =>
         extract X (div (div download_path (particle_str particle)) f)
           (Some extraction_dir)));;
     when (cleanup a)
       (fsop (fun fs =>
          if bool_decide (is_Some (fs !! download_path)) then Raise OSError
          else Ok (Fs.rmtree download_path fs)))).

(** Handle errata files. *)
Definition errata_particle (particle : particle) : M unit :=
  details ← lookup particle;
  match pattern_errata details with
  | Some errata =>
      dir ← lift (item "endf_dir" (endf_dir details));
      let destination_dir :=
        div (div endf_files_dir (particle_str particle)) dir in
      for_ errata (fun pattern =>
        move_matching (div endf_files_dir (particle_str particle))
          destination_dir pattern)
  | None => mret tt
  end.

Definition errata_stage : M unit := for_ (particles a) errata_particle.

Definition register_sorted (dir : path) : M unit :=
  found ← gets (fun fs => Fs.glob fs dir "*.h5");
  ordered ← lift (sorted_by sort_key found);
  for_ ordered (register_file X).

(** Process incident neutron data. *)
Definition neutron_stage : M unit :=
  when (bool_decide (neutron ∈ particles a))
    (let particle := neutron in
     details ← lookup particle;
     dir ← lift (item "endf_dir" (endf_dir details));
     let neutron_dir := div (div endf_files_dir (particle_str particle)) dir in
     pats ← lift (item "patterns" (patterns details));
     results ← collect pats (fun pattern =>
       filenames ← gets (fun fs => Fs.glob fs neutron_dir pattern);
       collect filenames (fun filename =>
         r ← apply_async
               (process_neutron filename
                  (div destination_dir (particle_str particle))
                  (libver a) (temperatures a));
         mret [r]));
     for_ results (wait X);;
     register_sorted (div destination_dir (particle_str particle))).

(** Process thermal scattering data. *)
Definition thermal_stage : M unit :=
  when (bool_decide (thermal ∈ particles a))
    (neutron_details ← lookup neutron;
     thermal_details ← lookup thermal;
     ndir ← lift (item "endf_dir" (endf_dir neutron_details));
     let neutron_dir := div (div endf_files_dir "neutron") ndir in
     tdir ← lift (item "endf_dir" (endf_dir thermal_details));
     let thermal_dir := div (div endf_files_dir "thermal") tdir in
     (* Patch liquid/solid evaluations to have unique ZSYMAM fields *)
     for_ update_thermal_list (fun '(filename, zsymam) =>
       update_zsymam X (div thermal_dir filename) zsymam);;
     sab ← lift (item "sab_files" (sab_files thermal_details));
     results ← collect sab (fun '(path_neutron, path_thermal) =>
       r ← apply_async
             (process_thermal (div neutron_dir path_neutron)
                (div thermal_dir path_thermal)
                (div destination_dir "thermal")
                (libver a));
       mret [r]);
     for_ results (wait X);;
     register_sorted (div destination_dir "thermal")).

(** Incident photon data. *)
Definition photon_stage : M unit :=
  when (bool_decide (photon ∈ particles a))
    (let particle := photon in
     details ← lookup particle;
     ppat ← lift (item "pattern_photoatomic" (pattern_photoatomic details));
     photos ← gets (fun fs =>
       Fs.rglob fs (div endf_files_dir (particle_str particle)) ppat);
     apat ← lift (item "pattern_atomic_relax" (pattern_atomic_relax details));
     atoms ← gets (fun fs =>
       Fs.rglob fs (div endf_files_dir (particle_str particle)) apat);
     for_ (zip (sorted photos) (sorted atoms)) (fun '(photo_path, atom_path) =>
       data_name ← photon_from_endf X photo_path atom_path;
       let h5_file :=
         div (div destination_dir (particle_str particle))
             (data_name +:+ ".h5") in
       export_to_hdf5 X h5_file (libver a);;
       register_file X h5_file)).

Definition main : M unit :=
  download_stage;;
  extract_stage;;
  errata_stage;;
  neutron_stage;;
  thermal_stage;;
  photon_stage;;
  (* Write cross_sections.xml *)
  export_to_xml X (div destination_dir "cross_sections.xml").

End Script.
End Jendl.

(* ===================================================================== *)
(** * The depletion chain scripts *)
(* ===================================================================== *)

(** [all(Path(lib).is_dir() for lib in ("neutrons", "decay", "nfy"))] *)
Definition all_library_dirs (cwd : path) (fs : FS) : bool :=
  forallb (fun lib => Fs.is_dir fs (div cwd lib)) ["neutrons"; "decay"; "nfy"].

(** The check of the file lists that two of the scripts make before they
    build the chain:
    [for flist, ftype in [...]: if not flist: raise FileNotFoundError(...)] *)
Definition check_files_exist (dir : path) (checks : list (files * string))
  : M unit :=
  for_ checks (fun '(flist, ftype) =>
    if negb (truthy flist)
    then raise (FileNotFoundError
                  ("No " +:+ ftype +:+ " endf files found in " +:+ path_str dir))
    else mret tt).

(** ** [depletion/generate_endf81_chain.py] *)
Module Endf81Chain.

Definition URLS : list string :=
  ["https://www.nndc.bnl.gov/endf-releases/releases/B-VIII.1/neutrons/neutrons-version.VIII.1.tar.gz";
   "https://www.nndc.bnl.gov/endf-releases/releases/B-VIII.1/decay/decay-version.VIII.1.tar.gz";
   "https://www.nndc.bnl.gov/endf-releases/releases/B-VIII.1/nfy/nfy-version.VIII.1.tar.gz"].

Section Script.
Variable X : externals.
Variable cwd : path.

(** The first part of [main]: where the files are taken from. *)
Definition resolve_endf_path (endf_path : option path) : M path :=
  match endf_path with
  | Some p => mret p
  | None =>
      present ← gets (all_library_dirs cwd);
      if present : bool then mret cwd
      else
        (* Download and extract archives *)
        for_ URLS (fun url =>
          basename ← download X url None None false;
          extract X basename None);;
        (* Rename extracted directories *)
        fsop (Fs.rename (div cwd "decay-version.VIII.1") (div cwd "decay"));;
        fsop (Fs.rename (div cwd "neutrons-version.VIII.1") (div cwd "neutrons"));;
        fsop (Fs.rename (div cwd "nfy-version.VIII.1") (div cwd "nfy"));;
        mret cwd
  end.

(** The file lists the script resolves. *)
Definition resolve (endf_path : option path)
  : M (path * (files * files * files)) :=
  endf_path ← resolve_endf_path endf_path;
  decay_files ← gets (fun fs => PyList (Fs.glob fs (div endf_path "decay") "*endf"));
  neutron_files ← gets (fun fs => PyList (Fs.glob fs (div endf_path "neutrons") "*endf"));
  nfy_files ← gets (fun fs => PyList (Fs.glob fs (div endf_path "nfy") "*endf"));
  mret (endf_path, (decay_files, neutron_files, nfy_files)).

(** The rest of [main]: the check and the construction of the chain. *)
Definition build (chain_path : path) (r : path * (files * files * files))
  : M unit :=
  let '(endf_path, (decay_files, neutron_files, nfy_files)) := r in
  (* check files exist *)
  check_files_exist endf_path
    [(decay_files, "decay"); (neutron_files, "neutron");
     (nfy_files, "neutron fission product yield")];;
  chain_from_endf X (Files decay_files) (Files nfy_files) (Files neutron_files);;
  chain_export_to_xml X chain_path.

Definition main (chain_path : path) (endf_path : option path) : M unit :=
  r ← resolve endf_path;
  build chain_path r.

End Script.
End Endf81Chain.

(** ** [depletion/generate_jendl_chain.py] *)
Module JendlChain.

Record details := Details {
  base_url : string;
  compressed_files : list string;
  endf_files : string;
  errata : option (list string)
}.

Definition URLS_neutron : details :=
  {| base_url := "https://wwwndc.jaea.go.jp/ftpnd/ftp/JENDL/";
     compressed_files :=
       ["jendl5-n.tar.gz"; "jendl5-n_upd1.tar.gz"; "jendl5-n_upd6.tar.gz";
        "jendl5-n_upd7.tar.gz"; "jendl5-n_upd10.tar.gz";
        "jendl5-n_upd11.tar.gz"; "jendl5-n_upd12.tar.gz";
        "jendl5-n_upd14.tar.gz"];
     endf_files := "jendl5-n/*.dat";
     errata := Some ["jendl5-n_upd1/*.dat"; "jendl-n_upd6/*.dat"; "*.dat"] |}.

Definition URLS_decay : details :=
  {| base_url := "https://wwwndc.jaea.go.jp/ftpnd/ftp/JENDL/";
     compressed_files := ["jendl5-dec_upd5.tar.gz"; "jendl5-dec_upd15.tar.gz"];
     endf_files := "jendl5-dec_upd5/*.dat";
     errata := Some ["jendl5-dec_upd15/*.dat"] |}.

Definition URLS_nfy : details :=
  {| base_url := "https://wwwndc.jaea.go.jp/ftpnd/ftp/JENDL/";
     compressed_files := ["jendl5-fpy_upd8.tar.gz"];
     endf_files := "jendl5-fpy_upd8/*.dat";
     errata := None |}.

(** The command line: the release is always 5; file lists given by the
    user are lists of resolved paths, empty when the option is absent. *)
Record args := Args {
  destination : option path;
  neutron : list path;
  decay : list path;
  nfy : list path
}.

Section Script.
Variable X : externals.
Variable cwd : path.
Variable a : args.

Definition library_name : string := "jendl".
Definition release : string := "5".

Definition endf_files_dir : path :=
  div cwd (library_name +:+ "-" +:+ release +:+ "-endf").
Definition download_path : path :=
  div cwd (library_name +:+ "-" +:+ release +:+ "-download").

(** The errata loop of the neutron and decay branches. *)
Definition move_errata (d : details) : M unit :=
  errs ← lift (item "errata" (errata d));
  for_ errs (fun erratum =>
    move_matching endf_files_dir
      (parent (div endf_files_dir (endf_files d))) erratum).

Definition resolve_neutron : M files :=
  match neutron a with
  | _ :: _ => mret (PyList (neutron a))
  | [] =>
      let details := URLS_neutron in
      for_ (compressed_files details) (fun f =>
        downloaded_file ← download X (urljoin (base_url details) f)
                            (Some download_path) None true;
        extract X downloaded_file (Some endf_files_dir));;
      move_errata details;;
      mret (PyGlob endf_files_dir (endf_files details))
  end.

Definition resolve_decay : M files :=
  match decay a with
  | _ :: _ => mret (PyList (decay a))
  | [] =>
      let details := URLS_decay in
      for_ (compressed_files details) (fun file =>
        downloaded_file ← download X (urljoin (base_url details) file)
                            (Some download_path) None false;
        extract X downloaded_file (Some endf_files_dir));;
      move_errata details;;
      gets (fun fs => PyList (Fs.rglob fs endf_files_dir (endf_files details)))
  end.

Definition resolve_nfy : M files :=
  match nfy a with
  | _ :: _ => mret (PyList (nfy a))
  | [] =>
      let details := URLS_nfy in
      for_ (compressed_files details) (fun file =>
        downloaded_file ← download X (urljoin (base_url details) file)
                            (Some download_path) None false;
        extract X downloaded_file (Some endf_files_dir));;
      gets (fun fs => PyList (Fs.rglob fs endf_files_dir (endf_files details)))
  end.

Definition resolve : M (files * files * files) :=
  neutron_files ← resolve_neutron;
  decay_files ← resolve_decay;
  nfy_files ← resolve_nfy;
  mret (decay_files, neutron_files, nfy_files).

Definition chain_destination : path :=
  match destination a with
  | Some d => d
  | None => div cwd ("chain_" +:+ library_name +:+ release +:+ ".xml")
  end.

Definition build (r : files * files * files) : M unit :=
  let '(decay_files, neutron_files, nfy_files) := r in
  (* check files exist *)
  check_files_exist endf_files_dir
    [(decay_files, "decay"); (neutron_files, "neutron");
     (nfy_files, "neutron fission product yield")];;
  chain_from_endf X (Files decay_files) (Files nfy_files) (Files neutron_files);;
  chain_export_to_xml X chain_destination.

Definition main : M unit :=
  r ← resolve;
  build r.

End Script.
End JendlChain.

(** ** [depletion/generate_jeff33_chain.py] *)
Module Jeff33Chain.

Definition URLS : list string :=
  ["https://data.oecd-nea.org/records/bh7jn-rm903/files/JEFF33-n.tgz?download=1";
   "https://data.oecd-nea.org/records/qfhqd-s0y84/files/JEFF33-rdd.zip?download=1";
   "https://data.oecd-nea.org/records/nhfqy-hvz09/files/JEFF33-nfy.asc?download=1"].

Section Script.
Variable X : externals.
Variable cwd : path.

Definition resolve_endf_path (endf_path : option path) : M path :=
  match endf_path with
  | Some p => mret p
  | None =>
      present ← gets (all_library_dirs cwd);
      if present : bool then mret cwd
      else
        (* Download and extract tar files *)
        for_ URLS (fun url =>
          basename ← download X url None None false;
          if String.eqb (suffix basename) ".tgz" then extract X basename None
          else if String.eqb (suffix basename) ".zip"
               then extract X basename (Some (div cwd "decay"))
               else mret tt);;
        (* Rename extracted directories and move JEFF33-nfy.asc into
           the nfy directory *)
        fsop (Fs.rename (div cwd "endf6") (div cwd "neutrons"));;
        fsop (Fs.rename (div cwd "JEFF33-nfy.asc")
                (div (div cwd "nfy") "JEFF33-nfy.asc"));;
        mret cwd
  end.

Definition nfy_file_of (endf_path : path) : path :=
  div (div endf_path "nfy") "JEFF33-nfy.asc".

Definition main (chain_path : path) (endf_path : option path) : M unit :=
  endf_path ← resolve_endf_path endf_path;
  decay_files ← gets (fun fs => PyList (Fs.glob fs (div endf_path "decay") "*.ASC"));
  neutron_files ← gets (fun fs => PyList (Fs.glob fs (div endf_path "neutrons") "*.jeff33"));
  let nfy_file := nfy_file_of endf_path in
  (* Load NFY evaluations from the single file; needs TPID fix *)
  nfy_evals ← with_fix_missing_tpid X nfy_file (fun nfy_path_fixed =>
                get_evaluations X nfy_path_fixed);
  chain_from_endf X (Files decay_files) nfy_evals (Files neutron_files);;
  chain_export_to_xml X chain_path.

End Script.
End Jeff33Chain.

(** ** [depletion/generate_jeff40_chain.py] *)
Module Jeff40Chain.

Definition URLS : list string :=
  ["https://data.oecd-nea.org/records/e9ajn-a3p20/files/JEFF40-Evaluations-Neutron-593.zip?download=1";
   "https://data.oecd-nea.org/records/trtwt-k2828/files/nf_Fission_Yields_JEFF-40.txt?download=1";
   "https://data.oecd-nea.org/records/tw0c6-t1386/files/Radioactive_Decay_Data_JEFF-40.txt?download=1"].

Definition decay_file : string := "Radioactive_Decay_Data_JEFF-40.txt".
Definition nfy_file : string := "nf_Fission_Yields_JEFF-40.txt".

Section Script.
Variable X : externals.
Variable cwd : path.

Definition resolve_endf_path (endf_path : option path) : M path :=
  match endf_path with
  | Some p => mret p
  | None =>
      present ← gets (all_library_dirs cwd);
      if present : bool then mret cwd
      else
        (* Download and extract zip files *)
        for_ URLS (fun url =>
          basename ← download X url None None false;
          if String.eqb (suffix basename) ".zip"
          then extract X basename (Some (div cwd "neutrons"))
          else mret tt);;
        (* Rename extracted directories and move files into the
           appropriate directories *)
        fsop (Fs.rename (div cwd nfy_file) (div (div cwd "nfy") nfy_file));;
        fsop (Fs.rename (div cwd decay_file) (div (div cwd "decay") decay_file));;
        mret cwd
  end.

Definition nfy_path_of (endf_path : path) : path :=
  div (div endf_path "nfy") nfy_file.
Definition decay_path_of (endf_path : path) : path :=
  div (div endf_path "decay") decay_file.

Definition main (chain_path : path) (endf_path : option path) : M unit :=
  endf_path ← resolve_endf_path endf_path;
  neutron_files ← gets (fun fs => PyList (Fs.glob fs (div endf_path "neutrons") "*.jeff"));
  let decay_path := decay_path_of endf_path in
  let nfy_path := nfy_path_of endf_path in
  (* Get evaluations from the single files; note that FPY file need
     TPID fix *)
  nfy_evals ← with_fix_missing_tpid X nfy_path (fun nfy_path_fixed =>
                get_evaluations X nfy_path_fixed);
  decay_evals ← get_evaluations X decay_path;
  chain_from_endf X decay_evals nfy_evals (Files neutron_files);;
  chain_export_to_xml X chain_path.

End Script.
End Jeff40Chain.

(* ===================================================================== *)
(** * Sample inputs *)
(* ===================================================================== *)

(** A small world on which the scripts can be run by computation: outside
    code that always succeeds, a download that answers with the last
    component of the address below the output directory, pool tasks that
    write one HDF5 file into their output directory, and a few file
    systems. *)
Module Sample.

Definition X : externals := {|
  x_download := fun url out _ fs => Ok (default [] out ++ [name (Path url)], fs);
  x_extract := fun _ _ fs => Ok fs;
  x_task := fun t fs =>
    match t with
    | process_neutron _ output_dir _ _ =>
        <[div output_dir "H1.h5" := Data "H1"]> fs
    | process_thermal _ _ output_dir _ =>
        <[div output_dir "c_H_in_H2O.h5" := Data "c_H_in_H2O"]> fs
    end;
  x_update_zsymam := fun _ _ fs => Ok fs;
  x_fix_missing_tpid := fun p fs => Ok (p ++ ["fixed"], fs);
  x_fix_missing_tpid_exit := fun _ fs => fs;
  x_photon_from_endf := fun _ _ _ => Ok "H";
  x_export_to_hdf5 := fun _ _ fs => Ok fs;
  x_register_file := fun _ _ => Ok tt;
  x_export_to_xml := fun _ fs => Ok fs;
  x_get_evaluations := fun _ _ => Ok tt;
  x_chain_from_endf := fun _ _ _ _ => Ok tt;
  x_chain_export_to_xml := fun _ fs => Ok fs |}.

Definition cwd : path := ["work"].

Definition temperatures : list string :=
  ["250.0"; "293.6"; "600.0"; "900.0"; "1200.0"; "2500.0"].

(** [generate_endf.py -r vii.1 -p neutron --no-download] *)
Definition endf_args : Endf.args :=
  Endf.Args None false true "earliest" Endf.vii_1 [Endf.neutron] false
    temperatures.

(** [generate_endf.py -r vii.1 -p wmp --no-extract] *)
Definition endf_wmp_args : Endf.args :=
  Endf.Args None true false "earliest" Endf.vii_1 [Endf.wmp] false
    temperatures.

(** [generate_jendl.py -p photon] *)
Definition jendl_photon_args : Jendl.args :=
  Jendl.Args None true true "latest" Jendl.r5 [Jendl.photon] false
    temperatures.

(** [generate_jendl.py -p thermal --no-download --no-extract] *)
Definition jendl_thermal_args : Jendl.args :=
  Jendl.Args None false false "latest" Jendl.r5 [Jendl.thermal] false
    temperatures.

(** A downloaded zip archive of neutron evaluations with the entry of its
    folder, as zip tools write it. *)
Definition neutrons_zip : content :=
  ZipArchive [("neutrons/", "");
              ("neutrons/n-001_H_001.endf", "H-1");
              ("neutrons/n-000_n_001.endf", "n-1")].

Definition endf_downloaded : FS :=
  {[ ["work"; "endfb-vii.1-download"; "neutron"; "ENDF-B-VII.1-neutrons.zip"]
     := neutrons_zip ]}.

(** A library directory with neutron evaluations and a fission-yield
    file, and no decay file. *)
Definition no_decay : FS :=
  {[ ["data"; "neutrons"; "n-001_H_001.endf"] := Data "H-1";
     ["data"; "neutrons"; "1-H-1g.jeff33"] := Data "H-1";
     ["data"; "nfy"; "JEFF33-nfy.asc"] := Data "yields" ]}.

(** [generate_endf.py -r viii.0 -p neutron --no-download] *)
Definition endf_viii0_args : Endf.args :=
  Endf.Args None false true "earliest" Endf.viii_0 [Endf.neutron] false
    temperatures.

(** The downloaded neutron data of ENDF/B-VIII.0: the archive, which has
    an evaluation of boron-10, and the errata file of boron-10. *)
Definition endf_viii0_downloaded : FS :=
  {[ ["work"; "endfb-viii.0-download"; "neutron";
      "ENDF-B-VIII.0_neutrons.zip"]
     := ZipArchive [("ENDF-B-VIII.0_neutrons/n-005_B_010.endf", "B-10");
                    ("ENDF-B-VIII.0_neutrons/n-005_B_011.endf", "B-11")];
     ["work"; "endfb-viii.0-download"; "neutron"; "n-005_B_010.endf"]
     := Data "B-10 erratum" ]}.

(** Extracted neutron evaluations of JENDL-5 with one update. *)
Definition jendl_extracted : FS :=
  {[ ["work"; "jendl-5-endf"; "neutron"; "jendl5-n"; "n_005-B-010.dat"]
     := Data "B-10";
     ["work"; "jendl-5-endf"; "neutron"; "jendl5-n"; "n_001-H-001.dat"]
     := Data "H-1";
     ["work"; "jendl-5-endf"; "neutron"; "jendl5-n_upd1"; "n_005-B-010.dat"]
     := Data "B-10 upd1" ]}.

End Sample.

(* ===================================================================== *)
(** * Reasoning about runs *)
(* ===================================================================== *)

Section Runs.
Context {A B : Type}.
Implicit Types (m : M A) (f : A -> M B).

Lemma trace_bind m f fs :
  trace ((m ≫= f) fs)
  = trace (m fs)
    ++ match result (m fs) with
       | Ok a => trace (f a (final (m fs)))
       | Raise _ => []
       end.
Proof.
  unfold mbind, M_bind, bind.
  destruct (result (m fs)); simpl; [done | by rewrite app_nil_r].
Qed.

Lemma result_bind m f fs :
  result ((m ≫= f) fs)
  = match result (m fs) with
    | Ok a => result (f a (final (m fs)))
    | Raise e => Raise e
    end.
Proof. unfold mbind, M_bind, bind. by destruct (result (m fs)). Qed.

Lemma final_bind m f fs :
  final ((m ≫= f) fs)
  = match result (m fs) with
    | Ok a => final (f a (final (m fs)))
    | Raise e => final (m fs)
    end.
Proof. unfold mbind, M_bind, bind. by destruct (result (m fs)). Qed.

Lemma bind_Ok m f fs b :
  result ((m ≫= f) fs) = Ok b ->
  exists a, result (m fs) = Ok a /\ result (f a (final (m fs))) = Ok b.
Proof. rewrite result_bind. destruct (result (m fs)); [eauto | done]. Qed.
End Runs.

(** [always P m]: every call that [m] makes satisfies [P], from any file
    system, whether the run ends normally or not. *)
Definition always {A} (P : event -> Prop) (m : M A) : Prop :=
  forall fs, Forall P (trace (m fs)).

(** [returns Q m]: a value that [m] returns satisfies [Q]. *)
Definition returns {A} (Q : A -> Prop) (m : M A) : Prop :=
  forall fs a, result (m fs) = Ok a -> Q a.

Section Always.
Context (P : event -> Prop).

Lemma always_ret {A} (a : A) : always P (mret a).
Proof. intros fs. constructor. Qed.

Lemma always_raise {A} e : always P (@raise A e).
Proof. intros fs. constructor. Qed.

Lemma always_lift {A} (o : outcome A) : always P (lift o).
Proof. intros fs. constructor. Qed.

Lemma always_gets {A} (f : FS -> A) : always P (gets f).
Proof. intros fs. constructor. Qed.

Lemma always_fsop f : always P (fsop f).
Proof. intros fs. unfold fsop. destruct (f fs); constructor. Qed.

Lemma always_call {A} (ev : event) (h : FS -> outcome (A * FS)) :
  P ev -> always P (call ev h).
Proof.
  intros HP fs. unfold call.
  destruct (h fs) as [[a fs']|e]; simpl; by repeat constructor.
Qed.

Lemma always_bind_returns {A B} (Q : A -> Prop) (m : M A) (f : A -> M B) :
  always P m -> returns Q m -> (forall a, Q a -> always P (f a)) ->
  always P (m ≫= f).
Proof.
  intros Hm HQ Hf fs. rewrite trace_bind. apply Forall_app. split; [apply Hm|].
  destruct (result (m fs)) eqn:E; [|constructor].
  apply Hf. by eapply HQ.
Qed.

Lemma always_bind {A B} (m : M A) (f : A -> M B) :
  always P m -> (forall a, always P (f a)) -> always P (m ≫= f).
Proof.
  intros Hm Hf. apply (always_bind_returns (fun _ => True)); [done|done|auto].
Qed.

Lemma always_for {A} (l : list A) (body : A -> M unit) :
  (forall x, x ∈ l -> always P (body x)) -> always P (for_ l body).
Proof.
  induction l as [|x l IH]; intros H; simpl; [apply always_ret|].
  apply always_bind; [apply H; left|].
  intros _. apply IH. intros y Hy. apply H. by right.
Qed.

Lemma always_when c (body : M unit) :
  always P body -> always P (when c body).
Proof. destruct c; [done | intros _; apply always_ret]. Qed.

Lemma always_collect {A R} (l : list A) (body : A -> M (list R)) :
  (forall x, x ∈ l -> always P (body x)) -> always P (collect l body).
Proof.
  induction l as [|x l IH]; intros H; simpl; [apply always_ret|].
  apply always_bind; [apply H; left|]. intros r.
  apply always_bind; [apply IH; intros y Hy; apply H; by right|].
  intros rs. apply always_ret.
Qed.

Lemma always_with {A B} (enter : M A) (leave : M unit) (body : A -> M B) :
  always P enter -> always P leave -> (forall a, always P (body a)) ->
  always P (with_ enter leave body).
Proof.
  intros He Hl Hb fs. unfold with_.
  destruct (result (enter fs)) eqn:E; simpl; [|apply He].
  rewrite !Forall_app. split_and!; [apply He | apply Hb | apply Hl].
Qed.
End Always.

Lemma always_impl {A} (P Q : event -> Prop) (m : M A) :
  (forall e, P e -> Q e) -> always P m -> always Q m.
Proof. intros H Hm fs. eapply Forall_impl; [apply Hm | done]. Qed.

Section Returns.
Lemma returns_ret {A} (Q : A -> Prop) a : Q a -> returns Q (mret a).
Proof. intros H fs b [= <-]. done. Qed.

Lemma returns_bind {A B} (Q : B -> Prop) (m : M A) (f : A -> M B) :
  (forall a, returns Q (f a)) -> returns Q (m ≫= f).
Proof.
  intros H fs b Hb. apply bind_Ok in Hb as (a & _ & Hb). by eapply H.
Qed.

Lemma returns_bind_returns {A B} (Q' : A -> Prop) (Q : B -> Prop)
    (m : M A) (f : A -> M B) :
  returns Q' m -> (forall a, Q' a -> returns Q (f a)) -> returns Q (m ≫= f).
Proof.
  intros Hm H fs b Hb. apply bind_Ok in Hb as (a & Ha & Hb).
  eapply H; [|done]. by eapply Hm.
Qed.

Lemma returns_call {A} (Q : A -> Prop) (ev : event) (h : FS -> outcome (A * FS)) :
  (forall fs a fs', h fs = Ok (a, fs') -> Q a) -> returns Q (call ev h).
Proof.
  intros H fs a. unfold call. destruct (h fs) as [[a' fs']|e] eqn:E; [|done].
  intros [= <-]. eauto.
Qed.

Lemma returns_collect {A R} (Q : R -> Prop) (l : list A)
    (body : A -> M (list R)) :
  (forall x, x ∈ l -> returns (Forall Q) (body x)) ->
  returns (Forall Q) (collect l body).
Proof.
  induction l as [|x l IH]; intros H; simpl.
  - apply returns_ret. constructor.
  - intros fs rs Hrs.
    apply bind_Ok in Hrs as (r & Hr & Hrs).
    apply bind_Ok in Hrs as (rs' & Hrs' & Hrs).
    injection Hrs as <-. apply Forall_app. split.
    + eapply H; [left | done].
    + eapply IH; [|done]. intros y Hy. apply H. by right.
Qed.
End Returns.


Lemma always_bind_lift {A B} (P : event -> Prop) (o : outcome A) (f : A -> M B) :
  (forall a, o = Ok a -> always P (f a)) -> always P (lift o ≫= f).
Proof.
  intros H. apply (always_bind_returns P (fun a => o = Ok a)).
  - apply always_lift.
  - intros fs a. unfold lift. simpl. done.
  - done.
Qed.

(** One step through the structure of a script, for goals [always P m]. *)
Ltac always_step :=
  lazymatch goal with
  | |- always _ (mret _) => apply always_ret
  | |- always _ (lift _ ≫= _) => apply always_bind_lift; intros ? ?
  | |- always _ (_ ≫= _) => apply always_bind; [|intros ?]
  | |- always _ (for_ _ _) => apply always_for; intros ? ?
  | |- always _ (collect _ _) => apply always_collect; intros ? ?
  | |- always _ (when _ _) => apply always_when
  | |- always _ (lift _) => apply always_lift
  | |- always _ (gets _) => apply always_gets
  | |- always _ (fsop _) => apply always_fsop
  | |- always _ (raise _) => apply always_raise
  | |- always _ (call _ _) => apply always_call
  | |- always _ (with_ _ _ _) => apply always_with; [| |intros ?]
  | |- always _ (match ?x with _ => _ end) => destruct x eqn:?
  end.

Ltac unfold_calls :=
  unfold download, extract, apply_async, wait, register_file, export_to_xml,
    photon_from_endf, export_to_hdf5, update_zsymam, with_fix_missing_tpid,
    get_evaluations, chain_from_endf, chain_export_to_xml,
    move_matching, rename_into, check_files_exist.

Ltac always_auto := unfold_calls; repeat always_step.

(* ===================================================================== *)
(** * Paths *)
(* ===================================================================== *)

Lemma name_snoc (d : path) (c : string) : name (d ++ [c]) = c.
Proof. unfold name. by rewrite last_last. Qed.

Lemma name_div_single (d : path) (s c : string) :
  Path s = [c] -> name (div d s) = c.
Proof. intros H. unfold div. rewrite H. apply name_snoc. Qed.

(* ===================================================================== *)
(** * The skipped neutron evaluation (generate_endf.py) *)
(* ===================================================================== *)

(** The evaluation files a pool task is given. *)
Definition task_inputs (t : task) : list path :=
  match t with
  | process_neutron filename _ _ _ => [filename]
  | process_thermal path_neutron path_thermal _ _ => [path_neutron; path_thermal]
  end.

Definition not_skipped (p : path) : Prop := name p ≠ "n-000_n_001.endf".

(** A call leaves the skipped evaluation alone when it is no pool task, or
    a task none of whose input files is named [n-000_n_001.endf]. *)
Definition avoids_skipped (e : event) : Prop :=
  match e with
  | Submit t | Wait t => Forall not_skipped (task_inputs t)
  | _ => True
  end.

(** A table name that is one path component other than the skipped name. *)
Definition plain_other (s : string) : bool :=
  match Path s with
  | [c] => negb (String.eqb c "n-000_n_001.endf")
  | _ => false
  end.

Lemma plain_other_not_skipped d s :
  plain_other s = true -> not_skipped (div d s).
Proof.
  unfold plain_other, not_skipped. intros H.
  destruct (Path s) as [|c [|]] eqn:E; try done.
  rewrite (name_div_single d s c E).
  apply negb_true_iff in H. by apply String.eqb_neq.
Qed.

Lemma item_Ok {A} key (o : option A) a : item key o = Ok a -> o = Some a.
Proof. destruct o; [by intros [= ->] | done]. Qed.

Lemma sab_files_plain nd ed r d sab :
  Endf.release_details nd ed r Endf.thermal = Some d ->
  Endf.sab_files d = Some sab ->
  Forall (fun e => plain_other e.1 = true /\ plain_other e.2 = true) sab.
Proof.
  intros Hd Hs. apply Forall_forall. intros [pn pt] Hin.
  assert (forallb (fun e => plain_other e.1 && plain_other e.2) sab = true) as Hc.
  { destruct r; injection Hd as <-; injection Hs as <-; vm_compute; reflexivity. }
  rewrite forallb_forall in Hc. apply list_elem_of_In in Hin.
  specialize (Hc _ Hin). by apply andb_true_iff in Hc.
Qed.

Section EndfSkip.
Variables (X : externals) (cwd : path) (a : Endf.args).

Lemma submit_neutron_returns filenames :
  returns (Forall (fun t => Forall not_skipped (task_inputs t)))
    (Endf.submit_neutron cwd a filenames).
Proof.
  apply returns_collect. intros f _.
  destruct (String.eqb (name f) "n-000_n_001.endf") eqn:E.
  - apply returns_ret. constructor.
  - apply (returns_bind_returns
             (fun t => Forall not_skipped (task_inputs t))).
    + apply returns_call. intros fs r fs' [= <- _].
      repeat constructor. by apply String.eqb_neq.
    + intros r Hr. apply returns_ret. by repeat constructor.
Qed.

Lemma endf_register_sorted_no_task (P : event -> Prop) dir :
  (forall p, P (RegisterFile p)) ->
  always P (Endf.register_sorted X dir).
Proof. intros H. unfold Endf.register_sorted. always_auto. apply H. Qed.

Lemma endf_download_avoids : always avoids_skipped (Endf.download_stage X cwd a).
Proof. unfold Endf.download_stage, Endf.lookup. always_auto; exact I. Qed.

Lemma endf_extract_avoids : always avoids_skipped (Endf.extract_stage cwd a).
Proof.
  unfold Endf.extract_stage, Endf.extract_particle, Endf.extract_zip,
    Endf.extract_tar, Endf.lookup.
  always_auto; try exact I.
  all: intros fs; unfold lift; simpl; constructor.
Qed.

Lemma endf_neutron_avoids : always avoids_skipped (Endf.neutron_stage X cwd a).
Proof.
  unfold Endf.neutron_stage, Endf.lookup.
  apply always_when. do 2 always_step.
  apply always_bind; [apply always_gets|]. intros filenames.
  eapply always_bind_returns; [|apply submit_neutron_returns|].
  - unfold Endf.submit_neutron. always_auto.
    simpl. repeat constructor. by apply String.eqb_neq.
  - intros results Hres. apply always_bind.
    + apply always_for. intros t Ht. unfold wait. apply always_call.
      simpl. rewrite Forall_forall in Hres. by apply Hres.
    + intros _. by apply endf_register_sorted_no_task.
Qed.

Lemma endf_thermal_avoids : always avoids_skipped (Endf.thermal_stage X cwd a).
Proof.
  unfold Endf.thermal_stage, Endf.lookup.
  apply always_when. do 2 always_step.
  match goal with
  | H1 : item _ (Endf.release_details _ _ _ _) = _,
    H2 : item _ (Endf.sab_files _) = Ok ?sab |- _ =>
      pose proof (sab_files_plain _ _ _ _ _ (item_Ok _ _ _ H1) (item_Ok _ _ _ H2))
        as Hsab;
      rewrite Forall_forall in Hsab
  end.
  eapply (always_bind_returns _
            (Forall (fun t => Forall not_skipped (task_inputs t)))).
  - apply always_collect. intros [pn pt] Hin.
    destruct (Hsab _ Hin). always_auto.
    simpl. repeat constructor; by apply plain_other_not_skipped.
  - apply returns_collect. intros [pn pt] Hin. destruct (Hsab _ Hin).
    apply (returns_bind_returns
             (fun t => Forall not_skipped (task_inputs t))).
    + apply returns_call. intros fs r fs' [= <- _].
      repeat constructor; by apply plain_other_not_skipped.
    + intros r Hr. apply returns_ret. by repeat constructor.
  - intros results Hres. apply always_bind.
    + apply always_for. intros t Ht. unfold wait. apply always_call.
      simpl. rewrite Forall_forall in Hres. by apply Hres.
    + intros _. by apply endf_register_sorted_no_task.
Qed.

Lemma endf_photon_avoids : always avoids_skipped (Endf.photon_stage X cwd a).
Proof. unfold Endf.photon_stage, Endf.lookup. always_auto; exact I. Qed.

Lemma endf_wmp_avoids : always avoids_skipped (Endf.wmp_stage X cwd a).
Proof. unfold Endf.wmp_stage. always_auto; exact I. Qed.

Lemma endf_main_avoids : always avoids_skipped (Endf.main X cwd a).
Proof.
  unfold Endf.main.
  apply always_bind; [apply endf_download_avoids|intros _].
  apply always_bind; [apply endf_extract_avoids|intros _].
  apply always_bind; [apply endf_neutron_avoids|intros _].
  apply always_bind; [apply endf_thermal_avoids|intros _].
  apply always_bind; [apply endf_photon_avoids|intros _].
  apply always_bind; [apply endf_wmp_avoids|intros _].
  always_auto. exact I.
Qed.
End EndfSkip.

(** Right identity of the monad, on runs. *)
Lemma bind_ret_run {A} (m : M A) fs : (m ≫= mret) fs = m fs.
Proof.
  unfold mbind, M_bind, bind, mret, M_ret, ret.
  destruct (m fs) as [[a|e] fs' tr]; simpl; [by rewrite app_nil_r | done].
Qed.

(** An element on which the body does nothing can be left out of a
    collecting loop. *)
Lemma collect_drop {A R} (before after : list A) (x : A)
    (body : A -> M (list R)) fs :
  (forall fs, body x fs = Run (Ok []) fs []) ->
  collect (before ++ x :: after) body fs = collect (before ++ after) body fs.
Proof.
  intros Hx. revert fs. induction before as [|y before IH]; intros fs; simpl.
  - unfold mbind, M_bind, bind, mret, M_ret, ret. rewrite Hx. simpl.
    destruct (collect after body fs) as [[a|e] fs' tr]; simpl;
      by rewrite ?app_nil_r.
  - unfold mbind, M_bind, bind, mret, M_ret, ret in *.
    destruct (body y fs) as [[r|e] fs1 tr1]; simpl; [|done].
    by rewrite IH.
Qed.

(** C9.  In every run of the ENDF/B script the evaluation file named
    [n-000_n_001.endf] is left out: no task handed to the process pool, or
    waited for, has a file of that name among its inputs, so nothing is
    converted from it and nothing registered for it; and the loop that
    submits the neutron evaluations behaves the same whether or not the
    directory listing contains such a file. *)
Theorem endf_skips_n_000_n_001 (X : externals) (cwd : path) (a : Endf.args) :
  (forall fs, Forall avoids_skipped (trace (Endf.main X cwd a fs)))
  /\ (forall before f after fs,
        name f = "n-000_n_001.endf" ->
        Endf.submit_neutron cwd a (before ++ f :: after) fs
        = Endf.submit_neutron cwd a (before ++ after) fs).
Proof.
  split; [apply endf_main_avoids|].
  intros before f after fs Hf. unfold Endf.submit_neutron.
  apply collect_drop. intros fs'. by rewrite Hf.
Qed.

Lemma endf_skips_n_000_n_001_witness :
  name ["d"; "n-000_n_001.endf"] = "n-000_n_001.endf"
  /\ Endf.submit_neutron Sample.cwd Sample.endf_args
       ([["d"; "n-001_H_001.endf"]]
        ++ ["d"; "n-000_n_001.endf"] :: [["d"; "n-001_H_002.endf"]]) ∅
     = Endf.submit_neutron Sample.cwd Sample.endf_args
         ([["d"; "n-001_H_001.endf"]] ++ [["d"; "n-001_H_002.endf"]]) ∅.
Proof.
  split; [reflexivity|].
  apply (proj2 (endf_skips_n_000_n_001 Sample.X Sample.cwd Sample.endf_args)).
  reflexivity.
Defined.

(* ===================================================================== *)
(** * Checksums of the downloads *)
(* ===================================================================== *)

Lemma enumerate_lookup {A} (l : list A) i x :
  (i, x) ∈ enumerate l -> l !! i = Some x.
Proof.
  unfold enumerate. intros H.
  apply list_elem_of_lookup in H as [k Hk].
  apply lookup_zip_with_Some in Hk as (j & y & [= -> ->] & Hj & Hy).
  apply lookup_seq in Hj as [-> _]. done.
Qed.

Lemma index_Ok {A} (l : list A) i x : index l i = Ok x -> l !! i = Some x.
Proof. unfold index. destruct (l !! i); [by intros [= ->] | done]. Qed.

(** What the ENDF/B script passes to [download]: the i-th compressed file
    of an entry of the table, with the i-th checksum of the entry when the
    entry lists checksums and with no checksum when it lists none. *)
Definition endf_download_checked (cwd : path) (a : Endf.args) (e : event) : Prop :=
  match e with
  | Download url output_path checksum unverified =>
      exists particle details files i f base,
        Endf.release_details (Endf.neutron_dir cwd a) (Endf.endf_files_dir cwd a)
          (Endf.release_of a) particle = Some details
        /\ Endf.compressed_files details = Some files
        /\ files !! i = Some f
        /\ Endf.base_url details = Some base
        /\ url = base +:+ f
        /\ output_path
           = Some (div (Endf.download_path cwd a) (Endf.particle_str particle))
        /\ match Endf.checksums details with
           | Some sums => exists c, sums !! i = Some c /\ checksum = Some c
           | None => checksum = None
           end
  | _ => True
  end.

Definition without_checksum (e : event) : Prop :=
  match e with
  | Download _ _ checksum _ => checksum = None
  | _ => True
  end.

Ltac unfold_endf :=
  unfold Endf.main, Endf.download_stage, Endf.extract_stage,
    Endf.extract_particle, Endf.extract_zip, Endf.extract_tar,
    Endf.neutron_stage, Endf.submit_neutron, Endf.thermal_stage,
    Endf.photon_stage, Endf.wmp_stage, Endf.register_sorted, Endf.lookup.

Ltac unfold_jendl :=
  unfold Jendl.main, Jendl.download_stage, Jendl.extract_stage,
    Jendl.errata_stage, Jendl.errata_particle,
    Jendl.neutron_stage, Jendl.thermal_stage,
    Jendl.photon_stage, Jendl.register_sorted, Jendl.lookup.

Lemma always_read_fs {A} (P : event -> Prop) (f : FS -> outcome A) :
  always P (fun fs => lift (f fs) fs).
Proof. intros fs. constructor. Qed.

Lemma endf_main_downloads X cwd a :
  always (endf_download_checked cwd a) (Endf.main X cwd a).
Proof.
  unfold_endf. always_auto; try exact I; try apply always_read_fs.
  all: repeat match goal with
         | H : item _ _ = Ok _ |- _ => apply item_Ok in H
         | H : index _ _ = Ok _ |- _ => apply index_Ok in H
         | H : _ ∈ enumerate _ |- _ => apply enumerate_lookup in H
         end.
  all: do 6 eexists; split_and!; try eassumption; try reflexivity.
  all: match goal with H : Endf.checksums _ = _ |- _ => rewrite H end.
  - eauto.
  - done.
Qed.

Lemma jendl_main_downloads X cwd a :
  always without_checksum (Jendl.main X cwd a).
Proof.
  unfold_jendl. always_auto; try exact I; reflexivity.
Qed.

(** C4, as the code has it.  In the ENDF/B script every download is the
    i-th compressed file of an entry of the release table and is given
    the i-th checksum of that entry when the entry lists checksums; every
    entry that lists checksums lists as many as it has files, and the only
    entry without checksums is the vii.1 wmp entry, whose file is downloaded
    without one.  The JENDL script passes no checksum to any download. *)
Theorem downloads_checked_where_listed :
  (forall X cwd a fs,
     Forall (endf_download_checked cwd a) (trace (Endf.main X cwd a fs)))
  /\ (forall nd ed r p d,
        Endf.release_details nd ed r p = Some d ->
        match Endf.checksums d with
        | Some sums =>
            length sums = length (default [] (Endf.compressed_files d))
        | None => r = Endf.vii_1 /\ p = Endf.wmp
        end)
  /\ (forall X cwd a fs,
        Forall without_checksum (trace (Jendl.main X cwd a fs))).
Proof.
  split_and!.
  - intros. apply endf_main_downloads.
  - intros nd ed r p d H.
    destruct r, p; try discriminate H; injection H as <-; simpl; done.
  - intros. apply jendl_main_downloads.
Qed.

Lemma downloads_checked_where_listed_witness :
  Endf.release_details ["n"] ["e"] Endf.viii_0 Endf.neutron
  = Some (Endf.details_viii_0_neutron ["n"])
  /\ length ["90c1b1a6653a148f17cbf3c5d1171859";
             "eaf71eb22258f759abc205a129d8715a"]
     = length ["zips/ENDF-B-VIII.0_neutrons.zip";
               "erratafiles/n-005_B_010.endf"].
Proof.
  split; [reflexivity|].
  exact (proj1 (proj2 downloads_checked_where_listed)
           ["n"] ["e"] Endf.viii_0 Endf.neutron _ eq_refl).
Defined.

(** C4 as stated fails: the first call of a JENDL run is a download
    without checksum, and so is the download of the ENDF/B vii.1 wmp
    entry, which lists no checksums. *)
Lemma downloads_without_checksum :
  head (trace (Jendl.main Sample.X Sample.cwd Sample.jendl_photon_args ∅))
  = Some (Download "https://wwwndc.jaea.go.jp/ftpnd/ftp/JENDL/jendl5-pa.tar.gz"
            (Some ["work"; "jendl-5-download"; "photon"]) None true)
  /\ head (trace (Endf.main Sample.X Sample.cwd Sample.endf_wmp_args ∅))
     = Some (Download
               "https://github.com/mit-crpg/WMP_Library/releases/download/v1.1/WMP_Library_v1.1.tar.gz"
               (Some ["work"; "endfb-vii.1-download"; "wmp"]) None false).
Proof. split; vm_compute; reflexivity. Qed.

(* ===================================================================== *)
(** * The check of the file lists in the chain scripts *)
(* ===================================================================== *)

Definition not_chain_construction (e : event) : Prop :=
  match e with
  | ChainFromEndf _ _ _ => False
  | _ => True
  end.

Definition no_files_message (ftype : string) (dir : path) : string :=
  "No " +:+ ftype +:+ " endf files found in " +:+ path_str dir.

(** The check stops at the first collection that is false, raises for it
    and makes no call. *)
Lemma check_files_exist_run dir checks fs :
  check_files_exist dir checks fs
  = match List.find (fun c => negb (truthy c.1)) checks with
    | Some c => Run (Raise (FileNotFoundError (no_files_message c.2 dir))) fs []
    | None => Run (Ok tt) fs []
    end.
Proof.
  unfold check_files_exist.
  induction checks as [|[flist ftype] checks IH]; simpl; [done|].
  unfold mbind, M_bind, bind in *.
  destruct (negb (truthy flist)); simpl; [done|].
  rewrite IH. by destruct (List.find _ checks).
Qed.

Lemma endf81_resolve_no_chain X cwd endf_path :
  always not_chain_construction (Endf81Chain.resolve X cwd endf_path).
Proof.
  unfold Endf81Chain.resolve, Endf81Chain.resolve_endf_path.
  always_auto; exact I.
Qed.

Lemma jendl_chain_resolve_no_chain X cwd a :
  always not_chain_construction (JendlChain.resolve X cwd a).
Proof.
  unfold JendlChain.resolve, JendlChain.resolve_neutron,
    JendlChain.resolve_decay, JendlChain.resolve_nfy, JendlChain.move_errata.
  always_auto; exact I.
Qed.

(** The neutron collection of the JENDL chain script is never false: it is
    the non-empty list given on the command line or a generator object. *)
Lemma jendl_chain_neutron_truthy X cwd a :
  returns (fun r => truthy r.1.2 = true) (JendlChain.resolve X cwd a).
Proof.
  unfold JendlChain.resolve.
  apply (returns_bind_returns (fun n => truthy n = true)).
  - unfold JendlChain.resolve_neutron. destruct (JendlChain.neutron a) eqn:E.
    + apply returns_bind. intros _. apply returns_bind. intros _.
      by apply returns_ret.
    + by apply returns_ret.
  - intros n Hn. apply returns_bind. intros d. apply returns_bind. intros y.
    by apply returns_ret.
Qed.

(** C1, as the code has it.  In the ENDF/B-VIII.1 chain script, when the
    list of decay files, of neutron files or of fission-product-yield files
    that the script resolves is empty, the run ends with a
    [FileNotFoundError] whose message names a file type whose list is
    empty, and no chain is constructed.  The same holds in the JENDL chain
    script when the list of decay files or of fission-product-yield files
    is empty. *)
Theorem missing_files_stop_the_run :
  (forall X cwd chain_path endf_path fs dir d n y,
     result (Endf81Chain.resolve X cwd endf_path fs)
     = Ok (dir, (PyList d, PyList n, PyList y)) ->
     d = [] \/ n = [] \/ y = [] ->
     exists ftype,
       result (Endf81Chain.main X cwd chain_path endf_path fs)
       = Raise (FileNotFoundError (no_files_message ftype dir))
       /\ (ftype = "decay" /\ d = []
           \/ ftype = "neutron" /\ n = []
           \/ ftype = "neutron fission product yield" /\ y = [])
       /\ Forall not_chain_construction
            (trace (Endf81Chain.main X cwd chain_path endf_path fs)))
  /\ (forall X cwd a fs d n y,
        result (JendlChain.resolve X cwd a fs) = Ok (d, n, y) ->
        d = PyList [] \/ y = PyList [] ->
        exists ftype,
          result (JendlChain.main X cwd a fs)
          = Raise (FileNotFoundError
                     (no_files_message ftype (JendlChain.endf_files_dir cwd)))
          /\ (ftype = "decay" /\ d = PyList []
              \/ ftype = "neutron fission product yield" /\ y = PyList [])
          /\ Forall not_chain_construction (trace (JendlChain.main X cwd a fs))).
Proof.
  split.
  - intros X cwd chain_path endf_path fs dir d n y Hres Hempty.
    unfold Endf81Chain.main.
    rewrite result_bind, trace_bind, Hres.
    unfold Endf81Chain.build.
    rewrite result_bind, trace_bind, check_files_exist_run.
    pose proof (endf81_resolve_no_chain X cwd endf_path fs) as Hpre.
    destruct d as [|d0 d]; simpl.
    { exists "decay". split_and!; [done|by left|by rewrite app_nil_r]. }
    destruct n as [|n0 n]; simpl.
    { exists "neutron". split_and!; [done|by right; left|by rewrite app_nil_r]. }
    destruct y as [|y0 y]; simpl.
    { exists "neutron fission product yield".
      split_and!; [done|by right; right|by rewrite app_nil_r]. }
    by destruct Hempty as [?|[?|?]].
  - intros X cwd a fs d n y Hres Hempty.
    pose proof (jendl_chain_neutron_truthy X cwd a fs _ Hres) as Hn.
    simpl in Hn.
    unfold JendlChain.main.
    rewrite result_bind, trace_bind, Hres.
    unfold JendlChain.build.
    rewrite result_bind, trace_bind, check_files_exist_run.
    pose proof (jendl_chain_resolve_no_chain X cwd a fs) as Hpre.
    simpl. destruct (truthy d) eqn:Hd; simpl.
    + rewrite Hn. simpl. destruct (truthy y) eqn:Hy; simpl.
      * destruct Hempty as [->| ->]; done.
      * exists "neutron fission product yield".
        split_and!; [done| |by rewrite app_nil_r].
        right. split; [done|]. by destruct y as [[|]|].
    + exists "decay". split_and!; [done| |by rewrite app_nil_r].
      left. split; [done|]. by destruct d as [[|]|].
Qed.

Lemma missing_files_stop_the_run_witness :
  result (Endf81Chain.resolve Sample.X Sample.cwd (Some ["data"]) Sample.no_decay)
  = Ok (["data"],
        (PyList [], PyList [["data"; "neutrons"; "n-001_H_001.endf"]], PyList []))
  /\ exists ftype,
       result (Endf81Chain.main Sample.X Sample.cwd ["chain.xml"] (Some ["data"])
                 Sample.no_decay)
       = Raise (FileNotFoundError (no_files_message ftype ["data"]))
       /\ (ftype = "decay" /\ @nil path = []
           \/ ftype = "neutron" /\ [["data"; "neutrons"; "n-001_H_001.endf"]] = []
           \/ ftype = "neutron fission product yield" /\ @nil path = [])
       /\ Forall not_chain_construction
            (trace (Endf81Chain.main Sample.X Sample.cwd ["chain.xml"]
                      (Some ["data"]) Sample.no_decay)).
Proof.
  assert (result (Endf81Chain.resolve Sample.X Sample.cwd (Some ["data"])
                    Sample.no_decay)
          = Ok (["data"],
                (PyList [], PyList [["data"; "neutrons"; "n-001_H_001.endf"]],
                 PyList []))) as H by (vm_compute; reflexivity).
  split; [exact H|].
  apply (proj1 missing_files_stop_the_run _ _ _ _ _ _ _ _ _ H).
  left. reflexivity.
Defined.

(** C1 as stated fails: the JEFF 3.3 chain script, run on a library
    directory without decay files, resolves an empty list of decay files,
    raises nothing, and constructs the chain from the empty list. *)
Lemma jeff33_chain_without_decay_files :
  Fs.glob Sample.no_decay ["data"; "decay"] "*.ASC" = []
  /\ result (Jeff33Chain.main Sample.X Sample.cwd ["chain.xml"] (Some ["data"])
               Sample.no_decay) = Ok tt
  /\ trace (Jeff33Chain.main Sample.X Sample.cwd ["chain.xml"] (Some ["data"])
              Sample.no_decay)
     = [FixMissingTpid ["data"; "nfy"; "JEFF33-nfy.asc"];
        GetEvaluations ["data"; "nfy"; "JEFF33-nfy.asc"; "fixed"];
        FixMissingTpidExit ["data"; "nfy"; "JEFF33-nfy.asc"];
        ChainFromEndf (Files (PyList []))
          (Evaluations ["data"; "nfy"; "JEFF33-nfy.asc"; "fixed"])
          (Files (PyList [["data"; "neutrons"; "1-H-1g.jeff33"]]));
        ChainExportToXml ["chain.xml"]].
Proof. split_and!; vm_compute; reflexivity. Qed.

(* ===================================================================== *)
(** * The fission-yield evaluations of the JEFF chain scripts *)
(* ===================================================================== *)

(** Calls that neither read evaluations nor construct a chain. *)
Definition before_evaluations (e : event) : Prop :=
  match e with
  | GetEvaluations _ | ChainFromEndf _ _ _ | FixMissingTpid _ => False
  | _ => True
  end.

Lemma jeff33_resolve_before X cwd endf_path :
  always before_evaluations (Jeff33Chain.resolve_endf_path X cwd endf_path).
Proof. unfold Jeff33Chain.resolve_endf_path. always_auto; exact I. Qed.

Lemma jeff40_resolve_before X cwd endf_path :
  always before_evaluations (Jeff40Chain.resolve_endf_path X cwd endf_path).
Proof. unfold Jeff40Chain.resolve_endf_path. always_auto; exact I. Qed.

Lemma run_eta {A} (r : run A) : Run (result r) (final r) (trace r) = r.
Proof. by destruct r. Qed.

Lemma gets_bind_run {A B : Type} (f : FS -> A) (k : A -> M B) fs :
  (gets f ≫= k) fs = k (f fs) fs.
Proof. unfold mbind, M_bind, bind, gets. cbn [result final trace app]. apply run_eta. Qed.

(** The run of [with fix_missing_tpid(file) as fixed: get_evaluations(fixed)]. *)
Lemma with_fix_get_evaluations_run X file fs :
  with_fix_missing_tpid X file (get_evaluations X) fs
  = match x_fix_missing_tpid X file fs with
    | Raise e => Run (Raise e) fs [FixMissingTpid file]
    | Ok (fixed, fs2) =>
        Run (match x_get_evaluations X fixed fs2 with
             | Ok _ => Ok (Evaluations fixed)
             | Raise e => Raise e
             end)
            (x_fix_missing_tpid_exit X file fs2)
            [FixMissingTpid file; GetEvaluations fixed; FixMissingTpidExit file]
    end.
Proof.
  unfold with_fix_missing_tpid, get_evaluations, with_, call, query, total,
    mbind, M_bind, bind, mret, M_ret, ret.
  destruct (x_fix_missing_tpid X file fs) as [[fixed fs2]|e]; [|done].
  cbn [result final trace].
  destruct (x_get_evaluations X fixed fs2) as [[]|e]; reflexivity.
Qed.

Lemma get_evaluations_run X file fs :
  get_evaluations X file fs
  = Run (match x_get_evaluations X file fs with
         | Ok _ => Ok (Evaluations file)
         | Raise e => Raise e
         end) fs [GetEvaluations file].
Proof.
  unfold get_evaluations, call, query, mbind, M_bind, bind, mret, M_ret, ret.
  destruct (x_get_evaluations X file fs) as [[]|e]; reflexivity.
Qed.

Lemma before_evaluations_not_chain tr d y n :
  Forall before_evaluations tr -> ChainFromEndf d y n ∉ tr.
Proof.
  intros H Hin. rewrite Forall_forall in H. by apply (H _ Hin).
Qed.

Lemma chain_tail_trace X d y n chain_path fs :
  exists post,
    trace ((chain_from_endf X d y n ≫= fun _ => chain_export_to_xml X chain_path) fs)
    = ChainFromEndf d y n :: post
    /\ Forall before_evaluations post.
Proof.
  unfold chain_from_endf, chain_export_to_xml, call, query, effect,
    mbind, M_bind, bind.
  destruct (x_chain_from_endf X d y n fs) as [[]|e]; cbn [result final trace].
  - destruct (x_chain_export_to_xml X chain_path fs); cbn [trace app];
      eexists; split; try reflexivity; repeat constructor.
  - eexists; split; try reflexivity; constructor.
Qed.

(** Closes a goal [e ∈ l -> _] when [e] differs from each member of the
    explicit list [l]. *)
Ltac no_such_call :=
  let H := fresh in
  intros H; exfalso; revert H;
  rewrite ?app_nil_r, ?elem_of_app, ?elem_of_cons, ?elem_of_nil;
  intros H; destruct_or!; discriminate || contradiction.

(** C6.  In every run of the JEFF 3.3 and of the JEFF 4.0 chain script, a
    chain is constructed only from fission-yield evaluations that
    [get_evaluations] read from the path that [fix_missing_tpid] gave for
    the NFY file: the construction is preceded, in this order, by the entry
    into the fix for the NFY file, the reading of the evaluations from the
    path [fixed] that the fix returned, and the exit from the fix (in the
    JEFF 4.0 script the reading of the decay file comes in between), and no
    other call before or after constructs a chain or reads evaluations. *)
Theorem nfy_evaluations_read_from_fixed_path :
  (forall X cwd chain_path endf_path fs d y n,
     ChainFromEndf d y n ∈ trace (Jeff33Chain.main X cwd chain_path endf_path fs) ->
     exists dir fixed fs1 fs2 pre post,
       result (Jeff33Chain.resolve_endf_path X cwd endf_path fs) = Ok dir
       /\ x_fix_missing_tpid X (Jeff33Chain.nfy_file_of dir) fs1 = Ok (fixed, fs2)
       /\ y = Evaluations fixed
       /\ trace (Jeff33Chain.main X cwd chain_path endf_path fs)
          = pre ++ [FixMissingTpid (Jeff33Chain.nfy_file_of dir);
                    GetEvaluations fixed;
                    FixMissingTpidExit (Jeff33Chain.nfy_file_of dir);
                    ChainFromEndf d y n] ++ post
       /\ Forall before_evaluations pre
       /\ Forall before_evaluations post)
  /\ (forall X cwd chain_path endf_path fs d y n,
     ChainFromEndf d y n ∈ trace (Jeff40Chain.main X cwd chain_path endf_path fs) ->
     exists dir fixed fs1 fs2 pre post,
       result (Jeff40Chain.resolve_endf_path X cwd endf_path fs) = Ok dir
       /\ x_fix_missing_tpid X (Jeff40Chain.nfy_path_of dir) fs1 = Ok (fixed, fs2)
       /\ y = Evaluations fixed
       /\ d = Evaluations (Jeff40Chain.decay_path_of dir)
       /\ trace (Jeff40Chain.main X cwd chain_path endf_path fs)
          = pre ++ [FixMissingTpid (Jeff40Chain.nfy_path_of dir);
                    GetEvaluations fixed;
                    FixMissingTpidExit (Jeff40Chain.nfy_path_of dir);
                    GetEvaluations (Jeff40Chain.decay_path_of dir);
                    ChainFromEndf d y n] ++ post
       /\ Forall before_evaluations pre
       /\ Forall before_evaluations post).
Proof.
  split.
  - intros X cwd chain_path endf_path fs d y n Hin.
    unfold Jeff33Chain.main in *.
    rewrite trace_bind in *.
    pose proof (jeff33_resolve_before X cwd endf_path fs) as Hpre.
    destruct (result (Jeff33Chain.resolve_endf_path X cwd endf_path fs))
      as [dir|e] eqn:Hdir.
    2:{ rewrite app_nil_r in Hin. by apply before_evaluations_not_chain in Hin. }
    apply elem_of_app in Hin as [Hin|Hin];
      [by apply before_evaluations_not_chain in Hin|].
    set (fs1 := final (Jeff33Chain.resolve_endf_path X cwd endf_path fs)) in *.
    revert Hin. rewrite !gets_bind_run, trace_bind, with_fix_get_evaluations_run.
    destruct (x_fix_missing_tpid X (Jeff33Chain.nfy_file_of dir) fs1)
      as [[fixed fs2]|e] eqn:Hfix; cbn [result final trace].
    2:{ no_such_call. }
    destruct (x_get_evaluations X fixed fs2) as [[]|e] eqn:Hget.
    2:{ no_such_call. }
    match goal with
    | |- context [trace (?m ?s)] =>
        destruct (chain_tail_trace X (Files (PyList (Fs.glob fs1 (div dir "decay") "*.ASC")))
                    (Evaluations fixed)
                    (Files (PyList (Fs.glob fs1 (div dir "neutrons") "*.jeff33")))
                    chain_path (x_fix_missing_tpid_exit X (Jeff33Chain.nfy_file_of dir) fs2))
          as (post & Hpost & Hposts)
    end.
    rewrite Hpost. intros Hin.
    assert (ChainFromEndf d y n
            = ChainFromEndf (Files (PyList (Fs.glob fs1 (div dir "decay") "*.ASC")))
                (Evaluations fixed)
                (Files (PyList (Fs.glob fs1 (div dir "neutrons") "*.jeff33")))) as Heq.
    { revert Hin. rewrite !elem_of_app, !elem_of_cons, elem_of_nil.
      intros Hor. destruct_or!; try discriminate; try assumption;
        try contradiction.
      match goal with
      | Hp : _ ∈ post |- _ => by apply before_evaluations_not_chain in Hp
      end. }
    injection Heq as -> -> ->.
    exists dir, fixed, fs1, fs2,
      (trace (Jeff33Chain.resolve_endf_path X cwd endf_path fs)), post.
    split_and!; done.
  - intros X cwd chain_path endf_path fs d y n Hin.
    unfold Jeff40Chain.main in *.
    rewrite trace_bind in *.
    pose proof (jeff40_resolve_before X cwd endf_path fs) as Hpre.
    destruct (result (Jeff40Chain.resolve_endf_path X cwd endf_path fs))
      as [dir|e] eqn:Hdir.
    2:{ rewrite app_nil_r in Hin. by apply before_evaluations_not_chain in Hin. }
    apply elem_of_app in Hin as [Hin|Hin];
      [by apply before_evaluations_not_chain in Hin|].
    set (fs1 := final (Jeff40Chain.resolve_endf_path X cwd endf_path fs)) in *.
    revert Hin. rewrite !gets_bind_run, trace_bind, with_fix_get_evaluations_run.
    destruct (x_fix_missing_tpid X (Jeff40Chain.nfy_path_of dir) fs1)
      as [[fixed fs2]|e] eqn:Hfix; cbn [result final trace].
    2:{ no_such_call. }
    destruct (x_get_evaluations X fixed fs2) as [[]|e] eqn:Hget.
    2:{ no_such_call. }
    rewrite trace_bind, get_evaluations_run. cbn [result final trace].
    set (fs3 := x_fix_missing_tpid_exit X (Jeff40Chain.nfy_path_of dir) fs2).
    destruct (x_get_evaluations X (Jeff40Chain.decay_path_of dir) fs3)
      as [[]|e] eqn:Hdecay.
    2:{ no_such_call. }
    destruct (chain_tail_trace X (Evaluations (Jeff40Chain.decay_path_of dir))
                (Evaluations fixed)
                (Files (PyList (Fs.glob fs1 (div dir "neutrons") "*.jeff")))
                chain_path fs3)
      as (post & Hpost & Hposts).
    rewrite Hpost. intros Hin.
    assert (ChainFromEndf d y n
            = ChainFromEndf (Evaluations (Jeff40Chain.decay_path_of dir))
                (Evaluations fixed)
                (Files (PyList (Fs.glob fs1 (div dir "neutrons") "*.jeff")))) as Heq.
    { revert Hin. rewrite !elem_of_app, !elem_of_cons, elem_of_nil.
      intros Hor. destruct_or!; try discriminate; try assumption;
        try contradiction.
      match goal with
      | Hp : _ ∈ post |- _ => by apply before_evaluations_not_chain in Hp
      end. }
    injection Heq as -> -> ->.
    exists dir, fixed, fs1, fs2,
      (trace (Jeff40Chain.resolve_endf_path X cwd endf_path fs)), post.
    split_and!; done.
Qed.

Lemma nfy_evaluations_read_from_fixed_path_witness :
  ChainFromEndf (Files (PyList []))
    (Evaluations ["data"; "nfy"; "JEFF33-nfy.asc"; "fixed"])
    (Files (PyList [["data"; "neutrons"; "1-H-1g.jeff33"]]))
  ∈ trace (Jeff33Chain.main Sample.X Sample.cwd ["chain.xml"] (Some ["data"])
             Sample.no_decay)
  /\ exists dir fixed fs1 fs2 pre post,
       result (Jeff33Chain.resolve_endf_path Sample.X Sample.cwd (Some ["data"])
                 Sample.no_decay) = Ok dir
       /\ x_fix_missing_tpid Sample.X (Jeff33Chain.nfy_file_of dir) fs1
          = Ok (fixed, fs2)
       /\ Evaluations ["data"; "nfy"; "JEFF33-nfy.asc"; "fixed"]
          = Evaluations fixed
       /\ trace (Jeff33Chain.main Sample.X Sample.cwd ["chain.xml"]
                   (Some ["data"]) Sample.no_decay)
          = pre ++ [FixMissingTpid (Jeff33Chain.nfy_file_of dir);
                    GetEvaluations fixed;
                    FixMissingTpidExit (Jeff33Chain.nfy_file_of dir);
                    ChainFromEndf (Files (PyList []))
                      (Evaluations ["data"; "nfy"; "JEFF33-nfy.asc"; "fixed"])
                      (Files (PyList [["data"; "neutrons"; "1-H-1g.jeff33"]]))]
            ++ post
       /\ Forall before_evaluations pre
       /\ Forall before_evaluations post.
Proof.
  assert (ChainFromEndf (Files (PyList []))
            (Evaluations ["data"; "nfy"; "JEFF33-nfy.asc"; "fixed"])
            (Files (PyList [["data"; "neutrons"; "1-H-1g.jeff33"]]))
          ∈ trace (Jeff33Chain.main Sample.X Sample.cwd ["chain.xml"]
                     (Some ["data"]) Sample.no_decay)) as H.
  { apply list_elem_of_In. vm_compute. do 3 right. left. reflexivity. }
  split; [exact H|].
  exact (proj1 nfy_evaluations_read_from_fixed_path _ _ _ _ _ _ _ _ H).
Defined.

(* ===================================================================== *)
(** * Archives with directory members (generate_endf.py) *)
(* ===================================================================== *)

(** An element on which the body does nothing can be left out of a loop. *)
Lemma for_drop {A : Type} (before after : list A) (x : A) (body : A -> M unit) fs :
  (forall fs, body x fs = Run (Ok tt) fs []) ->
  for_ (before ++ x :: after) body fs = for_ (before ++ after) body fs.
Proof.
  intros Hx. revert fs. induction before as [|y before IH]; intros fs.
  - cbn [app for_]. unfold mbind, M_bind, bind. rewrite Hx.
    cbn [result final trace app]. apply run_eta.
  - cbn [app for_]. unfold mbind, M_bind, bind in *.
    destruct (body y fs) as [[[]|e] fs1 tr1]; cbn [result final trace]; [|done].
    by rewrite IH.
Qed.

(** The tar branch does what the source comment says: a member that is not
    a regular file is passed over, and the extraction goes as if the
    archive did not hold it. *)
Lemma extract_tar_skips_non_regular (dir archive : path)
    (before after : list tar_member) (m : tar_member) (fs : FS) :
  isreg m = false ->
  fs !! archive = Some (TarArchive (before ++ m :: after)) ->
  Endf.extract_tar archive dir fs
  = for_ (before ++ after)
      (fun member =>
         if isreg member
         then fsop (Endf.tar_extract dir (name (Path (tar_name member))) member)
         else mret tt) fs.
Proof.
  intros Hm Hfs. unfold Endf.extract_tar.
  unfold mbind at 1. unfold M_bind, bind, lift, Endf.tarfile_open.
  rewrite Hfs. cbn [result final trace app].
  rewrite run_eta. apply for_drop. intros fs'. by rewrite Hm.
Qed.

(** C2, at the input where the code departs from it.  The downloaded zip
    archive holds the directory entry [neutrons/] and two evaluations below
    it.  After the extraction stage the two evaluations lie directly in the
    extraction directory under their base names, and so does an empty
    regular file named [neutrons]: [Path("neutrons/").name] is
    ["neutrons"], not the empty string that the test for directories looks
    for. *)
Theorem zip_directory_entry_is_written_as_a_file :
  let r := Endf.extract_stage Sample.cwd Sample.endf_args Sample.endf_downloaded in
  name (Path "neutrons/") = "neutrons"
  /\ result r = Ok tt
  /\ final r !! ["work"; "endfb-vii.1-endf"; "neutron"; "n-001_H_001.endf"]
     = Some (Data "H-1")
  /\ final r !! ["work"; "endfb-vii.1-endf"; "neutron"; "n-000_n_001.endf"]
     = Some (Data "n-1")
  /\ final r !! ["work"; "endfb-vii.1-endf"; "neutron"; "neutrons"]
     = Some (Data "").
Proof. cbv zeta. split_and!; vm_compute; reflexivity. Qed.

(* ===================================================================== *)
(** * The ZSYMAM patches of the JENDL thermal stage *)
(* ===================================================================== *)

Definition no_thermal_submit (e : event) : Prop :=
  match e with
  | Submit (process_thermal _ _ _ _) => False
  | _ => True
  end.

(** The directory of the thermal evaluations in [generate_jendl.py]. *)
Definition jendl_thermal_dir (cwd : path) (a : Jendl.args) : path :=
  div (div (Jendl.endf_files_dir cwd a) "thermal") "jendl5-tsl".

(** The calls of [update_zsymam] that the thermal stage makes, in order. *)
Definition zsymam_updates (cwd : path) (a : Jendl.args) : list event :=
  List.map (fun e => UpdateZsymam (div (jendl_thermal_dir cwd a) e.1) e.2)
    Jendl.update_thermal_list.

Lemma lift_bind_run {A B : Type} (o : outcome A) (k : A -> M B) fs :
  (lift o ≫= k) fs
  = match o with Ok a => k a fs | Raise e => Run (Raise e) fs [] end.
Proof.
  unfold mbind, M_bind, bind, lift. destruct o; cbn [result final trace app];
    [apply run_eta | done].
Qed.

(** A loop of calls that ends normally has made all of them, in order. *)
Lemma for_call_trace {A : Type} (l : list A) (body : A -> M unit)
    (ev : A -> event) (h : A -> FS -> outcome (unit * FS)) fs :
  (forall x fs, body x fs = call (ev x) (h x) fs) ->
  result (for_ l body fs) = Ok tt ->
  trace (for_ l body fs) = List.map ev l.
Proof.
  intros Hbody. revert fs. induction l as [|x l IH]; intros fs; [done|].
  cbn [for_ List.map]. rewrite result_bind, trace_bind, Hbody.
  destruct (h x fs) as [[[] fs']|e] eqn:E.
  - assert (call (ev x) (h x) fs = Run (Ok tt) fs' [ev x]) as ->
      by (unfold call; by rewrite E).
    cbn [result final trace]. intros H. by rewrite (IH _ H).
  - assert (call (ev x) (h x) fs = Run (Raise e) fs [ev x]) as ->
      by (unfold call; by rewrite E).
    done.
Qed.

Section ListSplit.
Context (P : event -> Prop) (x : event) (HPx : ~ P x).

Lemma split_after_prefix pre rest before after :
  Forall P pre -> pre ++ rest = before ++ x :: after ->
  exists mid, before = pre ++ mid /\ rest = mid ++ x :: after.
Proof using HPx.
  intros Hpre Heq. apply app_eq_inv in Heq as [(k & -> & Hk)|(k & -> & ->)].
  - destruct k as [|y k].
    + exists []. rewrite !app_nil_r. cbn [app] in *. by subst rest.
    + injection Hk as -> ->. exfalso. apply HPx.
      rewrite Forall_app, Forall_cons in Hpre. tauto.
  - by exists k.
Qed.

Lemma split_before_suffix stage rest before after :
  Forall P rest -> stage ++ rest = before ++ x :: after ->
  exists tail, stage = before ++ x :: tail.
Proof using HPx.
  intros Hrest Heq. apply app_eq_inv in Heq as [(k & -> & Hk)|(k & -> & ->)].
  - destruct k as [|y k].
    + exfalso. apply HPx. cbn [app] in Hk. subst rest.
      by apply Forall_cons in Hrest as [? _].
    + injection Hk as -> ->. by exists k.
  - exfalso. apply HPx. rewrite Forall_app, Forall_cons in Hrest. tauto.
Qed.
End ListSplit.

Section JendlThermal.
Variables (X : externals) (cwd : path) (a : Jendl.args).

Lemma jendl_register_sorted_always (P : event -> Prop) dir :
  (forall p, P (RegisterFile p)) ->
  always P (Jendl.register_sorted X dir).
Proof. intros H. unfold Jendl.register_sorted. always_auto. apply H. Qed.

Lemma jendl_download_no_thermal :
  always no_thermal_submit (Jendl.download_stage X cwd a).
Proof. unfold Jendl.download_stage, Jendl.lookup. always_auto; exact I. Qed.

Lemma jendl_extract_no_thermal :
  always no_thermal_submit (Jendl.extract_stage X cwd a).
Proof. unfold Jendl.extract_stage, Jendl.lookup. always_auto; exact I. Qed.

Lemma jendl_errata_no_thermal :
  always no_thermal_submit (Jendl.errata_stage cwd a).
Proof.
  unfold Jendl.errata_stage, Jendl.errata_particle, Jendl.lookup.
  always_auto; exact I.
Qed.

Lemma jendl_neutron_no_thermal :
  always no_thermal_submit (Jendl.neutron_stage X cwd a).
Proof.
  unfold Jendl.neutron_stage, Jendl.register_sorted, Jendl.lookup.
  always_auto; exact I.
Qed.

Lemma jendl_photon_no_thermal :
  always no_thermal_submit
    (Jendl.photon_stage X cwd a;;
     export_to_xml X (div (Jendl.destination_dir cwd a) "cross_sections.xml")).
Proof.
  unfold Jendl.photon_stage, Jendl.lookup. always_auto; exact I.
Qed.

(** In the thermal stage every submission of a thermal task comes after
    all the patches. *)
Lemma jendl_thermal_stage_patches_first fs before t after :
  ~ no_thermal_submit t ->
  trace (Jendl.thermal_stage X cwd a fs) = before ++ t :: after ->
  exists mid, before = zsymam_updates cwd a ++ mid.
Proof.
  intros Ht. unfold Jendl.thermal_stage, when.
  destruct (bool_decide (Jendl.thermal ∈ Jendl.particles a)).
  2:{ intros H. by destruct before. }
  unfold Jendl.lookup. destruct (Jendl.release_of a).
  cbn [Jendl.release_details Jendl.particle_str item].
  rewrite !lift_bind_run.
  cbn [Jendl.endf_dir Jendl.details_5_neutron Jendl.details_5_thermal item].
  rewrite !lift_bind_run, trace_bind.
  fold (jendl_thermal_dir cwd a).
  match goal with
  | |- context [for_ Jendl.update_thermal_list ?body] =>
      set (loop := for_ Jendl.update_thermal_list body)
  end.
  assert (always no_thermal_submit loop) as Hloop.
  { subst loop. apply always_for. intros [f z] _. unfold update_zsymam.
    apply always_call. exact I. }
  destruct (result (loop fs)) as [[]|e] eqn:Hres.
  - subst loop.
    rewrite (for_call_trace _ _
               (fun e => UpdateZsymam (div (jendl_thermal_dir cwd a) e.1) e.2)
               (fun e => effect (x_update_zsymam X
                                   (div (jendl_thermal_dir cwd a) e.1) e.2))
               fs); [|intros [f z] ?; reflexivity|exact Hres].
    fold (zsymam_updates cwd a). intros Heq.
    assert (Forall no_thermal_submit (zsymam_updates cwd a)) as Hup.
    { apply Forall_forall. intros e He. unfold zsymam_updates in He.
      apply list_elem_of_In, in_map_iff in He as (x & <- & _). exact I. }
    destruct (split_after_prefix no_thermal_submit t Ht _ _ _ _ Hup Heq)
      as (mid & -> & _).
    by exists mid.
  - rewrite app_nil_r. intros Heq. exfalso. apply Ht.
    specialize (Hloop fs). rewrite Heq, Forall_app, Forall_cons in Hloop.
    tauto.
Qed.

Lemma jendl_main_patches_first fs before t after :
  ~ no_thermal_submit t ->
  trace (Jendl.main X cwd a fs) = before ++ t :: after ->
  exists pre mid, before = pre ++ zsymam_updates cwd a ++ mid.
Proof.
  intros Ht. unfold Jendl.main.
  rewrite trace_bind. intros Heq.
  destruct (split_after_prefix no_thermal_submit t Ht _ _ _ _
              (jendl_download_no_thermal fs) Heq) as (m1 & -> & Heq1).
  clear Heq. destruct (result (Jendl.download_stage X cwd a fs));
    [|by destruct m1].
  rewrite trace_bind in Heq1.
  destruct (split_after_prefix no_thermal_submit t Ht _ _ _ _
              (jendl_extract_no_thermal _) Heq1) as (m2 & -> & Heq2).
  clear Heq1. destruct (result (Jendl.extract_stage X cwd a _));
    [|by destruct m2].
  rewrite trace_bind in Heq2.
  destruct (split_after_prefix no_thermal_submit t Ht _ _ _ _
              (jendl_errata_no_thermal _) Heq2) as (m3 & -> & Heq3).
  clear Heq2. destruct (result (Jendl.errata_stage cwd a _));
    [|by destruct m3].
  rewrite trace_bind in Heq3.
  destruct (split_after_prefix no_thermal_submit t Ht _ _ _ _
              (jendl_neutron_no_thermal _) Heq3) as (m4 & -> & Heq4).
  clear Heq3. destruct (result (Jendl.neutron_stage X cwd a _));
    [|by destruct m4].
  rewrite trace_bind in Heq4.
  assert (exists tail, trace (Jendl.thermal_stage X cwd a
            (final (Jendl.neutron_stage X cwd a
               (final (Jendl.errata_stage cwd a
                  (final (Jendl.extract_stage X cwd a
                     (final (Jendl.download_stage X cwd a fs)))))))))
          = m4 ++ t :: tail) as [tail Htail].
  { eapply (split_before_suffix no_thermal_submit t Ht); [|exact Heq4].
    destruct (result (Jendl.thermal_stage X cwd a _)); [|constructor].
    apply jendl_photon_no_thermal. }
  destruct (jendl_thermal_stage_patches_first _ _ _ _ Ht Htail) as (mid & ->).
  eexists _, mid. by rewrite !app_assoc.
Qed.
End JendlThermal.

(** C7, as the code has it.  The list of liquid and solid thermal
    evaluations to patch has 30 entries, with pairwise different files and
    pairwise different replacement symbols; and in every run of the JENDL
    HDF5 script, whenever a thermal-scattering task is submitted to the
    pool, [update_zsymam] has before that been applied to each of the 30
    listed files, in list order, with the symbol listed for it. *)
Theorem zsymam_patched_before_thermal_tasks :
  length Jendl.update_thermal_list = 30%nat
  /\ NoDup (Jendl.update_thermal_list.*1)
  /\ NoDup (Jendl.update_thermal_list.*2)
  /\ (forall X cwd a fs before path_neutron path_thermal output_dir libver after,
        trace (Jendl.main X cwd a fs)
        = before
          ++ Submit (process_thermal path_neutron path_thermal output_dir libver)
          :: after ->
        exists pre mid, before = pre ++ zsymam_updates cwd a ++ mid).
Proof.
  split_and!.
  - reflexivity.
  - apply (bool_decide_unpack _). vm_compute. exact I.
  - apply (bool_decide_unpack _). vm_compute. exact I.
  - intros X cwd a fs before pn pt o lv after.
    apply jendl_main_patches_first. simpl. tauto.
Qed.

Lemma zsymam_patched_before_thermal_tasks_witness :
  let tr := trace (Jendl.main Sample.X Sample.cwd Sample.jendl_thermal_args ∅) in
  let first_task :=
    process_thermal
      ["work"; "jendl-5-endf"; "neutron"; "jendl5-n"; "n_001-H-001.dat"]
      ["work"; "jendl-5-endf"; "thermal"; "jendl5-tsl"; "tsl_HinC5O2H8.dat"]
      ["work"; "jendl-5-hdf5"; "thermal"] "latest" in
  tr = take 30 tr ++ Submit first_task :: drop 31 tr
  /\ exists pre mid,
       take 30 tr
       = pre ++ zsymam_updates Sample.cwd Sample.jendl_thermal_args ++ mid.
Proof.
  cbv zeta.
  assert (trace (Jendl.main Sample.X Sample.cwd Sample.jendl_thermal_args ∅)
          = take 30 (trace (Jendl.main Sample.X Sample.cwd
                              Sample.jendl_thermal_args ∅))
            ++ Submit
                 (process_thermal
                    ["work"; "jendl-5-endf"; "neutron"; "jendl5-n"; "n_001-H-001.dat"]
                    ["work"; "jendl-5-endf"; "thermal"; "jendl5-tsl"; "tsl_HinC5O2H8.dat"]
                    ["work"; "jendl-5-hdf5"; "thermal"] "latest")
            :: drop 31 (trace (Jendl.main Sample.X Sample.cwd
                                 Sample.jendl_thermal_args ∅))) as H
    by (vm_compute; reflexivity).
  split; [exact H|].
  exact (proj2 (proj2 (proj2 zsymam_patched_before_thermal_tasks))
           _ _ _ _ _ _ _ _ _ _ H).
Defined.

(** C7 as stated fails on the count: the list has 30 entries, not 31. *)
Lemma update_thermal_list_has_30_entries :
  length Jendl.update_thermal_list <> 31%nat.
Proof. vm_compute. discriminate. Qed.

(* ===================================================================== *)
(** * The order of registration *)
(* ===================================================================== *)

(** ** The insertion sort, for any comparison *)
Section SortKeyed.
Context {K A : Type} (lt : K -> K -> option bool).

(** [x] is not after [y]: the comparison [y < x] is defined and false. *)
Definition not_after (x y : K * A) : Prop := lt y.1 x.1 = Some false.

(** The keys on which the sort is used: any two compare, [<] is
    asymmetric and "not after" is transitive. *)
Context (D : K -> Prop).
Context (lt_total : forall a b, D a -> D b -> is_Some (lt a b)).
Context (lt_asym : forall a b, D a -> D b -> lt a b = Some true -> lt b a = Some false).
Context (le_trans : forall a b c, D a -> D b -> D c ->
           lt b a = Some false -> lt c b = Some false -> lt c a = Some false).

Implicit Types (x : K * A) (l r : list (K * A)).

Lemma insert_keyed_Permutation x l r :
  insert_keyed lt x l = Some r -> r ≡ₚ x :: l.
Proof.
  revert r. induction l as [|y l IH]; intros r; cbn [insert_keyed].
  - by intros [= <-].
  - destruct (lt y.1 x.1) as [[]|]; [| |done].
    + destruct (insert_keyed lt x l) as [r'|]; [|done].
      intros [= <-]. rewrite (IH r' eq_refl). apply Permutation_swap.
    + by intros [= <-].
Qed.

Lemma sort_keyed_Permutation l r : sort_keyed lt l = Some r -> r ≡ₚ l.
Proof.
  revert r. induction l as [|x l IH]; intros r; cbn [sort_keyed].
  - by intros [= <-].
  - destruct (sort_keyed lt l) as [r'|]; [|done]. cbn.
    intros H. apply insert_keyed_Permutation in H. rewrite H.
    by rewrite (IH r' eq_refl).
Qed.

Lemma insert_keyed_sorted x l :
  D x.1 -> Forall (fun y => D y.1) l -> StronglySorted not_after l ->
  exists r, insert_keyed lt x l = Some r /\ StronglySorted not_after r.
Proof using lt_total lt_asym le_trans.
  intros Hx Hl Hs. induction l as [|y l IH]; cbn [insert_keyed].
  - eexists. split; [done|]. repeat constructor.
  - apply Forall_cons in Hl as [Hy Hl].
    apply StronglySorted_inv in Hs as [Hs Hyl].
    destruct (lt_total _ _ Hy Hx) as [b Hb]. rewrite Hb. destruct b.
    + destruct (IH Hl Hs) as (r & Hr & Hsr). rewrite Hr. cbn.
      eexists. split; [done|]. constructor; [done|].
      apply insert_keyed_Permutation in Hr. rewrite Hr.
      constructor; [|done]. unfold not_after. by apply lt_asym.
    + eexists. split; [done|]. constructor; [by constructor|].
      constructor; [done|].
      rewrite Forall_forall in Hyl, Hl |- *. intros z Hz.
      unfold not_after in *. eapply (le_trans _ y.1); eauto.
Qed.

Lemma sort_keyed_sorted l :
  Forall (fun y => D y.1) l ->
  exists r, sort_keyed lt l = Some r /\ r ≡ₚ l /\ StronglySorted not_after r.
Proof using lt_total lt_asym le_trans.
  intros Hl. induction l as [|x l IH]; cbn [sort_keyed].
  - exists []. split_and!; [done|done|constructor].
  - apply Forall_cons in Hl as [Hx Hl].
    destruct (IH Hl) as (r' & Hr' & Hperm & Hs). rewrite Hr'. cbn.
    destruct (insert_keyed_sorted x r' Hx) as (r & Hr & Hsr); [|done|].
    { by rewrite Hperm. }
    exists r. split_and!; [done| |done].
    apply insert_keyed_Permutation in Hr. by rewrite Hr, Hperm.
Qed.
End SortKeyed.

(** ** The order of strings and paths *)

Lemma str_ltb_irrefl a : str_ltb a a = false.
Proof.
  unfold str_ltb.
  pose proof (proj2 (OrderedTypeEx.String_as_OT.cmp_eq a a) eq_refl) as H.
  unfold OrderedTypeEx.String_as_OT.cmp in H. by rewrite H.
Qed.

Lemma str_ltb_trans a b c :
  str_ltb a b = true -> str_ltb b c = true -> str_ltb a c = true.
Proof.
  unfold str_ltb. intros Hab Hbc.
  destruct (String.compare a b) eqn:E1; try done.
  destruct (String.compare b c) eqn:E2; try done.
  apply OrderedTypeEx.String_as_OT.cmp_lt in E1, E2.
  pose proof (OrderedTypeEx.String_as_OT.lt_trans _ _ _ E1 E2) as H.
  apply OrderedTypeEx.String_as_OT.cmp_lt in H.
  unfold OrderedTypeEx.String_as_OT.cmp in H. by rewrite H.
Qed.

Lemma str_ltb_total a b :
  a = b \/ str_ltb a b = true \/ str_ltb b a = true.
Proof.
  unfold str_ltb.
  pose proof (OrderedTypeEx.String_as_OT.cmp_antisym a b) as Hab.
  unfold OrderedTypeEx.String_as_OT.cmp in Hab.
  destruct (String.compare a b) eqn:E1.
  - left. by apply OrderedTypeEx.String_as_OT.cmp_eq.
  - right. by left.
  - right. right. destruct (String.compare b a); try done.
Qed.

Lemma path_ltb_irrefl p : path_ltb p p = false.
Proof. induction p as [|a p IH]; [done|]. cbn. by rewrite String.eqb_refl. Qed.

Lemma path_ltb_trans p q r :
  path_ltb p q = true -> path_ltb q r = true -> path_ltb p r = true.
Proof.
  revert q r. induction p as [|a p IH]; intros [|b q] [|c r]; cbn; try done.
  destruct (String.eqb_spec a b) as [->|Hab].
  - destruct (String.eqb_spec b c) as [->|Hbc]; [apply IH|done].
  - destruct (String.eqb_spec b c) as [->|Hbc].
    + destruct (String.eqb_spec a c); done.
    + intros H1 H2. pose proof (str_ltb_trans _ _ _ H1 H2) as H3.
      destruct (String.eqb_spec a c) as [->|]; [|done].
      pose proof (str_ltb_trans _ _ _ H2 H1) as H4.
      by rewrite str_ltb_irrefl in H4.
Qed.

Lemma path_ltb_total p q :
  p = q \/ path_ltb p q = true \/ path_ltb q p = true.
Proof.
  revert q. induction p as [|a p IH]; intros [|b q]; cbn; auto.
  destruct (String.eqb_spec a b) as [->|Hab].
  - rewrite String.eqb_refl. destruct (IH q) as [->|[?|?]]; auto.
  - destruct (String.eqb_spec b a) as [->|_]; [done|].
    destruct (str_ltb_total a b) as [?|[?|?]]; auto.
Qed.

Lemma path_ltb_asym p q : path_ltb p q = true -> path_ltb q p = false.
Proof.
  intros H. destruct (path_ltb q p) eqn:E; [|done].
  pose proof (path_ltb_trans _ _ _ H E) as H'.
  by rewrite path_ltb_irrefl in H'.
Qed.

(** "Not after" on paths is transitive. *)
Lemma path_not_after_trans p q r :
  path_ltb q p = false -> path_ltb r q = false -> path_ltb r p = false.
Proof.
  intros Hqp Hrq. destruct (path_ltb r p) eqn:E; [|done].
  destruct (path_ltb_total p q) as [->|[Hpq|Hqp']].
  - congruence.
  - pose proof (path_ltb_trans _ _ _ E Hpq). congruence.
  - congruence.
Qed.

(** ** The keys of [sort_key] *)

(** The values [sort_key] gives: the triple of [zam], whose first member is
    an atomic number, or the pair that starts with 1000. *)
Inductive registration_key : value -> Prop :=
| key_nuclide z a m :
    0 <= z <= 118 -> registration_key (VTuple [AInt z; AInt a; AInt m])
| key_thermal p : registration_key (VTuple [AInt 1000; APath p]).

Definition lex3 (z a m z' a' m' : Z) : bool :=
  if z =? z' then if a =? a' then m <? m' else a <? a' else z <? z'.

Lemma value_lt_nuclide z a m z' a' m' :
  value_lt (VTuple [AInt z; AInt a; AInt m]) (VTuple [AInt z'; AInt a'; AInt m'])
  = Some (lex3 z a m z' a' m').
Proof.
  unfold lex3. cbn [value_lt tuple_lt atom_eqb atom_lt].
  destruct (z =? z'); [|done]. destruct (a =? a'); [|done].
  destruct (Z.eqb_spec m m') as [->|]; [|done]. by rewrite Z.ltb_irrefl.
Qed.

Lemma value_lt_thermal p q :
  value_lt (VTuple [AInt 1000; APath p]) (VTuple [AInt 1000; APath q])
  = Some (path_ltb p q).
Proof.
  cbn [value_lt tuple_lt atom_eqb atom_lt]. rewrite Z.eqb_refl.
  unfold path_eqb. case_bool_decide as H; [|done].
  subst q. by rewrite path_ltb_irrefl.
Qed.

Lemma value_lt_nuclide_thermal z a m p :
  0 <= z <= 118 ->
  value_lt (VTuple [AInt z; AInt a; AInt m]) (VTuple [AInt 1000; APath p])
  = Some true.
Proof.
  intros Hz. cbn [value_lt tuple_lt atom_eqb atom_lt].
  destruct (Z.eqb_spec z 1000); [lia|]. f_equal. apply Z.ltb_lt. lia.
Qed.

Lemma value_lt_thermal_nuclide z a m p :
  0 <= z <= 118 ->
  value_lt (VTuple [AInt 1000; APath p]) (VTuple [AInt z; AInt a; AInt m])
  = Some false.
Proof.
  intros Hz. cbn [value_lt tuple_lt atom_eqb atom_lt].
  destruct (Z.eqb_spec 1000 z); [lia|]. f_equal. apply Z.ltb_ge. lia.
Qed.

Ltac key_cases :=
  repeat match goal with
    | H : registration_key _ |- _ => inversion H; clear H; subst
    end;
  rewrite ?value_lt_nuclide, ?value_lt_thermal,
    ?value_lt_nuclide_thermal, ?value_lt_thermal_nuclide by done.

Lemma registration_key_total a b :
  registration_key a -> registration_key b -> is_Some (value_lt a b).
Proof. intros Ha Hb. key_cases; eauto. Qed.

Lemma lex3_asym z a m z' a' m' :
  lex3 z a m z' a' m' = true -> lex3 z' a' m' z a m = false.
Proof.
  unfold lex3.
  destruct (Z.eqb_spec z z'), (Z.eqb_spec z' z), (Z.eqb_spec a a'),
    (Z.eqb_spec a' a); rewrite ?Z.ltb_lt, ?Z.ltb_ge; lia.
Qed.

Lemma lex3_not_after_trans z1 a1 m1 z2 a2 m2 z3 a3 m3 :
  lex3 z2 a2 m2 z1 a1 m1 = false -> lex3 z3 a3 m3 z2 a2 m2 = false ->
  lex3 z3 a3 m3 z1 a1 m1 = false.
Proof.
  unfold lex3.
  destruct (Z.eqb_spec z2 z1), (Z.eqb_spec z3 z2), (Z.eqb_spec z3 z1),
    (Z.eqb_spec a2 a1), (Z.eqb_spec a3 a2), (Z.eqb_spec a3 a1);
    rewrite ?Z.ltb_lt, ?Z.ltb_ge; lia.
Qed.

Lemma registration_key_asym a b :
  registration_key a -> registration_key b ->
  value_lt a b = Some true -> value_lt b a = Some false.
Proof.
  intros Ha Hb. key_cases; intros Hlt%(inj Some); try done.
  - f_equal. by apply lex3_asym.
  - f_equal. by apply path_ltb_asym.
Qed.

Lemma registration_key_not_after_trans a b c :
  registration_key a -> registration_key b -> registration_key c ->
  value_lt b a = Some false -> value_lt c b = Some false ->
  value_lt c a = Some false.
Proof.
  intros Ha Hb Hc. key_cases; intros Hlt1%(inj Some) Hlt2%(inj Some);
    try done.
  - f_equal. by eapply lex3_not_after_trans.
  - f_equal. by eapply path_not_after_trans.
Qed.

(** ** What [zam] and [sort_key] return *)

Lemma position_bound s l i z :
  Openmc.position s l i = Some z -> i <= z < i + Z.of_nat (length l).
Proof.
  revert i. induction l as [|x l IH]; intros i; cbn [Openmc.position length]; [done|].
  destruct (String.eqb x s).
  - intros [= <-]. lia.
  - intros H. apply IH in H. lia.
Qed.

Lemma zam_Ok n k :
  Openmc.zam n = Ok k ->
  exists z a m, k = VTuple [AInt z; AInt a; AInt m] /\ 0 <= z <= 118.
Proof.
  unfold Openmc.zam.
  destruct (Openmc.gnds_match n) as [[[symbol mass] state]|]; [|done].
  unfold Openmc.ATOMIC_NUMBER.
  destruct (Openmc.position symbol Openmc.ATOMIC_SYMBOL 0) as [z|] eqn:Hz; [|done].
  intros [= <-]. apply position_bound in Hz.
  change (Z.of_nat (length Openmc.ATOMIC_SYMBOL)) with 119 in Hz.
  eexists _, _, _. split; [done|lia].
Qed.

Lemma zam_Raise n e : Openmc.zam n = Raise e -> exists msg, e = ValueError msg.
Proof.
  unfold Openmc.zam.
  destruct (Openmc.gnds_match n) as [[[symbol mass] state]|];
    [|intros [= <-]; eauto].
  destruct (Openmc.ATOMIC_NUMBER symbol); [done|intros [= <-]; eauto].
Qed.

(** Both scripts define the same [sort_key]. *)
Lemma jendl_sort_key : Jendl.sort_key = Endf.sort_key.
Proof. reflexivity. Qed.

Lemma sort_key_registration_key p k :
  Endf.sort_key p = Ok k -> registration_key k.
Proof.
  unfold Endf.sort_key. destruct (startswith (name p) "c_").
  - intros [= <-]. constructor.
  - intros H. apply zam_Ok in H as (z & a & m & -> & Hz). by constructor.
Qed.

Lemma sort_key_thermal p k :
  Endf.sort_key p = Ok k ->
  startswith (name p) "c_" = true <-> k = VTuple [AInt 1000; APath p].
Proof.
  unfold Endf.sort_key. destruct (startswith (name p) "c_").
  - intros [= <-]. done.
  - intros H. apply zam_Ok in H as (z & a & m & -> & Hz). split; done.
Qed.

Lemma keys_of_Ok {A K : Type} (key : A -> outcome K) (l : list A) :
  Forall (fun x => exists k, key x = Ok k) l ->
  exists ks, keys_of key l = Ok ks /\ ks.*2 = l
             /\ Forall (fun kx => key kx.2 = Ok kx.1) ks.
Proof.
  induction 1 as [|x l [k Hk] _ (ks & Hks & Hl & Hall)]; cbn [keys_of].
  - exists []. split_and!; [done|done|constructor].
  - rewrite Hk. cbn. rewrite Hks. cbn. exists ((k, x) :: ks).
    split_and!; [done|by cbn; rewrite Hl|by constructor].
Qed.

Lemma keys_of_Raise {A K : Type} (key : A -> outcome K) (l : list A) e :
  keys_of key l = Raise e -> exists x, x ∈ l /\ key x = Raise e.
Proof.
  induction l as [|x l IH]; cbn [keys_of]; [done|].
  destruct (key x) as [k|e'] eqn:Hk; cbn.
  - destruct (keys_of key l) as [ks|e'']; cbn; [done|].
    intros [= ->]. destruct (IH eq_refl) as (y & Hy & Hey).
    exists y. split; [by right|done].
  - intros [= ->]. exists x. split; [left|done].
Qed.

Lemma keys_of_inv {A K : Type} (key : A -> outcome K) (l : list A) ks :
  keys_of key l = Ok ks ->
  ks.*2 = l /\ Forall (fun kx => key kx.2 = Ok kx.1) ks.
Proof.
  revert ks. induction l as [|x l IH]; intros ks; cbn [keys_of].
  - intros [= <-]. split; [done|constructor].
  - destruct (key x) as [k|] eqn:Hk; cbn; [|done].
    destruct (keys_of key l) as [ks'|]; cbn; [|done].
    intros [= <-]. destruct (IH _ eq_refl) as [Hl Hall].
    split; [by cbn; rewrite Hl|by constructor].
Qed.

(** In the sorted list a path is not after the paths behind it: both have
    keys, and the key of the later one is not smaller. *)
Definition registered_not_after (p q : path) : Prop :=
  exists kp kq,
    Endf.sort_key p = Ok kp /\ Endf.sort_key q = Ok kq
    /\ value_lt kq kp = Some false.

(** [sorted(..., key=sort_key)] raises no [TypeError]: it raises only where
    [sort_key] does, and otherwise gives a permutation of its argument in
    which no path is after one behind it. *)
Lemma sorted_by_sort_key (l : list path) :
  match sorted_by Endf.sort_key l with
  | Ok r => r ≡ₚ l /\ StronglySorted registered_not_after r
  | Raise e => exists p, p ∈ l /\ Endf.sort_key p = Raise e
  end.
Proof.
  unfold sorted_by.
  destruct (keys_of Endf.sort_key l) as [ks|e] eqn:Hks; cbn.
  2:{ by apply keys_of_Raise. }
  apply keys_of_inv in Hks as [Hl Hall].
  destruct (sort_keyed_sorted value_lt registration_key
              registration_key_total registration_key_asym
              registration_key_not_after_trans ks) as (r & Hr & Hperm & Hs).
  { eapply Forall_impl; [exact Hall|]. intros [k p] Hk.
    by eapply sort_key_registration_key. }
  rewrite Hr. split.
  - rewrite <- Hl. by apply fmap_Permutation.
  - assert (Forall (fun kx => Endf.sort_key kx.2 = Ok kx.1) r) as Hallr
      by (by rewrite Hperm).
    clear Hr Hperm Hl Hall. induction Hs as [|[k p] r Hs IH Hfa]; cbn.
    + constructor.
    + apply Forall_cons in Hallr as [Hp Hallr]. constructor; [by apply IH|].
      rewrite Forall_fmap. rewrite Forall_forall in Hfa, Hallr |- *.
      intros [k' q] Hq. exists k, k'. split_and!; [done|by apply Hallr|].
      by apply (Hfa _ Hq).
Qed.

(** In a list sorted by [sort_key], what comes behind a name that starts
    with [c_] starts with [c_] too: thermal scattering data comes after
    neutron data. *)
Lemma thermal_after_nuclides (r : list path) :
  StronglySorted registered_not_after r ->
  forall r1 p r2 q r3,
    r = r1 ++ p :: r2 ++ q :: r3 ->
    startswith (name p) "c_" = true -> startswith (name q) "c_" = true.
Proof.
  intros Hs r1 p r2 q r3 -> Hp.
  apply StronglySorted_app_1_r, StronglySorted_inv in Hs as [_ Hfa].
  rewrite Forall_app, Forall_cons in Hfa. destruct Hfa as (_ & Hpq & _).
  destruct Hpq as (kp & kq & Hkp & Hkq & Hlt).
  apply (sort_key_thermal _ _ Hkp) in Hp as ->.
  destruct (startswith (name q) "c_") eqn:Hq; [done|].
  unfold Endf.sort_key in Hkq. rewrite Hq in Hkq.
  apply zam_Ok in Hkq as (z & a & m & -> & Hz).
  by rewrite value_lt_nuclide_thermal in Hlt.
Qed.

(** C10 as stated fails: [sort_key] maps a nuclide name to a tuple, not
    to an integer, and a directory that mixes the two kinds of names sorts
    without error, the [c_] name last. *)
Lemma mixed_directory_sorts :
  Endf.sort_key ["d"; "U235.h5"] = Ok (VTuple [AInt 92; AInt 235; AInt 0])
  /\ sorted_by Endf.sort_key [["d"; "c_H_in_H2O.h5"]; ["d"; "U235.h5"]]
     = Ok [["d"; "U235.h5"]; ["d"; "c_H_in_H2O.h5"]].
Proof. split; vm_compute; reflexivity. Qed.

(** C10, as the code has it.  [sort_key] maps a name that starts with [c_]
    to the tuple (1000, path) and any other name to what [zam] gives for
    its stem: the tuple (Z, A, m) of integers with Z from 0 to 118, or a
    [ValueError].  The two scripts define the same key.  Sorting a list of
    paths with it raises only where [sort_key] raises, never a
    [TypeError], whether or not the list mixes the two kinds of names; the
    result is a permutation of the list in which no path is after one
    behind it, and in which only names that start with [c_] come behind a
    name that starts with [c_]. *)
Theorem sort_keys_compare :
  (forall p, startswith (name p) "c_" = true ->
             Endf.sort_key p = Ok (VTuple [AInt 1000; APath p]))
  /\ (forall p, startswith (name p) "c_" = false ->
        Endf.sort_key p = Openmc.zam (stem p)
        /\ match Endf.sort_key p with
           | Ok k => exists z a m,
               k = VTuple [AInt z; AInt a; AInt m] /\ 0 <= z <= 118
           | Raise e => exists msg, e = ValueError msg
           end)
  /\ Jendl.sort_key = Endf.sort_key
  /\ (forall l,
        match sorted_by Endf.sort_key l with
        | Ok r =>
            r ≡ₚ l
            /\ StronglySorted registered_not_after r
            /\ (forall r1 p r2 q r3,
                  r = r1 ++ p :: r2 ++ q :: r3 ->
                  startswith (name p) "c_" = true ->
                  startswith (name q) "c_" = true)
        | Raise e =>
            exists p msg, p ∈ l /\ e = ValueError msg
                          /\ Endf.sort_key p = Raise (ValueError msg)
        end).
Proof.
  split_and!.
  - intros p Hp. unfold Endf.sort_key. by rewrite Hp.
  - intros p Hp. unfold Endf.sort_key. rewrite Hp. split; [done|].
    destruct (Openmc.zam (stem p)) as [k|e] eqn:E.
    + by apply (zam_Ok (stem p)).
    + by apply (zam_Raise (stem p)).
  - reflexivity.
  - intros l. pose proof (sorted_by_sort_key l) as H.
    destruct (sorted_by Endf.sort_key l) as [r|e].
    + destruct H as [Hperm Hs]. split_and!; [done|done|].
      by apply thermal_after_nuclides.
    + destruct H as (p & Hp & He). exists p.
      assert (exists msg, e = ValueError msg) as [msg ->].
      { unfold Endf.sort_key in He.
        destruct (startswith (name p) "c_"); [done|]. by eapply zam_Raise. }
      by exists msg.
Qed.

Lemma sort_keys_compare_witness :
  startswith (name ["d"; "c_H_in_H2O.h5"]) "c_" = true
  /\ Endf.sort_key ["d"; "c_H_in_H2O.h5"]
     = Ok (VTuple [AInt 1000; APath ["d"; "c_H_in_H2O.h5"]]).
Proof.
  split; [reflexivity|].
  apply (proj1 sort_keys_compare). reflexivity.
Defined.

(** ** [sorted] on paths *)

Lemma sorted_spec (l : list path) :
  sorted l ≡ₚ l /\ StronglySorted (fun p q => path_ltb q p = false) (sorted l).
Proof.
  unfold sorted.
  destruct (sort_keyed_sorted (A:=path) (fun p q => Some (path_ltb p q))
              (fun _ => True)
              (fun a b _ _ => ltac:(eauto))
              (fun a b _ _ H =>
                 f_equal Some (path_ltb_asym a b (inj Some _ _ H)))
              (fun a b c _ _ _ H1 H2 =>
                 f_equal Some (path_not_after_trans a b c
                                 (inj Some _ _ H1) (inj Some _ _ H2)))
              (List.map (fun p => (p, p)) l)) as (r & Hr & Hperm & Hs).
  { by apply Forall_forall. }
  rewrite Hr. split.
  - rewrite Hperm. clear. induction l as [|p l IH]; cbn; [done|].
    by rewrite IH.
  - assert (Forall (fun kx : path * path => kx.1 = kx.2) r) as Hkeys.
    { rewrite Hperm. apply Forall_forall. intros kx Hkx.
      apply list_elem_of_In, in_map_iff in Hkx as (p & <- & _). done. }
    clear Hr Hperm. induction Hs as [|[k p] r Hs IH Hfa]; cbn; [constructor|].
    apply Forall_cons in Hkeys as [Hk Hkeys]. cbn in Hk. subst k.
    constructor; [by apply IH|].
    rewrite Forall_fmap. rewrite Forall_forall in Hfa, Hkeys |- *.
    intros [k q] Hq. specialize (Hfa _ Hq). specialize (Hkeys _ Hq).
    cbn in *. subst k. unfold not_after in Hfa. cbn in Hfa. by injection Hfa.
Qed.

(** ** Runs that end normally *)

Lemma bind_Ok_run {A B : Type} (m : M A) (f : A -> M B) fs b :
  result ((m ≫= f) fs) = Ok b ->
  exists a,
    result (m fs) = Ok a
    /\ result (f a (final (m fs))) = Ok b
    /\ trace ((m ≫= f) fs) = trace (m fs) ++ trace (f a (final (m fs))).
Proof.
  rewrite result_bind, trace_bind.
  destruct (result (m fs)) as [a|]; [|done]. eauto.
Qed.

Lemma seq_Ok_run (m k : M unit) fs :
  result ((m;; k) fs) = Ok tt ->
  result (m fs) = Ok tt
  /\ result (k (final (m fs))) = Ok tt
  /\ trace ((m;; k) fs) = trace (m fs) ++ trace (k (final (m fs))).
Proof.
  intros H. apply bind_Ok_run in H as ([] & H1 & H2 & H3). done.
Qed.

(** ** The stages that use the process pool *)






(** The file system once the tasks have run. *)
Definition after_tasks (X : externals) (tasks : list task) (fs : FS) : FS :=
  fold_left (fun fs t => x_task X t fs) tasks fs.

Lemma wait_loop_run X tasks fs :
  for_ tasks (wait X) fs
  = Run (Ok tt) (after_tasks X tasks fs) (List.map Wait tasks).
Proof.
  revert fs. induction tasks as [|t tasks IH]; intros fs; [done|].
  cbn [for_ after_tasks fold_left List.map].
  assert (wait X t fs = Run (Ok tt) (x_task X t fs) [Wait t]) as Hw by done.
  unfold mbind, M_bind, bind. rewrite Hw. cbn [result final trace].
  by rewrite IH.
Qed.

Lemma jendl_register_sorted X dir :
  Jendl.register_sorted X dir = Endf.register_sorted X dir.
Proof. reflexivity. Qed.








Section EndfStages.
Variables (X : externals) (cwd : path) (a : Endf.args).

Let dest := Endf.destination_dir cwd a.




End EndfStages.

Section JendlStages.
Variables (X : externals) (cwd : path) (a : Jendl.args).

Let dest := Jendl.destination_dir cwd a.



End JendlStages.

(** Calls that fetch and unpack the evaluations. *)
Definition fetches (e : event) : Prop :=
  match e with
  | Download _ _ _ _ | Extract _ _ => True
  | _ => False
  end.

Lemma endf_download_fetches X cwd a :
  always fetches (Endf.download_stage X cwd a).
Proof. unfold Endf.download_stage, Endf.lookup. always_auto; exact I. Qed.

Lemma endf_extract_silent cwd a fs : trace (Endf.extract_stage cwd a fs) = [].
Proof.
  assert (always (fun _ => False) (Endf.extract_stage cwd a)) as H.
  { unfold Endf.extract_stage, Endf.extract_particle, Endf.extract_zip,
      Endf.extract_tar, Endf.lookup.
    always_auto; try apply always_read_fs. }
  specialize (H fs). by destruct (trace (Endf.extract_stage cwd a fs));
    [|apply Forall_cons in H as [[] _]].
Qed.









(** The sample run, call by call: the evaluation of H-1 is converted and
    its output registered; [n-000_n_001.endf] is passed over. *)
Example endf_sample_run :
  trace (Endf.main Sample.X Sample.cwd Sample.endf_args Sample.endf_downloaded)
  = [Submit (process_neutron
               ["work"; "endfb-vii.1-endf"; "neutron"; "n-001_H_001.endf"]
               ["work"; "endfb-vii.1-hdf5"; "neutron"] "earliest"
               Sample.temperatures);
     Wait (process_neutron
             ["work"; "endfb-vii.1-endf"; "neutron"; "n-001_H_001.endf"]
             ["work"; "endfb-vii.1-hdf5"; "neutron"] "earliest"
             Sample.temperatures);
     RegisterFile ["work"; "endfb-vii.1-hdf5"; "neutron"; "H1.h5"];
     ExportToXml ["work"; "endfb-vii.1-hdf5"; "cross_sections.xml"]].
Proof. vm_compute. reflexivity. Qed.

(* ===================================================================== *)
(** * Errata files *)
(* ===================================================================== *)

(** ** Paths of stored files *)

(** A proper component is a string that [pathlib] reads as one component:
    not empty, not a single dot, without slash. *)
Definition proper_component (c : string) : Prop := Path c = [c].

(** The paths of a well-formed file system are not empty and are made of
    proper components. *)
Definition wf_path (p : path) : Prop := p <> [] /\ Forall proper_component p.


#[global] Instance proper_component_dec c : Decision (proper_component c).
Proof. unfold proper_component. apply _. Defined.

#[global] Instance wf_path_dec p : Decision (wf_path p).
Proof. unfold wf_path. apply _. Defined.


Lemma relative_to_app (d x y : path) :
  relative_to (d ++ x) (d ++ y) = relative_to x y.
Proof. induction d as [|c d IH]; [done|]. cbn. by rewrite String.eqb_refl. Qed.

Lemma under_app (d x y : path) : Fs.under (d ++ x) (d ++ y) = Fs.under x y.
Proof. unfold Fs.under. by rewrite relative_to_app. Qed.

Lemma elem_of_List_filter {A : Type} (f : A -> bool) (l : list A) x :
  x ∈ List.filter f l <-> x ∈ l /\ f x = true.
Proof. rewrite !list_elem_of_In. apply filter_In. Qed.


Lemma elem_of_listing (fs : FS) p : p ∈ Fs.listing fs <-> is_Some (fs !! p).
Proof.
  unfold Fs.listing. rewrite list_elem_of_fmap. split.
  - intros ([q c] & -> & H). apply elem_of_map_to_list in H. by exists c.
  - intros [c H]. exists (p, c). split; [done|]. by apply elem_of_map_to_list.
Qed.




Lemma fsop_run (f : FS -> outcome FS) fs :
  fsop f fs
  = match f fs with
    | Ok fs' => Run (Ok tt) fs' []
    | Raise e => Run (Raise e) fs []
    end.
Proof. reflexivity. Qed.

(** ** Moving errata files into the directory of the evaluations *)

Section RenameInto.
Variable dest : path.

(** Where the loop moves [p]. *)
Definition target (p : path) : path := div dest (name p).

(** An erratum is a file that the loop really moves: it does not already
    lie at its target. *)
Definition moved (p : path) : Prop := p <> target p.







End RenameInto.


(** ** The uncompressed errata file of ENDF/B-VIII.0 *)

(** [touches_only S m]: a run of [m] leaves every path outside [S] as it
    was. *)
Definition touches_only {A : Type} (S : path -> Prop) (m : M A) : Prop :=
  forall (fs : FS) k, ~ S k -> final (m fs) !! k = fs !! k.

Section Touches.
Context (S : path -> Prop).

Lemma touches_ret {A : Type} (a : A) : touches_only S (mret a).
Proof. by intros fs k _. Qed.

Lemma touches_lift {A : Type} (o : outcome A) : touches_only S (lift o).
Proof. by intros fs k _. Qed.

Lemma touches_read {A : Type} (f : FS -> outcome A) :
  touches_only S (fun fs => lift (f fs) fs).
Proof. by intros fs k _. Qed.

Lemma touches_bind {A B : Type} (m : M A) (f : A -> M B) :
  touches_only S m -> (forall a, touches_only S (f a)) ->
  touches_only S (m ≫= f).
Proof.
  intros Hm Hf fs k Hk. rewrite final_bind.
  destruct (result (m fs)); [rewrite Hf by done|]; by apply Hm.
Qed.

Lemma touches_bind_lift {A B : Type} (o : outcome A) (f : A -> M B) :
  (forall a, o = Ok a -> touches_only S (f a)) ->
  touches_only S (lift o ≫= f).
Proof.
  intros Hf fs k Hk. rewrite lift_bind_run. destruct o as [a|e]; [|done].
  by apply Hf.
Qed.

Lemma touches_for {A : Type} (l : list A) (body : A -> M unit) :
  (forall x, touches_only S (body x)) -> touches_only S (for_ l body).
Proof.
  intros Hbody. induction l as [|x l IH]; [apply touches_ret|].
  cbn [for_]. apply touches_bind; [apply Hbody|by intros _].
Qed.

Lemma touches_write p c : S p -> touches_only S (fsop (Fs.write p c)).
Proof.
  intros Hp fs k Hk. rewrite fsop_run. unfold Fs.write.
  destruct (_ || _); [done|]. cbn [final].
  apply lookup_insert_ne. by intros ->.
Qed.

Lemma touches_copy src dst : S dst -> touches_only S (fsop (Fs.copy src dst)).
Proof.
  intros Hp fs k Hk. rewrite fsop_run. unfold Fs.copy.
  destruct (fs !! src) as [c|]; [|done].
  pose proof (touches_write dst c Hp fs k Hk) as H.
  by rewrite fsop_run in H.
Qed.

Lemma touches_tar_extract dir n m :
  S (div dir n) -> touches_only S (fsop (Endf.tar_extract dir n m)).
Proof.
  intros Hp fs k Hk. rewrite fsop_run. unfold Endf.tar_extract.
  destruct (String.eqb n ""); [done|].
  pose proof (touches_write (div dir n) (Data (tar_data m)) Hp fs k Hk) as H.
  by rewrite fsop_run in H.
Qed.
End Touches.

Lemma under_div (d : path) (s : string) : Fs.under d (div d s) = true.
Proof.
  unfold div. rewrite <- (app_nil_r d) at 1. rewrite under_app. done.
Qed.

(** The extraction of an archive writes below the extraction directory
    only. *)
Lemma extract_zip_touches archive dir :
  touches_only (fun k => Fs.under dir k = true) (Endf.extract_zip archive dir).
Proof.
  unfold Endf.extract_zip. apply touches_bind; [apply touches_read|].
  intros zipf. apply touches_for. intros member.
  destruct (String.eqb _ ""); [apply touches_ret|].
  apply touches_bind_lift. intros source _.
  apply touches_write, under_div.
Qed.

Lemma extract_tar_touches archive dir :
  touches_only (fun k => Fs.under dir k = true) (Endf.extract_tar archive dir).
Proof.
  unfold Endf.extract_tar. apply touches_bind; [apply touches_read|].
  intros tgz. apply touches_for. intros member.
  destruct (isreg member); [|apply touches_ret].
  apply touches_tar_extract, under_div.
Qed.





Section EndfErratum.
Variable cwd : path.
Variable a : Endf.args.
Hypothesis Hrel : Endf.release_of a = Endf.viii_0.








End EndfErratum.






Lemma chain_errata_neutron_run cwd fs :
  JendlChain.move_errata cwd JendlChain.URLS_neutron fs
  = for_ ["jendl5-n_upd1/*.dat"; "jendl-n_upd6/*.dat"; "*.dat"]
      (move_matching (JendlChain.endf_files_dir cwd)
         (div (JendlChain.endf_files_dir cwd) "jendl5-n")) fs.
Proof.
  unfold JendlChain.move_errata. rewrite lift_bind_run.
  cbn [JendlChain.errata JendlChain.endf_files JendlChain.URLS_neutron item].
  unfold parent, div.
  change (Path "jendl5-n/*.dat") with (Path "jendl5-n" ++ ["*.dat"]).
  by rewrite app_assoc, removelast_last.
Qed.

Lemma chain_errata_decay_run cwd fs :
  JendlChain.move_errata cwd JendlChain.URLS_decay fs
  = for_ ["jendl5-dec_upd15/*.dat"]
      (move_matching (JendlChain.endf_files_dir cwd)
         (div (JendlChain.endf_files_dir cwd) "jendl5-dec_upd5")) fs.
Proof.
  unfold JendlChain.move_errata. rewrite lift_bind_run.
  cbn [JendlChain.errata JendlChain.endf_files JendlChain.URLS_decay item].
  unfold parent, div.
  change (Path "jendl5-dec_upd5/*.dat")
    with (Path "jendl5-dec_upd5" ++ ["*.dat"]).
  by rewrite app_assoc, removelast_last.
Qed.



(* ===================================================================== *)
(** * Further properties of the scripts *)
(* ===================================================================== *)

(** ** Loops that raise *)

Lemma for_raises {A : Type} (l : list A) (body : A -> M unit) (x : A) :
  x ∈ l ->
  (forall fs, exists e, result (body x fs) = Raise e) ->
  forall fs, exists e, result (for_ l body fs) = Raise e.
Proof.
  induction l as [|y l IH]; intros Hin Hx fs.
  - by apply elem_of_nil in Hin.
  - cbn [for_]. rewrite result_bind.
    destruct (result (body y fs)) as [[]|e] eqn:E; [|by exists e].
    apply elem_of_cons in Hin as [-> | Hin].
    + destruct (Hx fs) as [e He]. congruence.
    + by apply IH.
Qed.

(** ** The wmp data of [generate_endf.py] *)

Lemma lookup_wmp_run cwd a fs :
  Endf.release_of a <> Endf.vii_1 ->
  Endf.lookup cwd a Endf.wmp fs = Run (Raise (KeyError "wmp")) fs [].
Proof. unfold Endf.lookup. by destruct (Endf.release_of a). Qed.

Lemma download_wmp_raises X cwd a :
  Endf.release_of a <> Endf.vii_1 -> Endf.wmp ∈ Endf.particles a ->
  Endf.download_flag a = true ->
  forall fs, exists e, result (Endf.download_stage X cwd a fs) = Raise e.
Proof.
  intros Hrel Hin Hflag. unfold Endf.download_stage. rewrite Hflag. cbn [when].
  apply (for_raises _ _ Endf.wmp Hin). intros fs.
  rewrite result_bind, lookup_wmp_run by done. by eexists.
Qed.

Lemma extract_wmp_raises cwd a :
  Endf.release_of a <> Endf.vii_1 -> Endf.wmp ∈ Endf.particles a ->
  Endf.extract_flag a = true ->
  forall fs, exists e, result (Endf.extract_stage cwd a fs) = Raise e.
Proof.
  intros Hrel Hin Hflag fs. unfold Endf.extract_stage. rewrite Hflag.
  cbn [when]. rewrite result_bind.
  destruct (for_raises (Endf.particles a) (Endf.extract_particle cwd a)
              Endf.wmp Hin) with (fs := fs) as [e He].
  { intros fs'. unfold Endf.extract_particle.
    rewrite result_bind, lookup_wmp_run by done. by eexists. }
  rewrite He. by exists e.
Qed.

Lemma bind_Raise_run {A B : Type} (m : M A) (f : A -> M B) fs e fs' tr :
  m fs = Run (Raise e) fs' tr -> (m ≫= f) fs = Run (Raise e) fs' tr.
Proof. intros H. unfold mbind, M_bind, bind. by rewrite H. Qed.

Lemma bind_silent_run {A B : Type} (m : M A) (f : A -> M B) fs a fs' :
  m fs = Run (Ok a) fs' [] -> (m ≫= f) fs = f a fs'.
Proof.
  intros H. unfold mbind, M_bind, bind. rewrite H.
  cbn [result final trace app]. apply run_eta.
Qed.

(** X1.  The releases viii.0 and viii.1 have no wmp entry in the table of
    [generate_endf.py].  A run for one of them that asks for wmp data and
    downloads or extracts never ends normally, and makes no call other
    than downloads: no task is submitted, nothing is registered and no
    index is written.  When wmp is the first particle the run stops at once
    with [KeyError('wmp')], without any call and with the file system as it
    was. *)
Theorem wmp_requires_release_vii_1 X cwd a fs :
  Endf.release_of a <> Endf.vii_1 ->
  Endf.wmp ∈ Endf.particles a ->
  Endf.download_flag a = true \/ Endf.extract_flag a = true ->
  (exists e, result (Endf.main X cwd a fs) = Raise e)
  /\ Forall fetches (trace (Endf.main X cwd a fs))
  /\ (forall rest, Endf.particles a = Endf.wmp :: rest ->
        Endf.main X cwd a fs = Run (Raise (KeyError "wmp")) fs []).
Proof.
  intros Hrel Hin Hflags.
  split; [|split].
  - unfold Endf.main. rewrite result_bind.
    destruct (result (Endf.download_stage X cwd a fs)) as [[]|e] eqn:Hd;
      [|by exists e].
    rewrite result_bind.
    (* the extraction runs on the file system the downloads left *)
    destruct (Endf.extract_flag a) eqn:Hx.
    + destruct (extract_wmp_raises cwd a Hrel Hin Hx
                  (final (Endf.download_stage X cwd a fs))) as [e' ->].
      by exists e'.
    + destruct Hflags as [Hf|Hf]; [|discriminate Hf].
      destruct (download_wmp_raises X cwd a Hrel Hin Hf fs) as [e' He'].
      congruence.
  - unfold Endf.main. rewrite trace_bind. apply Forall_app. split.
    { apply endf_download_fetches. }
    destruct (result (Endf.download_stage X cwd a fs)) as [[]|e] eqn:Hd;
      [|constructor].
    rewrite trace_bind, endf_extract_silent. cbn [app].
    destruct (Endf.extract_flag a) eqn:Hx.
    + destruct (extract_wmp_raises cwd a Hrel Hin Hx
                  (final (Endf.download_stage X cwd a fs))) as [e' ->].
      constructor.
    + destruct Hflags as [Hf|Hf]; [|discriminate Hf].
      destruct (download_wmp_raises X cwd a Hrel Hin Hf fs) as [e' He'].
      congruence.
  - intros rest Hp. unfold Endf.main.
    destruct (Endf.download_flag a) eqn:Hd.
    + apply bind_Raise_run. unfold Endf.download_stage. rewrite Hd, Hp.
      cbn [when for_]. apply bind_Raise_run, bind_Raise_run.
      by apply lookup_wmp_run.
    + destruct Hflags as [Hf|Hx]; [discriminate Hf|].
      rewrite (bind_silent_run _ _ fs tt fs).
      2:{ unfold Endf.download_stage. by rewrite Hd. }
      apply bind_Raise_run. unfold Endf.extract_stage. rewrite Hx, Hp.
      cbn [when for_]. apply bind_Raise_run, bind_Raise_run.
      unfold Endf.extract_particle. apply bind_Raise_run.
      by apply lookup_wmp_run.
Qed.

Lemma wmp_requires_release_vii_1_witness :
  Endf.main Sample.X Sample.cwd
    (Endf.Args None true true "earliest" Endf.viii_0 [Endf.wmp] false []) ∅
  = Run (Raise (KeyError "wmp")) ∅ [].
Proof.
  apply (proj2 (proj2 (wmp_requires_release_vii_1 Sample.X Sample.cwd
    (Endf.Args None true true "earliest" Endf.viii_0 [Endf.wmp] false []) ∅
    ltac:(discriminate) ltac:(apply (bool_decide_unpack _); vm_compute; exact I)
    ltac:(by left))) []).
  reflexivity.
Defined.

(** ** Extraction of archives without their folder structure *)

Lemma chars_of_chars (l : list ascii) : chars (of_chars l) = l.
Proof. induction l as [|c l IH]; [done|]. cbn. by rewrite IH. Qed.

Lemma of_chars_chars (s : string) : of_chars (chars s) = s.
Proof. induction s as [|c s IH]; [done|]. cbn. by rewrite IH. Qed.

Lemma split_chars_no_sep (sep : ascii) (l cur : list ascii) :
  sep ∉ l -> split_chars sep cur l = [of_chars (rev cur ++ l)].
Proof.
  revert cur. induction l as [|c l IH]; intros cur Hsep; cbn [split_chars].
  - by rewrite app_nil_r.
  - apply not_elem_of_cons in Hsep as [Hc Hl].
    destruct (Ascii.eqb_spec c sep) as [->|_]; [done|].
    rewrite (IH _ Hl). cbn [rev]. by rewrite <- app_assoc.
Qed.

Lemma elem_of_rev {A : Type} (x : A) (l : list A) : x ∈ rev l <-> x ∈ l.
Proof. rewrite !list_elem_of_In. symmetry. apply in_rev. Qed.

Lemma split_chars_elem (sep : ascii) (l cur : list ascii) (x : string) :
  sep ∉ cur -> x ∈ split_chars sep cur l -> sep ∉ chars x.
Proof.
  revert cur. induction l as [|c l IH]; intros cur Hcur; cbn [split_chars].
  - intros ->%list_elem_of_singleton. rewrite chars_of_chars.
    by rewrite elem_of_rev.
  - destruct (Ascii.eqb_spec c sep) as [->|Hc].
    + intros [-> | Hx]%elem_of_cons.
      * rewrite chars_of_chars. by rewrite elem_of_rev.
      * apply (IH []); [apply not_elem_of_nil|done].
    + apply IH. apply not_elem_of_cons. split; [congruence|done].
Qed.

(** A component of a parsed path parses to itself. *)
Lemma Path_component (s c : string) : c ∈ Path s -> Path c = [c].
Proof.
  unfold Path. rewrite elem_of_List_filter. intros [Hin Hkeep].
  unfold split in *.
  rewrite split_chars_no_sep.
  - cbn [rev app List.filter]. rewrite of_chars_chars. by rewrite Hkeep.
  - eapply split_chars_elem; [|exact Hin]. apply not_elem_of_nil.
Qed.

Lemma name_elem (p : path) : name p <> "" -> name p ∈ p.
Proof.
  unfold name. destruct p as [|c p] using rev_ind; [done|].
  intros _. rewrite last_last. apply elem_of_app. right. by left.
Qed.

Lemma div_name (dir : path) (s : string) :
  name (Path s) <> "" -> div dir (name (Path s)) = dir ++ [name (Path s)].
Proof.
  intros H. unfold div. f_equal. eapply Path_component, name_elem, H.
Qed.

Lemma find_app {A : Type} (f : A -> bool) (l1 l2 : list A) :
  List.find f (l1 ++ l2)
  = match List.find f l1 with Some x => Some x | None => List.find f l2 end.
Proof. induction l1 as [|x l1 IH]; [done|]. cbn. by destruct (f x). Qed.

Lemma find_ext_in {A : Type} (f g : A -> bool) (l : list A) :
  (forall x, x ∈ l -> f x = g x) -> List.find f l = List.find g l.
Proof.
  induction l as [|x l IH]; intros H; [done|]. cbn.
  rewrite (H x) by left. destruct (g x); [done|].
  apply IH. intros y Hy. apply H. by right.
Qed.

Lemma find_elem {A : Type} (f : A -> bool) (l : list A) x :
  List.find f l = Some x -> x ∈ l /\ f x = true.
Proof.
  intros H. apply find_some in H as [H1 H2]. by apply list_elem_of_In in H1.
Qed.

(** The first hit of a test is the first hit of a stronger test that it
    passes. *)
Lemma find_stronger {A : Type} (f g : A -> bool) (l : list A) x :
  List.find f l = Some x -> (forall y, g y = true -> f y = true) ->
  g x = true -> List.find g l = Some x.
Proof.
  intros Hf Hgf Hx. induction l as [|y l IH]; [done|]. cbn in *.
  destruct (f y) eqn:Ey.
  - injection Hf as ->. by rewrite Hx.
  - destruct (g y) eqn:Eg; [|by apply IH].
    apply Hgf in Eg. congruence.
Qed.

(** A loop each of whose steps writes at most one file: at the end a path
    holds what the last step that wrote it has written. *)
Section Writes.
Context {A : Type} (dest : A -> option (path * content)).

Definition writes_to (k : path) (x : A) : bool :=
  match dest x with
  | Some (p, _) => bool_decide (p = k)
  | None => false
  end.

Lemma for_writes_run (body : A -> M unit) (l : list A) :
  (forall x, x ∈ l -> forall fs,
     body x fs
     = Run (Ok tt)
           (match dest x with Some (p, c) => <[p := c]> fs | None => fs end)
           []) ->
  forall fs : FS,
    result (for_ l body fs) = Ok tt
    /\ trace (for_ l body fs) = []
    /\ forall k,
         final (for_ l body fs) !! k
         = match List.find (writes_to k) (rev l) with
           | Some x => snd <$> dest x
           | None => fs !! k
           end.
Proof.
  induction l as [|x l IH]; intros Hbody fs.
  - by split_and!.
  - cbn [for_].
    assert (x ∈ x :: l) as Hx by left.
    rewrite (bind_silent_run _ _ fs tt _ (Hbody x Hx fs)).
    destruct (IH (fun y Hy => Hbody y (list_elem_of_further y x l Hy))
                (match dest x with
                 | Some (p, c) => <[p := c]> fs
                 | None => fs
                 end)) as (Hr & Ht & Hk).
    split; [done|]. split; [done|]. intros k. rewrite Hk.
    cbn [rev]. rewrite find_app.
    destruct (List.find (writes_to k) (rev l)); [done|].
    cbn [List.find]. unfold writes_to.
    destruct (dest x) as [[p c]|] eqn:E; [|done].
    destruct (decide (p = k)) as [->|Hne].
    + rewrite bool_decide_eq_true_2 by done. rewrite E. apply lookup_insert_eq.
    + rewrite bool_decide_eq_false_2 by done. by apply lookup_insert_ne.
Qed.
End Writes.

Lemma for_fmap {A B : Type} (f : A -> B) (l : list A) (body : B -> M unit) :
  for_ (f <$> l) body = for_ l (fun x => body (f x)).
Proof. induction l as [|x l IH]; [done|]. cbn [fmap list_fmap for_]. by rewrite <- IH. Qed.

(** Where a zip member is written: directly in the extraction directory,
    under the last component of its name. *)
Definition zip_target (dir : path) (e : string * string) : option path :=
  let filename := name (Path e.1) in
  if String.eqb filename "" then None else Some (dir ++ [filename]).

Lemma zip_open_member (members : list (string * string)) e :
  e ∈ members -> exists d, Endf.zip_open members e.1 = Ok d.
Proof.
  intros Hin. unfold Endf.zip_open.
  destruct (List.find _ (rev members)) as [e'|] eqn:E; [by eexists|].
  assert (In e (rev members)) as Hrev.
  { apply list_elem_of_In. by apply elem_of_rev. }
  pose proof (find_none _ _ E e Hrev) as Hno. cbv beta in Hno.
  by rewrite String.eqb_refl in Hno.
Qed.

(** What the loop over the members writes for one member. *)
Definition zip_write (members : list (string * string)) (dir : path)
    (e : string * string) : option (path * content) :=
  match zip_target dir e with
  | Some p =>
      Some (p, Data (match Endf.zip_open members e.1 with
                     | Ok d => d
                     | Raise _ => EmptyString
                     end))
  | None => None
  end.

Lemma extract_zip_member_run members dir e fs :
  e ∈ members -> name (Path e.1) <> ".." ->
  (let filename := name (Path e.1) in
   if String.eqb filename "" then mret tt
   else
     source ← lift (Endf.zip_open members e.1);
     fsop (Fs.write (div dir filename) (Data source))) fs
  = Run (Ok tt)
      (match zip_write members dir e with
       | Some (p, c) => <[p := c]> fs
       | None => fs
       end) [].
Proof.
  intros He Hdots. unfold zip_write, zip_target. cbv zeta.
  destruct (String.eqb_spec (name (Path e.1)) "") as [Hn|Hn]; [done|].
  destruct (zip_open_member members e He) as [d Hd]. rewrite Hd.
  rewrite lift_bind_run, fsop_run. unfold Fs.write.
  rewrite div_name by done. rewrite name_snoc.
  apply String.eqb_neq in Hn, Hdots. by rewrite Hn, Hdots.
Qed.

(** X2.  The zip branch of the extraction in [generate_endf.py] drops
    the folders of the archive.  For an archive none of whose member names
    ends in [..], and when no destination is a directory: the extraction
    ends normally without any outside call; every member whose name has a
    last component is written directly in the extraction directory under
    that component; where several members share a last component the last
    of them in archive order wins, with its own data; every other path
    keeps what it held. *)
Theorem zip_extraction_flattens (archive dir : path) (fs : FS) members :
  fs !! archive = Some (ZipArchive members) ->
  Forall (fun e : string * string => name (Path e.1) <> "..") members ->
  Forall (fun e => match zip_target dir e with
                   | Some p => Fs.is_dir fs p = false
                   | None => True
                   end) members ->
  result (Endf.extract_zip archive dir fs) = Ok tt
  /\ trace (Endf.extract_zip archive dir fs) = []
  /\ forall k,
       final (Endf.extract_zip archive dir fs) !! k
       = match List.find (fun e => bool_decide (zip_target dir e = Some k))
                 (rev members) with
         | Some e => Some (Data e.2)
         | None => fs !! k
         end.
Proof.
  intros Harch Hnames _. unfold Endf.extract_zip.
  assert ((fun fs0 : FS => lift (Endf.ZipFile archive fs0) fs0) fs
          = Run (Ok members) fs []) as Hopen.
  { unfold Endf.ZipFile. by rewrite Harch. }
  rewrite (bind_silent_run _ _ fs members fs Hopen).
  unfold Endf.namelist. rewrite for_fmap.
  rewrite Forall_forall in Hnames.
  destruct (for_writes_run (zip_write members dir) _ members
              (fun e He fs' =>
                 extract_zip_member_run members dir e fs' He (Hnames e He)) fs)
    as (Hr & Ht & Hk).
  split; [exact Hr|]. split; [exact Ht|]. intros k. rewrite Hk.
  rewrite (find_ext_in (writes_to (zip_write members dir) k)
             (fun e => bool_decide (zip_target dir e = Some k))).
  2:{ intros e _. unfold writes_to, zip_write.
      destruct (zip_target dir e) as [p|].
      - apply bool_decide_ext. split; [by intros ->|by intros [= ->]].
      - by rewrite bool_decide_eq_false_2. }
  destruct (List.find _ (rev members)) as [e|] eqn:E; [|done].
  pose proof (find_elem _ _ _ E) as [He Htarget].
  apply bool_decide_eq_true_1 in Htarget.
  unfold zip_write. rewrite Htarget. cbn. do 2 f_equal.
  assert (Endf.zip_open members e.1 = Ok e.2) as ->; [|done].
  unfold Endf.zip_open.
  rewrite (find_stronger _ (fun e' => String.eqb e'.1 e.1) _ e E); [done| |].
  - intros e' He'. apply String.eqb_eq in He'.
    apply bool_decide_eq_true_2. unfold zip_target in *. by rewrite He'.
  - apply String.eqb_refl.
Qed.

(** An archive with two folders that hold a file of the same name. *)
Definition colliding_zip : FS :=
  {[ ["dl"; "a.zip"] := ZipArchive [("top/", "");
                                     ("top/one/n-001_H_001.endf", "first");
                                     ("top/two/n-001_H_001.endf", "second");
                                     ("top/two/n-001_H_002.endf", "other")] ]}.

Lemma zip_extraction_flattens_witness :
  final (Endf.extract_zip ["dl"; "a.zip"] ["out"] colliding_zip)
    !! ["out"; "n-001_H_001.endf"] = Some (Data "second").
Proof.
  rewrite (proj2 (proj2 (zip_extraction_flattens ["dl"; "a.zip"] ["out"]
             colliding_zip _ eq_refl
             ltac:(apply (bool_decide_unpack _); vm_compute; exact I)
             ltac:(repeat (apply Forall_cons; split; [by vm_compute|]);
                   constructor)))).
  vm_compute. reflexivity.
Defined.

(** Where a tar member is written. *)
Definition tar_target (dir : path) (m : tar_member) : option path :=
  if isreg m then Some (dir ++ [name (Path (tar_name m))]) else None.

Definition tar_write (dir : path) (m : tar_member) : option (path * content) :=
  match tar_target dir m with
  | Some p => Some (p, Data (tar_data m))
  | None => None
  end.

Lemma extract_tar_member_run (dir : path) (m : tar_member) (fs : FS) :
  (isreg m = true ->
   name (Path (tar_name m)) <> "" /\ name (Path (tar_name m)) <> "..") ->
  (if isreg m then
     let n := name (Path (tar_name m)) in
     fsop (Endf.tar_extract dir n m)
   else mret tt) fs
  = Run (Ok tt)
      (match tar_write dir m with
       | Some (p, c) => <[p := c]> fs
       | None => fs
       end) [].
Proof.
  intros Hnames. unfold tar_write, tar_target.
  destruct (isreg m) eqn:Hreg; [|reflexivity].
  destruct (Hnames eq_refl) as [Hn Hdots]. cbv zeta.
  rewrite fsop_run. unfold Endf.tar_extract, Fs.write.
  rewrite (div_name dir _ Hn), name_snoc.
  apply String.eqb_neq in Hn, Hdots. by rewrite Hn, Hdots.
Qed.

(** The run of the tar branch, step by step. *)
Lemma extract_tar_run (archive dir : path) (fs : FS) members :
  fs !! archive = Some (TarArchive members) ->
  Forall (fun m => isreg m = true ->
                   name (Path (tar_name m)) <> ""
                   /\ name (Path (tar_name m)) <> "..") members ->
  result (Endf.extract_tar archive dir fs) = Ok tt
  /\ trace (Endf.extract_tar archive dir fs) = []
  /\ forall k,
       final (Endf.extract_tar archive dir fs) !! k
       = match List.find (writes_to (tar_write dir) k) (rev members) with
         | Some m => snd <$> tar_write dir m
         | None => fs !! k
         end.
Proof.
  intros Harch Hnames. unfold Endf.extract_tar.
  assert ((fun fs0 : FS => lift (Endf.tarfile_open archive fs0) fs0) fs
          = Run (Ok members) fs []) as Hopen.
  { unfold Endf.tarfile_open. by rewrite Harch. }
  rewrite (bind_silent_run _ _ fs members fs Hopen).
  rewrite Forall_forall in Hnames.
  apply (for_writes_run (tar_write dir) _ members
           (fun m Hm fs' => extract_tar_member_run dir m fs' (Hnames m Hm)) fs).
Qed.

(** X3.  The tar branch of the extraction in [generate_endf.py] writes
    the regular members only, each directly in the extraction directory
    under the last component of its name.  For an archive whose regular
    members have a last component that is not [..], and when no
    destination is a directory: the extraction ends normally without any
    outside call; a path that is the destination of a regular member holds
    the data of the last such member in archive order; every other path
    keeps what it held, so directories, links and the folders of the
    archive leave nothing. *)
Theorem tar_extraction_flattens (archive dir : path) (fs : FS) members :
  fs !! archive = Some (TarArchive members) ->
  Forall (fun m => isreg m = true ->
                   name (Path (tar_name m)) <> ""
                   /\ name (Path (tar_name m)) <> "..") members ->
  Forall (fun m => match tar_target dir m with
                   | Some p => Fs.is_dir fs p = false
                   | None => True
                   end) members ->
  result (Endf.extract_tar archive dir fs) = Ok tt
  /\ trace (Endf.extract_tar archive dir fs) = []
  /\ forall k,
       final (Endf.extract_tar archive dir fs) !! k
       = match List.find (fun m => bool_decide (tar_target dir m = Some k))
                 (rev members) with
         | Some m => Some (Data (tar_data m))
         | None => fs !! k
         end.
Proof.
  intros Harch Hnames _.
  destruct (extract_tar_run archive dir fs members Harch Hnames)
    as (Hr & Ht & Hk).
  split; [exact Hr|]. split; [exact Ht|]. intros k. rewrite Hk.
  rewrite (find_ext_in (writes_to (tar_write dir) k)
             (fun m => bool_decide (tar_target dir m = Some k))).
  2:{ intros m _. unfold writes_to, tar_write.
      destruct (tar_target dir m) as [p|].
      - apply bool_decide_ext. split; [by intros ->|by intros [= ->]].
      - by rewrite bool_decide_eq_false_2. }
  destruct (List.find _ (rev members)) as [m|] eqn:E; [|done].
  pose proof (find_elem _ _ _ E) as [Hm Htarget].
  apply bool_decide_eq_true_1 in Htarget.
  unfold tar_write. by rewrite Htarget.
Qed.

(** An archive with a folder, a file in it and a link. *)
Definition sample_tar : FS :=
  {[ ["dl"; "a.tar.gz"]
     := TarArchive [TarInfo "atomic_relax" DIRTYPE "";
                    TarInfo "atomic_relax/atom-001_H_000.endf" REGTYPE "H";
                    TarInfo "atomic_relax/latest" SYMTYPE ""] ]}.

Lemma tar_extraction_flattens_witness :
  final (Endf.extract_tar ["dl"; "a.tar.gz"] ["out"] sample_tar)
    !! ["out"; "atom-001_H_000.endf"] = Some (Data "H")
  /\ final (Endf.extract_tar ["dl"; "a.tar.gz"] ["out"] sample_tar)
       !! ["out"; "latest"] = None.
Proof.
  rewrite !(proj2 (proj2 (tar_extraction_flattens ["dl"; "a.tar.gz"] ["out"]
              sample_tar _ eq_refl
              ltac:(apply (bool_decide_unpack _); vm_compute; exact I)
              ltac:(repeat (apply Forall_cons; split; [by vm_compute|]);
                    constructor)))).
  vm_compute. split; reflexivity.
Defined.

(** ** Where the extraction of [generate_endf.py] writes *)

Lemma relative_to_Some (base p rel : path) :
  relative_to base p = Some rel <-> p = base ++ rel.
Proof.
  revert p. induction base as [|b base IH]; intros p; cbn.
  - split; [by intros [= ->]|by intros ->].
  - destruct p as [|c p]; [done|].
    destruct (String.eqb_spec b c) as [->|Hne].
    + rewrite IH. split; [by intros ->|by intros [= ->]].
    + split; [done|]. intros [= -> _]. done.
Qed.

Lemma under_spec (d k : path) : Fs.under d k = true <-> exists rel, k = d ++ rel.
Proof.
  unfold Fs.under. destruct (relative_to d k) as [rel|] eqn:E.
  - apply relative_to_Some in E. split; [by exists rel|done].
  - split; [done|]. intros [rel Hrel]. apply relative_to_Some in Hrel.
    congruence.
Qed.

Lemma under_trans (d e k : path) :
  Fs.under d e = true -> Fs.under e k = true -> Fs.under d k = true.
Proof.
  rewrite !under_spec. intros [r1 ->] [r2 ->]. exists (r1 ++ r2).
  by rewrite app_assoc.
Qed.

Lemma under_prefix (d x : path) : Fs.under d (d ++ x) = true.
Proof. apply under_spec. by exists x. Qed.

Lemma under_below (d x k : path) :
  Fs.under (d ++ x) k = true -> Fs.under d k = true.
Proof. apply under_trans, under_prefix. Qed.

Lemma touches_impl {A : Type} (S1 S2 : path -> Prop) (m : M A) :
  (forall k, S1 k -> S2 k) -> touches_only S1 m -> touches_only S2 m.
Proof. intros H Hm fs k Hk. apply Hm. intros H1. by apply Hk, H. Qed.

Lemma touches_when (S : path -> Prop) (c : bool) (body : M unit) :
  touches_only S body -> touches_only S (when c body).
Proof. destruct c; [done|]. intros _. by intros fs k _. Qed.

Lemma touches_fsop (S : path -> Prop) (f : FS -> outcome FS) :
  (forall (fs fs' : FS) k, f fs = Ok fs' -> ~ S k -> fs' !! k = fs !! k) ->
  touches_only S (fsop f).
Proof.
  intros H fs k Hk. rewrite fsop_run.
  destruct (f fs) as [fs'|e] eqn:E; [|done]. cbn [final]. by eapply H.
Qed.

Lemma rmtree_lookup_outside (base k : path) (fs : FS) :
  Fs.under base k = false -> Fs.rmtree base fs !! k = fs !! k.
Proof.
  intros Hk. unfold Fs.rmtree. destruct (fs !! k) as [c|] eqn:E.
  - by apply map_lookup_filter_Some_2.
  - apply map_lookup_filter_None_2. by left.
Qed.

Lemma rmtree_lookup_inside (base k : path) (fs : FS) :
  Fs.under base k = true -> Fs.rmtree base fs !! k = None.
Proof.
  intros Hk. unfold Fs.rmtree. apply map_lookup_filter_None_2. right.
  intros c _. cbn. by rewrite Hk.
Qed.

Lemma extract_particle_stays cwd a q :
  touches_only
    (fun k => Fs.under (Endf.endf_files_dir cwd a) k = true
              \/ Fs.under (Endf.destination_dir cwd a) k = true)
    (Endf.extract_particle cwd a q).
Proof.
  unfold Endf.extract_particle, Endf.lookup.
  apply touches_bind_lift. intros d _.
  apply touches_bind_lift. intros ft _.
  apply touches_bind_lift. intros files _.
  apply touches_for. intros f.
  eapply touches_impl.
  2:{ destruct (endswith _ ".zip"); [apply extract_zip_touches|].
      destruct (endswith _ ".tar.gz"); [apply extract_tar_touches|].
      apply touches_copy, under_div. }
  cbv beta. intros k Hk. unfold div in Hk.
  destruct ft; apply under_below in Hk; [by left|by right].
Qed.

(** X4.  The extraction stage of [generate_endf.py] changes files in three
    places only, whether it ends normally or not: below the directory of
    the extracted ENDF files, below the destination directory (the wmp
    library is unpacked there), and, when cleanup is asked for, below the
    download directory.  Every other path holds afterwards what it held
    before. *)
Theorem extraction_stays_in_its_directories (cwd : path) (a : Endf.args)
    (fs : FS) (k : path) :
  Fs.under (Endf.endf_files_dir cwd a) k = false ->
  Fs.under (Endf.destination_dir cwd a) k = false ->
  (Endf.cleanup a = true -> Fs.under (Endf.download_path cwd a) k = false) ->
  final (Endf.extract_stage cwd a fs) !! k = fs !! k.
Proof.
  intros HE Hdest Hdl.
  assert (touches_only
            (fun k => Fs.under (Endf.endf_files_dir cwd a) k = true
                      \/ Fs.under (Endf.destination_dir cwd a) k = true
                      \/ (Endf.cleanup a = true
                          /\ Fs.under (Endf.download_path cwd a) k = true))
            (Endf.extract_stage cwd a)) as Hstage.
  { unfold Endf.extract_stage. apply touches_when, touches_bind.
    - apply touches_for. intros q.
      eapply touches_impl; [|apply extract_particle_stays].
      cbv beta. tauto.
    - intros _. destruct (Endf.cleanup a); [|by intros ? ? ?]. cbn [when].
      apply touches_fsop. intros fs1 fs2 k' Hop Hk'.
      destruct (bool_decide _); [done|]. injection Hop as <-.
      apply rmtree_lookup_outside.
      destruct (Fs.under (Endf.download_path cwd a) k') eqn:E; [|done].
      destruct Hk'. by right; right. }
  apply Hstage. intros [H|[H|[Hc H]]]; [congruence|congruence|].
  specialize (Hdl Hc). congruence.
Qed.

Lemma extraction_stays_in_its_directories_witness :
  final (Endf.extract_stage Sample.cwd Sample.endf_viii0_args
           (<[ ["work"; "notes.txt"] := Data "mine" ]>
              Sample.endf_viii0_downloaded))
    !! ["work"; "notes.txt"] = Some (Data "mine").
Proof.
  rewrite (extraction_stays_in_its_directories Sample.cwd
             Sample.endf_viii0_args _ ["work"; "notes.txt"]
             eq_refl eq_refl ltac:(discriminate)).
  reflexivity.
Defined.

(** X5.  Cleanup belongs to the extraction stage of both HDF5 scripts.
    Without extraction the stage does nothing at all, so the downloads
    stay even when cleanup is asked for.  With extraction and cleanup, a
    stage that ends normally leaves no file below the download directory. *)
Theorem cleanup_only_after_extraction :
  (forall cwd a (fs : FS),
     Endf.extract_flag a = false ->
     Endf.extract_stage cwd a fs = Run (Ok tt) fs [])
  /\ (forall cwd a (fs : FS) (k : path),
        Endf.extract_flag a = true -> Endf.cleanup a = true ->
        result (Endf.extract_stage cwd a fs) = Ok tt ->
        Fs.under (Endf.download_path cwd a) k = true ->
        final (Endf.extract_stage cwd a fs) !! k = None)
  /\ (forall X cwd a (fs : FS),
        Jendl.extract_flag a = false ->
        Jendl.extract_stage X cwd a fs = Run (Ok tt) fs [])
  /\ (forall X cwd a (fs : FS) (k : path),
        Jendl.extract_flag a = true -> Jendl.cleanup a = true ->
        result (Jendl.extract_stage X cwd a fs) = Ok tt ->
        Fs.under (Jendl.download_path cwd a) k = true ->
        final (Jendl.extract_stage X cwd a fs) !! k = None).
Proof.
  split_and!.
  - intros cwd a fs Hx. unfold Endf.extract_stage. by rewrite Hx.
  - intros cwd a fs k Hx Hc. unfold Endf.extract_stage. rewrite Hx, Hc.
    cbn [when]. intros H Hk. apply seq_Ok_run in H as (Hl & H & _).
    rewrite final_bind, Hl. rewrite fsop_run in *.
    destruct (bool_decide _); [done|]. cbn [final].
    by apply rmtree_lookup_inside.
  - intros X cwd a fs Hx. unfold Jendl.extract_stage. by rewrite Hx.
  - intros X cwd a fs k Hx Hc. unfold Jendl.extract_stage. rewrite Hx, Hc.
    cbn [when]. intros H Hk. apply seq_Ok_run in H as (Hl & H & _).
    rewrite final_bind, Hl. rewrite fsop_run in *.
    destruct (bool_decide _); [done|]. cbn [final].
    by apply rmtree_lookup_inside.
Qed.

Lemma cleanup_only_after_extraction_witness :
  Endf.extract_stage Sample.cwd
    (Endf.Args None false false "earliest" Endf.viii_0 [Endf.neutron] true [])
    Sample.endf_viii0_downloaded
  = Run (Ok tt) Sample.endf_viii0_downloaded []
  /\ final (Endf.extract_stage Sample.cwd
              (Endf.Args None false true "earliest" Endf.viii_0
                 [Endf.neutron] true [])
              Sample.endf_viii0_downloaded)
       !! ["work"; "endfb-viii.0-download"; "neutron"; "n-005_B_010.endf"]
     = None.
Proof.
  split.
  - by apply (proj1 cleanup_only_after_extraction).
  - apply (proj1 (proj2 cleanup_only_after_extraction));
      [reflexivity|reflexivity|vm_compute; reflexivity|reflexivity].
Defined.

(** ** The tasks handed to the process pool *)


Lemma registrations_only (tr : list event) :
  Forall (fun e => exists p, e = RegisterFile p) tr ->
  exists regs, tr = List.map RegisterFile regs.
Proof.
  induction 1 as [|e tr [p ->] _ [regs ->]]; [by exists []|].
  by exists (p :: regs).
Qed.

Lemma register_sorted_trace X dir fs :
  exists regs, trace (Endf.register_sorted X dir fs) = List.map RegisterFile regs.
Proof.
  apply registrations_only.
  assert (always (fun e => exists p, e = RegisterFile p)
            (Endf.register_sorted X dir)) as H; [|apply H].
  unfold Endf.register_sorted. always_auto. by eexists.
Qed.

Lemma pool_stage_trace X dir (submit : M (list task)) tasks fs :
  submit fs = Run (Ok tasks) fs (List.map Submit tasks) ->
  exists regs,
    trace ((submit ≫= fun results =>
              for_ results (wait X);; Endf.register_sorted X dir) fs)
    = List.map Submit tasks ++ List.map Wait tasks
      ++ List.map RegisterFile regs.
Proof.
  intros Hsub. rewrite trace_bind, Hsub. cbn [result final trace].
  rewrite trace_bind, wait_loop_run. cbn [result final trace].
  destruct (register_sorted_trace X dir (after_tasks X tasks fs))
    as [regs Hregs].
  exists regs. by rewrite Hregs.
Qed.




Lemma collect_fixed_run {A : Type} (l : list A) (body : A -> M (list task))
    (g : A -> list task) (fs : FS) :
  (forall x, body x fs = Run (Ok (g x)) fs (List.map Submit (g x))) ->
  collect l body fs
  = Run (Ok (concat (List.map g l))) fs
        (List.map Submit (concat (List.map g l))).
Proof.
  intros Hbody. induction l as [|x l IH]; [done|].
  cbn [collect List.map concat]. unfold mbind, M_bind, bind.
  rewrite Hbody. cbn [result final trace].
  rewrite IH. cbn [result final trace]. unfold mret, M_ret, ret.
  cbn [result final trace]. by rewrite app_nil_r, map_app.
Qed.

(** The tasks of the thermal stage of [generate_endf.py]: one for every
    pair of the table. *)
Definition endf_thermal_tasks (cwd : path) (a : Endf.args)
    (sab : list (string * string)) : list task :=
  concat
    (List.map
       (fun pair : string * string =>
          [process_thermal (div (Endf.neutron_dir cwd a) pair.1)
             (div (Endf.thermal_dir cwd a) pair.2)
             (div (Endf.destination_dir cwd a) "thermal") (Endf.libver a)])
       sab).

(** X7.  When thermal data is asked for, the thermal stage of
    [generate_endf.py] submits one task for every pair of ['sab_files'] of
    the release, in the order of the table, made of the neutron file below
    the neutron directory, the thermal file below the thermal directory,
    the thermal destination and the HDF5 version; it waits for each, and
    then only registers files.  The table alone decides the tasks: the
    script looks at no file before it submits them, so they are the same
    on every file system, whether the evaluations exist or not. *)
Theorem endf_thermal_tasks_exact (X : externals) (cwd : path) (a : Endf.args)
    (fs : FS) (d : Endf.details) (sab : list (string * string)) :
  Endf.thermal ∈ Endf.particles a ->
  Endf.release_details (Endf.neutron_dir cwd a) (Endf.endf_files_dir cwd a)
    (Endf.release_of a) Endf.thermal = Some d ->
  Endf.sab_files d = Some sab ->
  exists regs,
    trace (Endf.thermal_stage X cwd a fs)
    = List.map Submit (endf_thermal_tasks cwd a sab)
      ++ List.map Wait (endf_thermal_tasks cwd a sab)
      ++ List.map RegisterFile regs.
Proof.
  intros Hin Hd Hsab. unfold Endf.thermal_stage, Endf.lookup.
  rewrite bool_decide_eq_true_2 by done. cbn [when].
  rewrite lift_bind_run, Hd. cbn [item Endf.particle_str].
  rewrite lift_bind_run, Hsab. cbn [item].
  apply pool_stage_trace. unfold endf_thermal_tasks.
  apply collect_fixed_run. by intros [pn pt].
Qed.

Lemma endf_thermal_tasks_exact_witness :
  exists regs,
    trace (Endf.thermal_stage Sample.X Sample.cwd
             (Endf.Args None false false "earliest" Endf.vii_1
                [Endf.thermal] false []) ∅)
    = List.map Submit
        (endf_thermal_tasks Sample.cwd
           (Endf.Args None false false "earliest" Endf.vii_1
              [Endf.thermal] false [])
           (default [] (Endf.sab_files Endf.details_vii_1_thermal)))
      ++ List.map Wait
           (endf_thermal_tasks Sample.cwd
              (Endf.Args None false false "earliest" Endf.vii_1
                 [Endf.thermal] false [])
              (default [] (Endf.sab_files Endf.details_vii_1_thermal)))
      ++ List.map RegisterFile regs.
Proof.
  apply (endf_thermal_tasks_exact Sample.X Sample.cwd
           (Endf.Args None false false "earliest" Endf.vii_1
              [Endf.thermal] false []) ∅ Endf.details_vii_1_thermal).
  - apply (bool_decide_unpack _). vm_compute. exact I.
  - reflexivity.
  - reflexivity.
Defined.





(** ** Downloads: certificates, and runs that fetch nothing *)

(** A download that leaves the verification of the server certificate on,
    and one that is given [ssl._create_unverified_context()]. *)
Definition verified_download (e : event) : Prop :=
  match e with Download _ _ _ unverified => unverified = false | _ => True end.

Definition unverified_download (e : event) : Prop :=
  match e with Download _ _ _ unverified => unverified = true | _ => True end.

(** In [generate_jendl_chain.py] the downloads of the neutron archives, and
    only they, are unverified. *)
Definition jendl_chain_download (e : event) : Prop :=
  match e with
  | Download url _ _ unverified =>
      if unverified
      then exists f, f ∈ JendlChain.compressed_files JendlChain.URLS_neutron
                     /\ url = urljoin (JendlChain.base_url JendlChain.URLS_neutron) f
      else exists d f, (d = JendlChain.URLS_decay \/ d = JendlChain.URLS_nfy)
                       /\ f ∈ JendlChain.compressed_files d
                       /\ url = urljoin (JendlChain.base_url d) f
  | _ => True
  end.

(** X9.  Which downloads check the certificate of the server.
    [generate_endf.py] and the chain scripts for ENDF/B-VIII.1, JEFF 3.3 and
    JEFF 4.0 never switch the check off.  [generate_jendl.py] switches it
    off for every download.  [generate_jendl_chain.py] switches it off for
    the neutron archives and for nothing else: the decay and fission-yield
    archives come from the same server with the check on. *)
Theorem certificate_checks_of_downloads :
  (forall X cwd a fs, Forall verified_download (trace (Endf.main X cwd a fs)))
  /\ (forall X cwd a fs,
        Forall unverified_download (trace (Jendl.main X cwd a fs)))
  /\ (forall X cwd chain_path endf_path fs,
        Forall verified_download
          (trace (Endf81Chain.main X cwd chain_path endf_path fs)))
  /\ (forall X cwd chain_path endf_path fs,
        Forall verified_download
          (trace (Jeff33Chain.main X cwd chain_path endf_path fs)))
  /\ (forall X cwd chain_path endf_path fs,
        Forall verified_download
          (trace (Jeff40Chain.main X cwd chain_path endf_path fs)))
  /\ (forall X cwd a fs,
        Forall jendl_chain_download (trace (JendlChain.main X cwd a fs))).
Proof.
  split_and!.
  - intros X cwd a. change (always verified_download (Endf.main X cwd a)).
    unfold_endf. always_auto; try apply always_read_fs; try exact I;
      reflexivity.
  - intros X cwd a. change (always unverified_download (Jendl.main X cwd a)).
    unfold_jendl. always_auto; try exact I; reflexivity.
  - intros X cwd chain_path endf_path.
    change (always verified_download
              (Endf81Chain.main X cwd chain_path endf_path)).
    unfold Endf81Chain.main, Endf81Chain.resolve,
      Endf81Chain.resolve_endf_path, Endf81Chain.build.
    always_auto; try exact I; reflexivity.
  - intros X cwd chain_path endf_path.
    change (always verified_download
              (Jeff33Chain.main X cwd chain_path endf_path)).
    unfold Jeff33Chain.main, Jeff33Chain.resolve_endf_path.
    always_auto; try exact I; reflexivity.
  - intros X cwd chain_path endf_path.
    change (always verified_download
              (Jeff40Chain.main X cwd chain_path endf_path)).
    unfold Jeff40Chain.main, Jeff40Chain.resolve_endf_path.
    always_auto; try exact I; reflexivity.
  - intros X cwd a.
    change (always jendl_chain_download (JendlChain.main X cwd a)).
    unfold JendlChain.main, JendlChain.resolve, JendlChain.resolve_neutron,
      JendlChain.resolve_decay, JendlChain.resolve_nfy, JendlChain.build,
      JendlChain.move_errata.
    always_auto; try exact I; cbn [jendl_chain_download].
    + by eexists.
    + eexists JendlChain.URLS_decay, _. split; [by left|done].
    + eexists JendlChain.URLS_nfy, _. split; [by right|done].
Qed.

Definition not_download (e : event) : Prop :=
  match e with Download _ _ _ _ => False | _ => True end.

Definition not_extract (e : event) : Prop :=
  match e with Extract _ _ => False | _ => True end.

Lemma when_false_run (body : M unit) : when false body = mret tt.
Proof. reflexivity. Qed.

(** X10.  What the flags of the HDF5 scripts switch off, in every run and
    whether it ends normally or not.  With [--no-download],
    [generate_endf.py] calls neither [download] nor [extract] (it unpacks
    the archives itself), and [generate_jendl.py] makes no call of
    [download]; with [--no-extract], [generate_jendl.py] makes no call of
    [extract]. *)
Theorem flags_switch_fetching_off :
  (forall X cwd a fs,
     Endf.download_flag a = false ->
     Forall (fun e => not_download e /\ not_extract e)
       (trace (Endf.main X cwd a fs)))
  /\ (forall X cwd a fs,
        Jendl.download_flag a = false ->
        Forall not_download (trace (Jendl.main X cwd a fs)))
  /\ (forall X cwd a fs,
        Jendl.extract_flag a = false ->
        Forall not_extract (trace (Jendl.main X cwd a fs))).
Proof.
  split_and!.
  - intros X cwd a fs Hflag. revert fs.
    change (always (fun e => not_download e /\ not_extract e)
              (Endf.main X cwd a)).
    unfold Endf.main. apply always_bind.
    { unfold Endf.download_stage. rewrite Hflag, when_false_run.
      apply always_ret. }
    intros _. unfold Endf.extract_stage,
      Endf.extract_particle, Endf.extract_zip, Endf.extract_tar,
      Endf.neutron_stage, Endf.submit_neutron, Endf.thermal_stage,
      Endf.photon_stage, Endf.wmp_stage, Endf.register_sorted, Endf.lookup.
    always_auto; try apply always_read_fs; done.
  - intros X cwd a fs Hflag. revert fs.
    change (always not_download (Jendl.main X cwd a)).
    unfold Jendl.main. apply always_bind.
    { unfold Jendl.download_stage. rewrite Hflag, when_false_run.
      apply always_ret. }
    intros _. unfold Jendl.extract_stage,
      Jendl.errata_stage, Jendl.errata_particle,
      Jendl.neutron_stage, Jendl.thermal_stage, Jendl.photon_stage,
      Jendl.register_sorted, Jendl.lookup.
    always_auto; exact I.
  - intros X cwd a fs Hflag. revert fs.
    change (always not_extract (Jendl.main X cwd a)).
    unfold Jendl.main. apply always_bind.
    { unfold Jendl.download_stage, Jendl.lookup. always_auto; exact I. }
    intros _. apply always_bind.
    { unfold Jendl.extract_stage. rewrite Hflag, when_false_run.
      apply always_ret. }
    intros _. unfold Jendl.errata_stage, Jendl.errata_particle,
      Jendl.neutron_stage, Jendl.thermal_stage, Jendl.photon_stage,
      Jendl.register_sorted, Jendl.lookup.
    always_auto; exact I.
Qed.

Lemma flags_switch_fetching_off_witness :
  Forall (fun e => not_download e /\ not_extract e)
    (trace (Endf.main Sample.X Sample.cwd Sample.endf_viii0_args
              Sample.endf_viii0_downloaded))
  /\ Forall not_download
       (trace (Jendl.main Sample.X Sample.cwd Sample.jendl_thermal_args ∅))
  /\ Forall not_extract
       (trace (Jendl.main Sample.X Sample.cwd Sample.jendl_thermal_args ∅)).
Proof.
  split_and!.
  - by apply (proj1 flags_switch_fetching_off).
  - by apply (proj1 (proj2 flags_switch_fetching_off)).
  - by apply (proj2 (proj2 flags_switch_fetching_off)).
Defined.

(** ** Registration when a file has no sort key *)

Lemma keys_of_raises {A K : Type} (key : A -> outcome K) (l : list A) x e :
  x ∈ l -> key x = Raise e -> exists e', keys_of key l = Raise e'.
Proof.
  intros Hin Hx. induction l as [|y l IH]; [by apply elem_of_nil in Hin|].
  cbn [keys_of]. destruct (key y) as [k|e1] eqn:Hy; [|by exists e1].
  cbn. apply elem_of_cons in Hin as [-> | Hin]; [congruence|].
  destruct (IH Hin) as [e' ->]. by exists e'.
Qed.

(** X11.  The registration loop of both HDF5 scripts computes the sort
    key of every [*.h5] file of the directory before it registers the
    first one.  If the key of one of them cannot be computed (a name that
    neither starts with [c_] nor is a nuclide name), the loop raises
    the exception of such a file, registers nothing at all and leaves the
    file system as it was. *)
Theorem registration_needs_every_sort_key (X : externals) (dir : path)
    (fs : FS) (p : path) (e : exn) :
  p ∈ Fs.glob fs dir "*.h5" ->
  Endf.sort_key p = Raise e ->
  exists q e',
    q ∈ Fs.glob fs dir "*.h5" /\ Endf.sort_key q = Raise e'
    /\ Endf.register_sorted X dir fs = Run (Raise e') fs []
    /\ Jendl.register_sorted X dir fs = Run (Raise e') fs [].
Proof.
  intros Hin Hp.
  destruct (keys_of_raises Endf.sort_key _ p e Hin Hp) as [e' He'].
  destruct (keys_of_Raise _ _ _ He') as (q & Hq & Hkey).
  exists q, e'. split; [done|]. split; [done|].
  assert (Endf.register_sorted X dir fs = Run (Raise e') fs []) as H.
  { unfold Endf.register_sorted. rewrite gets_bind_run, lift_bind_run.
    unfold sorted_by. by rewrite He'. }
  split; [exact H|]. by rewrite jendl_register_sorted.
Qed.

(** A destination directory with a stray file. *)
Definition stray_h5 : FS :=
  {[ ["out"; "neutron"; "H1.h5"] := Data "H1";
     ["out"; "neutron"; "summary.h5"] := Data "" ]}.

Lemma registration_needs_every_sort_key_witness :
  exists q e',
    q ∈ Fs.glob stray_h5 ["out"; "neutron"] "*.h5"
    /\ Endf.sort_key q = Raise e'
    /\ Endf.register_sorted Sample.X ["out"; "neutron"] stray_h5
       = Run (Raise e') stray_h5 []
    /\ Jendl.register_sorted Sample.X ["out"; "neutron"] stray_h5
       = Run (Raise e') stray_h5 [].
Proof.
  apply (registration_needs_every_sort_key Sample.X ["out"; "neutron"]
           stray_h5 ["out"; "neutron"; "summary.h5"]
           (ValueError "not a nuclide name in GNDS format")).
  - apply (bool_decide_unpack _). vm_compute. exact I.
  - vm_compute. reflexivity.
Defined.

(** ** Where the errata loops write *)

Lemma list_to_map_map_lookup (g : path * content -> path * content)
    (l : list (path * content)) (k : path) :
  (forall pc, (g pc).1 = k -> g pc = pc) ->
  (forall c, g (k, c) = (k, c)) ->
  (list_to_map (List.map g l) : FS) !! k = (list_to_map l : FS) !! k.
Proof.
  intros Hin Hk. induction l as [|[p c] l IH]; [done|].
  cbn [List.map list_to_map foldr].
  destruct (decide ((g (p, c)).1 = k)) as [Hg|Hg].
  - pose proof (Hin _ Hg) as Hid. rewrite Hid in *. cbn in Hg. subst p.
    cbn. by rewrite !lookup_insert_eq.
  - rewrite lookup_insert_ne by done. rewrite IH.
    destruct (decide (p = k)) as [->|Hp].
    + rewrite Hk in Hg. done.
    + cbn. by rewrite lookup_insert_ne.
Qed.

Lemma move_tree_lookup_outside (src dst k : path) (fs : FS) :
  Fs.under src k = false -> Fs.under dst k = false ->
  Fs.move_tree src dst fs !! k = fs !! k.
Proof.
  intros Hsrc Hdst. unfold Fs.move_tree.
  rewrite list_to_map_map_lookup.
  - by rewrite list_to_map_to_list.
  - intros [p c]. destruct (relative_to src p) as [rel|]; [|done].
    cbn. intros <-. by rewrite under_prefix in Hdst.
  - intros c. unfold Fs.under in Hsrc.
    by destruct (relative_to src k).
Qed.

Lemma under_refl (d : path) : Fs.under d d = true.
Proof. apply under_spec. exists []. by rewrite app_nil_r. Qed.

Lemma rename_touches (base src dst : path) :
  Fs.under base src = true -> Fs.under base dst = true ->
  touches_only (fun k => Fs.under base k = true) (fsop (Fs.rename src dst)).
Proof.
  intros Hsrc Hdst. apply touches_fsop. intros fs fs' k Hop Hk.
  apply Bool.not_true_is_false in Hk.
  assert (k <> src) as Hks by (intros ->; congruence).
  assert (k <> dst) as Hkd by (intros ->; congruence).
  unfold Fs.rename in Hop. destruct (fs !! src) as [c|].
  - destruct (path_eqb src dst); [by injection Hop as <-|].
    destruct (Fs.is_dir fs dst); [done|]. injection Hop as <-.
    rewrite lookup_insert_ne by done. by rewrite lookup_delete_ne.
  - destruct (Fs.is_dir fs src); [|done].
    destruct (path_eqb src dst); [by injection Hop as <-|].
    destruct (_ || _); [done|]. injection Hop as <-.
    apply move_tree_lookup_outside.
    + destruct (Fs.under src k) eqn:E; [|done].
      by rewrite (under_trans _ _ _ Hsrc E) in Hk.
    + destruct (Fs.under dst k) eqn:E; [|done].
      by rewrite (under_trans _ _ _ Hdst E) in Hk.
Qed.

Lemma rename_into_touches (base dest : path) (files : list path) :
  Fs.under base dest = true ->
  Forall (fun p => Fs.under base p = true) files ->
  touches_only (fun k => Fs.under base k = true) (rename_into dest files).
Proof.
  intros Hdest. unfold rename_into.
  induction 1 as [|p files Hp _ IH]; [by intros fs k _|].
  cbn [for_]. apply touches_bind; [|by intros _].
  apply rename_touches; [done|]. unfold div.
  eapply under_trans; [exact Hdest|apply under_prefix].
Qed.

Lemma rglob_under (fs : FS) (base : path) (pattern : string) :
  Forall (fun p => Fs.under base p = true) (Fs.rglob fs base pattern).
Proof.
  apply Forall_forall. intros p. unfold Fs.rglob, Fs.under.
  rewrite elem_of_List_filter. intros [_ H].
  by destruct (relative_to base p).
Qed.

Lemma move_matching_touches (base dest : path) (pattern : string) :
  Fs.under base dest = true ->
  touches_only (fun k => Fs.under base k = true)
    (move_matching base dest pattern).
Proof.
  intros Hdest fs k Hk. unfold move_matching. rewrite gets_bind_run.
  by apply (rename_into_touches base dest (Fs.rglob fs base pattern) Hdest
              (rglob_under fs base pattern) fs k).
Qed.

Lemma errata_particle_touches cwd a q :
  touches_only
    (fun k => Fs.under (div (Jendl.endf_files_dir cwd a) (Jendl.particle_str q)) k
              = true)
    (Jendl.errata_particle cwd a q).
Proof.
  unfold Jendl.errata_particle, Jendl.lookup.
  apply touches_bind_lift. intros d _.
  destruct (Jendl.pattern_errata d) as [errata|]; [|by intros fs k _].
  apply touches_bind_lift. intros dir _.
  apply touches_for. intros pattern.
  apply move_matching_touches. unfold div at 1. apply under_prefix.
Qed.

(** X12.  The errata loops of the JENDL scripts move files inside the
    directory of the extracted files and nowhere else, whether they end
    normally or not.  In [generate_jendl.py] the loop of a particle leaves
    every path outside that particle's directory as it was, so the whole
    stage leaves everything outside the ENDF directory as it was; in
    [generate_jendl_chain.py] the loops of the neutron and of the decay
    branch leave everything outside the ENDF directory as it was. *)
Theorem errata_stay_below_endf_dir :
  (forall (cwd : path) (a : Jendl.args) (q : Jendl.particle) (fs : FS)
          (k : path),
     Fs.under (div (Jendl.endf_files_dir cwd a) (Jendl.particle_str q)) k
     = false ->
     final (Jendl.errata_particle cwd a q fs) !! k = fs !! k)
  /\ (forall (cwd : path) (a : Jendl.args) (fs : FS) (k : path),
        Fs.under (Jendl.endf_files_dir cwd a) k = false ->
        final (Jendl.errata_stage cwd a fs) !! k = fs !! k)
  /\ (forall (cwd : path) (d : JendlChain.details) (fs : FS) (k : path),
        d = JendlChain.URLS_neutron \/ d = JendlChain.URLS_decay ->
        Fs.under (JendlChain.endf_files_dir cwd) k = false ->
        final (JendlChain.move_errata cwd d fs) !! k = fs !! k).
Proof.
  split_and!.
  - intros cwd a q fs k Hk. apply errata_particle_touches. cbv beta.
    by rewrite Hk.
  - intros cwd a fs k Hk.
    assert (touches_only
              (fun k => Fs.under (Jendl.endf_files_dir cwd a) k = true)
              (Jendl.errata_stage cwd a)) as H.
    { unfold Jendl.errata_stage. apply touches_for. intros q.
      eapply touches_impl; [|apply errata_particle_touches].
      cbv beta. intros k'. unfold div. apply under_below. }
    apply H. cbv beta. by rewrite Hk.
  - intros cwd d fs k Hd Hk.
    assert (forall patterns dir,
              touches_only
                (fun k => Fs.under (JendlChain.endf_files_dir cwd) k = true)
                (for_ patterns
                   (move_matching (JendlChain.endf_files_dir cwd)
                      (div (JendlChain.endf_files_dir cwd) dir)))) as H.
    { intros patterns dir. apply touches_for. intros pattern.
      apply move_matching_touches. unfold div at 1. apply under_prefix. }
    destruct Hd as [-> | ->].
    + rewrite chain_errata_neutron_run. apply H. cbv beta. by rewrite Hk.
    + rewrite chain_errata_decay_run. apply H. cbv beta. by rewrite Hk.
Qed.

Lemma errata_stay_below_endf_dir_witness :
  final (Jendl.errata_stage Sample.cwd
           (Jendl.Args None false false "latest" Jendl.r5 [Jendl.neutron]
              false [])
           (<[ ["work"; "model.dat"] := Data "mine" ]> Sample.jendl_extracted))
    !! ["work"; "model.dat"] = Some (Data "mine").
Proof.
  rewrite (proj1 (proj2 errata_stay_below_endf_dir)); reflexivity.
Defined.

(** ** Running an errata loop again *)

Lemma elem_of_rglob (fs : FS) (base : path) (pattern : string) (p : path) :
  p ∈ Fs.rglob fs base pattern
  <-> is_Some (fs !! p)
      /\ match relative_to base p with
         | Some rel => match_suffix (split "/"%char pattern) rel
         | None => false
         end = true.
Proof. unfold Fs.rglob. by rewrite elem_of_List_filter, elem_of_listing. Qed.


#[global] Instance moved_dec (dest p : path) : Decision (moved dest p).
Proof. unfold moved. apply _. Defined.




(** ** Chains built from files that are already there *)

Lemma call_trace {A : Type} (ev : event) (h : FS -> outcome (A * FS)) fs :
  trace (call ev h fs) = [ev].
Proof. unfold call. by destruct (h fs) as [[a fs']|e]. Qed.





(** X15.  [generate_jendl_chain.py] with neutron, decay and
    fission-yield files all given on the command line downloads, extracts
    and moves nothing: its first call builds the chain from exactly the
    given lists, handed over as decay files, yield files and neutron
    files in this order, and, if that call succeeds, its second and last
    call exports the chain to the destination, which is
    [chain_jendl5.xml] in the working directory when none is given. *)
Theorem jendl_chain_from_given_files (X : externals) (cwd : path)
    (a : JendlChain.args) (fs : FS) :
  JendlChain.neutron a <> [] ->
  JendlChain.decay a <> [] ->
  JendlChain.nfy a <> [] ->
  trace (JendlChain.main X cwd a fs)
  = ChainFromEndf (Files (PyList (JendlChain.decay a)))
      (Files (PyList (JendlChain.nfy a)))
      (Files (PyList (JendlChain.neutron a)))
    :: match x_chain_from_endf X (Files (PyList (JendlChain.decay a)))
               (Files (PyList (JendlChain.nfy a)))
               (Files (PyList (JendlChain.neutron a))) fs with
       | Ok _ =>
           [ChainExportToXml
              (default (cwd ++ ["chain_jendl5.xml"]) (JendlChain.destination a))]
       | Raise _ => []
       end.
Proof.
  intros Hn Hd Hy. unfold JendlChain.main.
  rewrite (bind_silent_run _ _ fs
             (PyList (JendlChain.decay a), PyList (JendlChain.neutron a),
              PyList (JendlChain.nfy a)) fs).
  2:{ unfold JendlChain.resolve, JendlChain.resolve_neutron,
        JendlChain.resolve_decay, JendlChain.resolve_nfy.
      destruct (JendlChain.neutron a); [done|].
      destruct (JendlChain.decay a); [done|].
      by destruct (JendlChain.nfy a). }
  unfold JendlChain.build.
  rewrite (bind_silent_run _ _ fs tt fs).
  2:{ rewrite check_files_exist_run.
      destruct (JendlChain.neutron a); [done|].
      destruct (JendlChain.decay a); [done|].
      by destruct (JendlChain.nfy a). }
  rewrite trace_bind. unfold chain_from_endf, chain_export_to_xml.
  rewrite call_trace. unfold call at 1, query.
  destruct (x_chain_from_endf X _ _ _ fs) as [[]|e]; cbn [result final trace];
    [|done].
  rewrite call_trace. unfold JendlChain.chain_destination.
  by destruct (JendlChain.destination a).
Qed.

Lemma jendl_chain_from_given_files_witness :
  trace (JendlChain.main Sample.X Sample.cwd
           (JendlChain.Args None [["n.dat"]] [["d.dat"]] [["y.dat"]]) ∅)
  = [ChainFromEndf (Files (PyList [["d.dat"]])) (Files (PyList [["y.dat"]]))
       (Files (PyList [["n.dat"]]));
     ChainExportToXml ["work"; "chain_jendl5.xml"]].
Proof.
  rewrite (jendl_chain_from_given_files Sample.X Sample.cwd
             (JendlChain.Args None [["n.dat"]] [["d.dat"]] [["y.dat"]]) ∅
             ltac:(discriminate) ltac:(discriminate) ltac:(discriminate)).
  reflexivity.
Defined.








(** X17.  In [generate_jendl_chain.py] the check for neutron files can
    never fail when the neutron files are downloaded: the collection it
    tests is then the generator of [glob], which is true whether or not a
    file matches.  So whenever the file lists are resolved with decay and
    yield files present, the chain is built, with the neutron files given
    as that generator, even if it yields no file. *)
Theorem jendl_chain_neutron_check_is_vacuous (X : externals) (cwd : path)
    (a : JendlChain.args) (fs : FS) (d n y : files) :
  JendlChain.neutron a = [] ->
  result (JendlChain.resolve X cwd a fs) = Ok (d, n, y) ->
  truthy d = true -> truthy y = true ->
  n = PyGlob (JendlChain.endf_files_dir cwd) "jendl5-n/*.dat"
  /\ ChainFromEndf (Files d) (Files y) (Files n)
     ∈ trace (JendlChain.main X cwd a fs).
Proof.
  intros Hnone Hres Hd Hy.
  assert (n = PyGlob (JendlChain.endf_files_dir cwd) "jendl5-n/*.dat") as Hn.
  { unfold JendlChain.resolve in Hres.
    apply bind_Ok in Hres as (n' & Hn' & Hres).
    apply bind_Ok in Hres as (d' & _ & Hres).
    apply bind_Ok in Hres as (y' & _ & Hres).
    injection Hres as _ <- _.
    unfold JendlChain.resolve_neutron in Hn'. rewrite Hnone in Hn'.
    apply bind_Ok in Hn' as (? & _ & Hn').
    apply bind_Ok in Hn' as (? & _ & Hn').
    by injection Hn' as <-. }
  split; [exact Hn|].
  unfold JendlChain.main. rewrite trace_bind, Hres.
  apply elem_of_app. right. unfold JendlChain.build.
  set (fs1 := final (JendlChain.resolve X cwd a fs)).
  rewrite (bind_silent_run _ _ fs1 tt fs1).
  2:{ rewrite check_files_exist_run. cbn [List.find fst].
      rewrite Hd, Hy, Hn. done. }
  rewrite trace_bind. apply elem_of_app. left.
  unfold chain_from_endf. rewrite call_trace. by left.
Qed.

Lemma jendl_chain_neutron_check_is_vacuous_witness :
  Fs.glob
    (final (JendlChain.resolve Sample.X Sample.cwd
              (JendlChain.Args None [] [["d.dat"]] [["y.dat"]]) ∅))
    ["work"; "jendl-5-endf"] "jendl5-n/*.dat" = []
  /\ ChainFromEndf (Files (PyList [["d.dat"]])) (Files (PyList [["y.dat"]]))
       (Files (PyGlob ["work"; "jendl-5-endf"] "jendl5-n/*.dat"))
     ∈ trace (JendlChain.main Sample.X Sample.cwd
                (JendlChain.Args None [] [["d.dat"]] [["y.dat"]]) ∅).
Proof.
  split; [vm_compute; reflexivity|].
  apply (jendl_chain_neutron_check_is_vacuous Sample.X Sample.cwd
           (JendlChain.Args None [] [["d.dat"]] [["y.dat"]]) ∅
           (PyList [["d.dat"]])
           (PyGlob ["work"; "jendl-5-endf"] "jendl5-n/*.dat")
           (PyList [["y.dat"]])).
  - reflexivity.
  - vm_compute. reflexivity.
  - reflexivity.
  - reflexivity.
Defined.

(** ** Extraction without the downloads *)




(** ** The wmp library from archive to registration *)

Lemma seq_ret_run (m : M unit) (fs : FS) : (m;; ret tt) fs = m fs.
Proof.
  unfold mbind, M_bind, bind, ret.
  destruct (m fs) as [[[]|e] fs' tr]; cbn [result final trace]; [|done].
  by rewrite app_nil_r.
Qed.

Lemma seq_mret_run (m : M unit) (fs : FS) : (m;; mret tt) fs = m fs.
Proof. apply seq_ret_run. Qed.

Lemma bind_congr_run {A B : Type} (m : M A) (f g : A -> M B) (fs : FS) :
  (forall a fs', f a fs' = g a fs') -> (m ≫= f) fs = (m ≫= g) fs.
Proof.
  intros H. unfold mbind, M_bind, bind.
  destruct (result (m fs)); [by rewrite H|done].
Qed.

Section WmpOnly.
Variable X : externals.
Variable cwd : path.
Variable a : Endf.args.
Hypothesis Hrel : Endf.release_of a = Endf.vii_1.
Hypothesis Hparticles : Endf.particles a = [Endf.wmp].
Hypothesis Hdownload : Endf.download_flag a = false.
Hypothesis Hextract : Endf.extract_flag a = true.
Hypothesis Hcleanup : Endf.cleanup a = false.

Lemma wmp_only_extract_run (fs : FS) :
  Endf.extract_stage cwd a fs
  = Endf.extract_tar
      (div (div (Endf.download_path cwd a) "wmp") "WMP_Library_v1.1.tar.gz")
      (div (Endf.destination_dir cwd a) "wmp") fs.
Proof.
  unfold Endf.extract_stage. rewrite Hextract, Hparticles, Hcleanup.
  cbn [when for_]. rewrite !seq_ret_run.
  unfold Endf.extract_particle, Endf.lookup. rewrite Hrel.
  rewrite lift_bind_run. cbn [Endf.release_details item].
  rewrite lift_bind_run. cbn [Endf.details_vii_1_wmp Endf.file_type item].
  rewrite lift_bind_run.
  assert (item "compressed_files"
            (Endf.compressed_files Endf.details_vii_1_wmp)
          = Ok ["WMP_Library_v1.1.tar.gz"]) as -> by reflexivity.
  cbn [for_]. rewrite seq_ret_run. reflexivity.
Qed.

Lemma wmp_only_skipped (fs : FS) :
  Endf.download_stage X cwd a fs = Run (Ok tt) fs []
  /\ Endf.neutron_stage X cwd a fs = Run (Ok tt) fs []
  /\ Endf.thermal_stage X cwd a fs = Run (Ok tt) fs []
  /\ Endf.photon_stage X cwd a fs = Run (Ok tt) fs [].
Proof.
  unfold Endf.download_stage, Endf.neutron_stage, Endf.thermal_stage,
    Endf.photon_stage.
  rewrite Hdownload, Hparticles. by split_and!.
Qed.

Lemma wmp_only_main_run (fs : FS) :
  Endf.main X cwd a fs
  = (Endf.extract_stage cwd a;; Endf.wmp_stage X cwd a;;
     export_to_xml X (div (Endf.destination_dir cwd a) "cross_sections.xml"))
      fs.
Proof.
  unfold Endf.main.
  destruct (wmp_only_skipped fs) as (Hd & _).
  rewrite (bind_silent_run _ _ fs tt fs Hd).
  apply bind_congr_run. intros [] fs1.
  destruct (wmp_only_skipped fs1) as (_ & Hn & Ht & Hp).
  rewrite (bind_silent_run _ _ fs1 tt fs1 Hn).
  rewrite (bind_silent_run _ _ fs1 tt fs1 Ht).
  by rewrite (bind_silent_run _ _ fs1 tt fs1 Hp).
Qed.
End WmpOnly.

(** X19.  The wmp library of release vii.1 from archive to registration.
    In a run of [generate_endf.py] for wmp data alone, without download and
    cleanup, that ends normally, every regular member of the downloaded
    archive [WMP_Library_v1.1.tar.gz] whose name ends in a component
    matching [*.h5] is registered, under the path of that component
    directly in the [wmp] directory of the destination, whatever folder of
    the archive it was in. *)
Theorem wmp_library_is_unpacked_and_registered (X : externals) (cwd : path)
    (a : Endf.args) (fs : FS) (members : list tar_member) (m : tar_member) :
  Endf.release_of a = Endf.vii_1 ->
  Endf.particles a = [Endf.wmp] ->
  Endf.download_flag a = false ->
  Endf.extract_flag a = true ->
  Endf.cleanup a = false ->
  fs !! (Endf.download_path cwd a ++ ["wmp"; "WMP_Library_v1.1.tar.gz"])
  = Some (TarArchive members) ->
  Forall (fun m => isreg m = true ->
                   name (Path (tar_name m)) <> ""
                   /\ name (Path (tar_name m)) <> "..") members ->
  result (Endf.main X cwd a fs) = Ok tt ->
  m ∈ members -> isreg m = true ->
  fnmatch (name (Path (tar_name m))) "*.h5" = true ->
  RegisterFile (Endf.destination_dir cwd a
                ++ ["wmp"; name (Path (tar_name m))])
  ∈ trace (Endf.main X cwd a fs).
Proof.
  intros Hrel Hparticles Hdownload Hextract Hcleanup Harch Hnames Hres
    Hm Hreg Hmatch.
  rewrite (wmp_only_main_run X cwd a Hparticles Hdownload) in *.
  rewrite trace_bind. rewrite result_bind in Hres.
  rewrite (wmp_only_extract_run cwd a Hrel Hparticles Hextract Hcleanup) in *.
  set (archive := div (div (Endf.download_path cwd a) "wmp")
                      "WMP_Library_v1.1.tar.gz") in *.
  set (dir := div (Endf.destination_dir cwd a) "wmp") in *.
  assert (fs !! archive = Some (TarArchive members)) as Harch'.
  { unfold archive, div. by rewrite <- app_assoc. }
  destruct (extract_tar_run archive dir fs members Harch' Hnames)
    as (Hr & Ht & Hk).
  rewrite Hr, Ht in *. cbn [app].
  set (fs1 := final (Endf.extract_tar archive dir fs)) in *.
  apply seq_Ok_run in Hres as (Hw & _ & ->).
  apply elem_of_app. left.
  unfold Endf.wmp_stage in *. rewrite Hparticles in *.
  rewrite bool_decide_eq_true_2 in * by left. cbn [when] in *.
  rewrite gets_bind_run in *.
  rewrite (for_call_trace _ (register_file X) RegisterFile
             (fun p => query (x_register_file X p)) _ (fun _ _ => eq_refl) Hw).
  apply list_elem_of_fmap.
  exists (dir ++ [name (Path (tar_name m))]). split.
  { unfold dir, div. by rewrite <- app_assoc. }
  rewrite (proj1 (sorted_spec _)). apply elem_of_rglob. split.
  - rewrite Hk.
    destruct (List.find _ (rev members)) as [m'|] eqn:E.
    + apply find_elem in E as [_ Hhit]. unfold writes_to in Hhit.
      by destruct (tar_write dir m') as [[p c]|].
    + exfalso.
      assert (In m (rev members)) as Hin
        by by apply list_elem_of_In, elem_of_rev.
      pose proof (find_none _ _ E m Hin) as Hno.
      unfold writes_to, tar_write, tar_target in Hno. rewrite Hreg in Hno.
      by rewrite bool_decide_eq_true_2 in Hno.
  - fold dir.
    assert (relative_to dir (dir ++ [name (Path (tar_name m))])
            = Some [name (Path (tar_name m))]) as ->
      by by apply relative_to_Some.
    unfold match_suffix. change (split "/"%char "*.h5") with ["*.h5"].
    cbn [length drop Nat.leb Nat.sub match_components andb].
    by rewrite Hmatch.
Qed.

(** The downloaded wmp archive, with its folder. *)
Definition wmp_downloaded : FS :=
  {[ ["work"; "endfb-vii.1-download"; "wmp"; "WMP_Library_v1.1.tar.gz"]
     := TarArchive [TarInfo "WMP_Library" DIRTYPE "";
                    TarInfo "WMP_Library/092235.h5" REGTYPE "U-235";
                    TarInfo "WMP_Library/README.md" REGTYPE "text"] ]}.

Lemma wmp_library_is_unpacked_and_registered_witness :
  RegisterFile ["work"; "endfb-vii.1-hdf5"; "wmp"; "092235.h5"]
  ∈ trace (Endf.main Sample.X Sample.cwd
             (Endf.Args None false true "earliest" Endf.vii_1 [Endf.wmp]
                false [])
             wmp_downloaded).
Proof.
  apply (wmp_library_is_unpacked_and_registered Sample.X Sample.cwd
           (Endf.Args None false true "earliest" Endf.vii_1 [Endf.wmp]
              false [])
           wmp_downloaded
           [TarInfo "WMP_Library" DIRTYPE "";
            TarInfo "WMP_Library/092235.h5" REGTYPE "U-235";
            TarInfo "WMP_Library/README.md" REGTYPE "text"]
           (TarInfo "WMP_Library/092235.h5" REGTYPE "U-235"));
    try (vm_compute; reflexivity).
  - repeat (apply Forall_cons; split;
            [intros _; split; vm_compute; discriminate|]).
    constructor.
  - by right; left.
Defined.

(** ** Which archives are extracted, and where *)

(** The extractions of each script. *)
Definition endf81_chain_extract (e : event) : Prop :=
  match e with Extract _ dir => dir = None | _ => True end.

Definition jeff33_chain_extract (cwd : path) (e : event) : Prop :=
  match e with
  | Extract archive dir =>
      (suffix archive = ".tgz" /\ dir = None)
      \/ (suffix archive = ".zip" /\ dir = Some (cwd ++ ["decay"]))
  | _ => True
  end.

Definition jeff40_chain_extract (cwd : path) (e : event) : Prop :=
  match e with
  | Extract archive dir =>
      suffix archive = ".zip" /\ dir = Some (cwd ++ ["neutrons"])
  | _ => True
  end.

Definition jendl_chain_extract (cwd : path) (e : event) : Prop :=
  match e with
  | Extract _ dir => dir = Some (JendlChain.endf_files_dir cwd)
  | _ => True
  end.

Definition jendl_extract (cwd : path) (a : Jendl.args) (e : event) : Prop :=
  match e with
  | Extract archive dir =>
      exists particle details files f,
        particle ∈ Jendl.particles a
        /\ Jendl.release_details (Jendl.release_of a) particle = Some details
        /\ Jendl.compressed_files details = Some files
        /\ f ∈ files
        /\ archive = div (div (Jendl.download_path cwd a)
                              (Jendl.particle_str particle)) f
        /\ dir = Some (div (Jendl.endf_files_dir cwd a)
                           (Jendl.particle_str particle))
  | _ => True
  end.

(** X20.  What the scripts hand to [extract], in every run.  The chain
    script for ENDF/B-VIII.1 extracts into the working directory (no
    extraction directory is given).  The one for JEFF 3.3 extracts a
    downloaded file only if its suffix is [.tgz], into the working
    directory, or [.zip], into [decay]; the one for JEFF 4.0 only if its
    suffix is [.zip], into [neutrons]: the text files of the yields and of
    the decay data are never extracted.  The JENDL chain script extracts
    everything into its ENDF directory.  [generate_jendl.py] extracts, for
    a requested particle, the files that the table lists for it, taken
    from the particle's download directory by their listed names, into the
    particle's directory of the ENDF files. *)
Theorem what_the_scripts_extract :
  (forall X cwd chain_path endf_path fs,
     Forall endf81_chain_extract
       (trace (Endf81Chain.main X cwd chain_path endf_path fs)))
  /\ (forall X cwd chain_path endf_path fs,
        Forall (jeff33_chain_extract cwd)
          (trace (Jeff33Chain.main X cwd chain_path endf_path fs)))
  /\ (forall X cwd chain_path endf_path fs,
        Forall (jeff40_chain_extract cwd)
          (trace (Jeff40Chain.main X cwd chain_path endf_path fs)))
  /\ (forall X cwd a fs,
        Forall (jendl_chain_extract cwd) (trace (JendlChain.main X cwd a fs)))
  /\ (forall X cwd a fs,
        Forall (jendl_extract cwd a) (trace (Jendl.main X cwd a fs))).
Proof.
  split_and!.
  - intros X cwd chain_path endf_path.
    change (always endf81_chain_extract
              (Endf81Chain.main X cwd chain_path endf_path)).
    unfold Endf81Chain.main, Endf81Chain.resolve,
      Endf81Chain.resolve_endf_path, Endf81Chain.build.
    always_auto; try exact I; reflexivity.
  - intros X cwd chain_path endf_path.
    change (always (jeff33_chain_extract cwd)
              (Jeff33Chain.main X cwd chain_path endf_path)).
    unfold Jeff33Chain.main, Jeff33Chain.resolve_endf_path.
    always_auto; try exact I; cbn [jeff33_chain_extract].
    + left. split; [by apply String.eqb_eq|done].
    + right. split; [by apply String.eqb_eq|done].
  - intros X cwd chain_path endf_path.
    change (always (jeff40_chain_extract cwd)
              (Jeff40Chain.main X cwd chain_path endf_path)).
    unfold Jeff40Chain.main, Jeff40Chain.resolve_endf_path.
    always_auto; try exact I; cbn [jeff40_chain_extract].
    split; [by apply String.eqb_eq|done].
  - intros X cwd a.
    change (always (jendl_chain_extract cwd) (JendlChain.main X cwd a)).
    unfold JendlChain.main, JendlChain.resolve, JendlChain.resolve_neutron,
      JendlChain.resolve_decay, JendlChain.resolve_nfy, JendlChain.build,
      JendlChain.move_errata.
    always_auto; try exact I; reflexivity.
  - intros X cwd a.
    change (always (jendl_extract cwd a) (Jendl.main X cwd a)).
    unfold_jendl. always_auto; try exact I.
    cbn [jendl_extract]. unfold Jendl.lookup in *.
    repeat match goal with
           | H : item _ _ = Ok _ |- _ => apply item_Ok in H
           end.
    eexists _, _, _, _. split_and!; try eassumption; done.
Qed.

(** ** Where the results go *)






Section BelowDestination.
Variable X : externals.
Variable dest : path.




End BelowDestination.

